(** * slack_exporter.py: a shallow embedding of [SlackExporter]

    The exporter talks to the Slack Web API, keeps a per-run cache of
    user profiles and writes one Markdown file per thread.  The values
    it handles are decoded JSON, used through [dict.get] with defaults,
    truthiness tests, [==], [len], slicing, iteration and f-strings.
    The embedding keeps that shape: a [json] value type, the Python
    operations the source applies to it (with the exceptions they
    raise), and a state-and-exception monad for the methods.

    Conventions.
    - A Python [str] is a Rocq [string], one character per code point
      (strings with code points above 255 are outside this type).
    - JSON numbers are integers ([JInt]); no field the exporter reads
      is a JSON real (timestamps are strings).
    - [float] is IEEE binary64, as [spec_float] at precision 53.
    - [print], [time.sleep] and [mkdir] are left out, and the file
      system never fails. *)

From Stdlib Require Import ZArith String Ascii List Bool Lia.
From Stdlib Require Import Sorting.Permutation Sorting.Sorted.
From Stdlib Require Import Floats.SpecFloat DecimalString.
From Stdlib Require Import Structures.OrderedTypeEx.
From stdpp Require Import gmap strings.
Import ListNotations.

Local Open Scope string_scope.
Local Open Scope Z_scope.
Local Set Warnings "-register-all".

(** ** Python values *)

Module Py.

(** What [json.loads] (through [response.json()]) produces.  A [dict]
    keeps its keys in insertion order; a decoded object has each key
    once. *)
Inductive json : Type :=
| JNull
| JBool (b : bool)
| JInt (n : Z)
| JStr (s : string)
| JList (l : list json)
| JObj (d : list (string * json)).

(** The exceptions the modelled code can raise.  [Exception] is the
    one the source raises itself, with its message; the others are
    raised by the interpreter and only their class is kept. *)
Inductive exn : Type :=
| Exception (msg : string)
| AttributeError
| TypeError
| ValueError
| OverflowError.

Inductive outcome (A : Type) : Type :=
| Ok (a : A)
| Raise (e : exn).
Arguments Ok {A} a.
Arguments Raise {A} e.

Definition obind {A B} (x : outcome A) (f : A -> outcome B) : outcome B :=
  match x with
  | Ok a => f a
  | Raise e => Raise e
  end.

(** *** Dictionaries *)

Fixpoint assoc (k : string) (d : list (string * json)) : option json :=
  match d with
  | [] => None
  | (k', v) :: d' => if String.eqb k k' then Some v else assoc k d'
  end.

(** [d[k] = v]: replaces the value of an existing key in place, appends
    a new key at the end. *)
Fixpoint dict_set (k : string) (v : json) (d : list (string * json))
  : list (string * json) :=
  match d with
  | [] => [(k, v)]
  | (k', v') :: d' =>
      if String.eqb k k' then (k, v) :: d' else (k', v') :: dict_set k v d'
  end.

(** [x.get(k, default)].  Only a dict has the method. *)
Definition get (x : json) (k : string) (default : json) : outcome json :=
  match x with
  | JObj d => Ok (match assoc k d with Some v => v | None => default end)
  | _ => Raise AttributeError
  end.

(** [x[k] = v] on a value that is a dict. *)
Definition setitem (x : json) (k : string) (v : json) : outcome json :=
  match x with
  | JObj d => Ok (JObj (dict_set k v d))
  | _ => Raise TypeError
  end.

(** *** Truth value, equality, order *)

(** [bool(x)], as tested by [if x], [not x] and [or]. *)
Definition truthy (x : json) : bool :=
  match x with
  | JNull => false
  | JBool b => b
  | JInt n => negb (n =? 0)
  | JStr s => negb (String.eqb s "")
  | JList l => match l with [] => false | _ => true end
  | JObj d => match d with [] => false | _ => true end
  end.

(** [a or b] *)
Definition or_ (a b : json) : json := if truthy a then a else b.

Definition Z_of_bool (b : bool) : Z := if b then 1 else 0.

(** [a == b].  [bool] is a subclass of [int]; dicts compare without
    regard to key order. *)
Fixpoint eq (a b : json) {struct a} : bool :=
  match a, b with
  | JNull, JNull => true
  | JBool x, JBool y => Bool.eqb x y
  | JBool x, JInt y => Z_of_bool x =? y
  | JInt x, JBool y => x =? Z_of_bool y
  | JInt x, JInt y => x =? y
  | JStr x, JStr y => String.eqb x y
  | JList l1, JList l2 =>
      (fix eq_list (l1 l2 : list json) {struct l1} : bool :=
         match l1, l2 with
         | [], [] => true
         | x :: l1', y :: l2' => eq x y && eq_list l1' l2'
         | _, _ => false
         end) l1 l2
  | JObj d1, JObj d2 =>
      (length d1 =? length d2)%nat &&
      (fix eq_items (d : list (string * json)) {struct d} : bool :=
         match d with
         | [] => true
         | (k, v) :: d' =>
             match assoc k d2 with
             | Some v' => eq v v'
             | None => false
             end && eq_items d'
         end) d1
  | _, _ => false
  end.

(** [x > 0] *)
Definition gt0 (x : json) : outcome bool :=
  match x with
  | JInt n => Ok (0 <? n)
  | JBool b => Ok b
  | _ => Raise TypeError
  end.

(** *** Sequences *)

Fixpoint chars (s : string) : list json :=
  match s with
  | EmptyString => []
  | String c s' => JStr (String c EmptyString) :: chars s'
  end.

(** The items a [for] loop or [list.extend] draws from [x]: the
    elements of a list, the characters of a string, the keys of a
    dict. *)
Definition iter (x : json) : outcome (list json) :=
  match x with
  | JList l => Ok l
  | JStr s => Ok (chars s)
  | JObj d => Ok (map (fun kv => JStr (fst kv)) d)
  | _ => Raise TypeError
  end.

(** [len(x)] *)
Definition len (x : json) : outcome nat :=
  match x with
  | JList l => Ok (length l)
  | JStr s => Ok (String.length s)
  | JObj d => Ok (length d)
  | _ => Raise TypeError
  end.

(** [x[1:]].  A dict cannot be sliced (TypeError up to Python 3.11,
    where a slice is unhashable; KeyError from 3.12 on). *)
Definition slice_from_1 (x : json) : outcome json :=
  match x with
  | JList l => Ok (JList (skipn 1 l))
  | JStr s => Ok (JStr (String.substring 1 (String.length s - 1) s))
  | _ => Raise TypeError
  end.

(** *** Strings *)

(** [s.replace(old, new)] for a one-character [old]. *)
Fixpoint replace_char (old : ascii) (new : string) (s : string) : string :=
  match s with
  | EmptyString => EmptyString
  | String c s' =>
      if Ascii.eqb c old then new ++ replace_char old new s'
      else String c (replace_char old new s')
  end.

(** [x.replace(old, new)]: a method of [str] only. *)
Definition replace (x : json) (old : ascii) (new : string) : outcome string :=
  match x with
  | JStr s => Ok (replace_char old new s)
  | _ => Raise AttributeError
  end.

Fixpoint mem_char (c : ascii) (s : string) : bool :=
  match s with
  | EmptyString => false
  | String c' s' => Ascii.eqb c c' || mem_char c s'
  end.

Definition hex_digit (n : N) : ascii :=
  ascii_of_N (if (n <? 10)%N then 48 + n else 87 + n)%N.

(** Whether [repr] prints the character as it is (Unicode categories
    other than Cc, Cf, Zs above ASCII, for code points below 256). *)
Definition printable (c : ascii) : bool :=
  let n := N_of_ascii c in
  ((32 <=? n) && (n <=? 126) || (161 <=? n) && negb (n =? 173))%N.

Definition repr_char (quote c : ascii) : string :=
  if Ascii.eqb c "\" then "\\"
  else if Ascii.eqb c quote then String "\" (String quote "")
  else if Ascii.eqb c "009" then "\t"
  else if Ascii.eqb c "010" then "\n"
  else if Ascii.eqb c "013" then "\r"
  else if printable c then String c ""
  else let n := N_of_ascii c in
       String "\" (String "x" (String (hex_digit (n / 16)) (String (hex_digit (n mod 16)) ""))).

Fixpoint repr_chars (quote : ascii) (s : string) : string :=
  match s with
  | EmptyString => EmptyString
  | String c s' => repr_char quote c ++ repr_chars quote s'
  end.

(** [repr(s)] of a string: single quotes, unless the string has a
    single quote and no double quote. *)
Definition repr_str (s : string) : string :=
  let quote : ascii :=
    if mem_char "'" s && negb (mem_char "034" s) then "034"%char else "'"%char in
  String quote (repr_chars quote s ++ String quote "").

Definition str_int (n : Z) : string := NilZero.string_of_int (Z.to_int n).

Fixpoint join (sep : string) (l : list string) : string :=
  match l with
  | [] => ""
  | [s] => s
  | s :: l' => s ++ sep ++ join sep l'
  end.

(** [repr(x)] *)
Fixpoint repr (x : json) : string :=
  match x with
  | JNull => "None"
  | JBool true => "True"
  | JBool false => "False"
  | JInt n => str_int n
  | JStr s => repr_str s
  | JList l => "[" ++ join ", " (map repr l) ++ "]"
  | JObj d =>
      "{" ++ join ", " (map (fun kv => repr_str (fst kv) ++ ": " ++ repr (snd kv)) d) ++ "}"
  end.

(** [str(x)], which is what an f-string field [{x}] formats. *)
Definition str (x : json) : string :=
  match x with
  | JStr s => s
  | _ => repr x
  end.

(** ["".join(parts)]: every part must be a [str]. *)
Fixpoint join_empty (parts : list json) : outcome string :=
  match parts with
  | [] => Ok ""
  | JStr s :: parts' => obind (join_empty parts') (fun r => Ok (s ++ r))
  | _ :: _ => Raise TypeError
  end.

(** *** Floats *)

(** binary64 *)
Definition prec : Z := 53.
Definition emax : Z := 1024.

Definition flt : spec_float -> spec_float -> bool := SFltb.
Definition fle : spec_float -> spec_float -> bool := SFleb.

Definition is_nan (x : spec_float) : bool :=
  match x with
  | S754_nan => true
  | _ => false
  end.

(** The double nearest to [m * 10^e] (ties to even), with the sign
    [neg]; [m] is not negative.  Too large a value rounds to an
    infinity, too small a one to a zero. *)
Definition round_decimal (neg : bool) (m e : Z) : spec_float :=
  if m =? 0 then S754_zero neg
  else if 0 <=? e then
    binary_normalize prec emax ((if neg then -1 else 1) * (m * 10 ^ e)) 0 neg
  else
    let '(q, e', l) := SFdiv_core_binary prec emax m 0 (10 ^ (- e)) 0 in
    binary_round_aux prec emax neg q e' l.

(** [float(n)] of an [int]. *)
Definition float_of_int (n : Z) : outcome spec_float :=
  match binary_normalize prec emax n 0 false with
  | S754_infinity _ => Raise OverflowError
  | x => Ok x
  end.

(** White space that [float] strips from both ends of a string. *)
Definition is_space (c : ascii) : bool :=
  let n := N_of_ascii c in
  ((9 <=? n) && (n <=? 13) || (n =? 32) || (n =? 133) || (n =? 160))%N.

Definition is_digit (c : ascii) : bool :=
  let n := N_of_ascii c in ((48 <=? n) && (n <=? 57))%N.

Definition digit_value (c : ascii) : Z := Z.of_N (N_of_ascii c) - 48.

Definition lower (c : ascii) : ascii :=
  let n := N_of_ascii c in
  if ((65 <=? n) && (n <=? 90))%N then ascii_of_N (n + 32) else c.

Fixpoint lower_str (s : string) : string :=
  match s with
  | EmptyString => EmptyString
  | String c s' => String (lower c) (lower_str s')
  end.

Fixpoint lstrip (s : string) : string :=
  match s with
  | String c s' => if is_space c then lstrip s' else s
  | EmptyString => EmptyString
  end.

Fixpoint rstrip (s : string) : string :=
  match s with
  | EmptyString => EmptyString
  | String c s' =>
      match rstrip s' with
      | EmptyString => if is_space c then EmptyString else String c EmptyString
      | r => String c r
      end
  end.

(** Removes the underscores of a numeric literal; each must stand
    between two digits. *)
Fixpoint drop_underscores (prev : ascii) (s : string) : option string :=
  match s with
  | EmptyString => if Ascii.eqb prev "_" then None else Some EmptyString
  | String c s' =>
      if Ascii.eqb c "_" then
        if is_digit prev then drop_underscores c s' else None
      else if Ascii.eqb prev "_" && negb (is_digit c) then None
      else option_map (String c) (drop_underscores c s')
  end.

(** A leading run of digits: its value, its length, the rest. *)
Fixpoint digits (acc : Z) (n : Z) (s : string) : Z * Z * string :=
  match s with
  | String c s' =>
      if is_digit c then digits (10 * acc + digit_value c) (n + 1) s'
      else (acc, n, s)
  | EmptyString => (acc, n, s)
  end.

Definition sign (s : string) : bool * string :=
  match s with
  | String "-" s' => (true, s')
  | String "+" s' => (false, s')
  | _ => (false, s)
  end.

(** The exponent part of a literal, which must reach the end. *)
Definition exponent (s : string) : option Z :=
  match s with
  | EmptyString => Some 0
  | String c s' =>
      if Ascii.eqb (lower c) "e" then
        let (eneg, s1) := sign s' in
        let '(ev, ne, s2) := digits 0 0 s1 in
        if (ne =? 0) || negb (String.eqb s2 "") then None
        else Some (if eneg then - ev else ev)
      else None
  end.

(** [float(s)] of a [str]; [None] is ValueError. *)
Definition float_of_str (s : string) : option spec_float :=
  match drop_underscores " " (rstrip (lstrip s)) with
  | None => None
  | Some s0 =>
      let (neg, s1) := sign s0 in
      let w := lower_str s1 in
      if String.eqb w "inf" || String.eqb w "infinity" then Some (S754_infinity neg)
      else if String.eqb w "nan" then Some S754_nan
      else
        let '(ip, ni, s2) := digits 0 0 s1 in
        let '(m, nf, s3) :=
          match s2 with
          | String "." s' => digits ip 0 s'
          | _ => (ip, 0, s2)
          end in
        if ni + nf =? 0 then None
        else option_map (fun e => round_decimal neg m (e - nf)) (exponent s3)
  end.

(** [float(x)] *)
Definition float (x : json) : outcome spec_float :=
  match x with
  | JInt n => float_of_int n
  | JBool b => float_of_int (Z_of_bool b)
  | JStr s =>
      match float_of_str s with
      | Some f => Ok f
      | None => Raise ValueError
      end
  | _ => Raise TypeError
  end.

(** *** Dictionary keys *)

(** The hashable JSON values, up to the equality a [dict] uses for its
    keys ([True] and [1] are one key). *)
Inductive key : Type :=
| KNone
| KInt (n : Z)
| KStr (s : string).

#[export] Instance key_eq_dec : EqDecision key.
Proof. solve_decision. Defined.

#[export] Instance key_countable : Countable key.
Proof.
  refine (inj_countable'
    (fun k => match k with
              | KNone => inl tt
              | KInt n => inr (inl n)
              | KStr s => inr (inr s)
              end)
    (fun x => match x with
              | inl _ => KNone
              | inr (inl n) => KInt n
              | inr (inr s) => KStr s
              end) _).
  intros [ | n | s]; reflexivity.
Defined.

(** [hash(x)] succeeds; [None] is TypeError (unhashable type). *)
Definition hash_key (x : json) : option key :=
  match x with
  | JNull => Some KNone
  | JBool b => Some (KInt (Z_of_bool b))
  | JInt n => Some (KInt n)
  | JStr s => Some (KStr s)
  | JList _ | JObj _ => None
  end.

End Py.

(** ** The exporter *)

Module Exporter.
Import Py.

(** A call [session.get(base_url/endpoint, params=params)]. *)
Record request : Type := {
  endpoint : string;
  params : list (string * json) }.

(** What [session.get], [raise_for_status] and [response.json()]
    together come to: a [requests.exceptions.RequestException] (with
    its [str]) or the decoded body. *)
Inductive response : Type :=
| RequestException (e : string)
| Decoded (data : json).

(** A [pathlib] path, as the operands joined by [/]. *)
Definition path : Type := list string.

(** The state a method runs in.  [session] answers a request, given the
    requests sent before it; [user_cache] is [self.user_cache]; [sent]
    logs the requests made, oldest first; [opened] lists the files
    opened for writing. *)
Record state : Type := {
  session : list request -> request -> response;
  user_cache : gmap key json;
  sent : list request;
  opened : list path }.

Definition set_user_cache (c : gmap key json) (st : state) : state :=
  {| session := session st; user_cache := c; sent := sent st; opened := opened st |}.

Definition set_sent (l : list request) (st : state) : state :=
  {| session := session st; user_cache := user_cache st; sent := l; opened := opened st |}.

Definition set_opened (l : list path) (st : state) : state :=
  {| session := session st; user_cache := user_cache st; sent := sent st; opened := l |}.

(** [__init__]: nothing cached, nothing sent yet. *)
Definition init (session : list request -> request -> response) : state :=
  {| session := session; user_cache := ∅; sent := []; opened := [] |}.

(** *** State and exceptions *)

Definition M (A : Type) : Type := state -> outcome A * state.

Definition ret {A} (a : A) : M A := fun st => (Ok a, st).

Definition raise {A} (e : exn) : M A := fun st => (Raise e, st).

Definition bind {A B} (c : M A) (k : A -> M B) : M B :=
  fun st =>
    match c st with
    | (Ok a, st') => k a st'
    | (Raise e, st') => (Raise e, st')
    end.

Definition lift {A} (o : outcome A) : M A := fun st => (o, st).

(** [try: c  except: handler] with a bare [except]. *)
Definition try_except {A} (c handler : M A) : M A :=
  fun st =>
    match c st with
    | (Ok a, st') => (Ok a, st')
    | (Raise _, st') => handler st'
    end.

Notation "'let!' x ':=' c 'in' k" := (bind c (fun x => k))
  (at level 10, x pattern, c at level 100, k at level 200).

(** [for x in l: a = f(a, x)] *)
Fixpoint foldM {A B} (f : A -> B -> M A) (a : A) (l : list B) : M A :=
  match l with
  | [] => ret a
  | x :: l' => let! a' := f a x in foldM f a' l'
  end.

(** *** [_make_request] *)

Definition _make_request (endpoint : string) (params : list (string * json)) : M json :=
  fun st =>
    let req := {| endpoint := endpoint; params := params |} in
    let st' := set_sent (sent st ++ [req])%list st in
    match session st (sent st) req with
    | RequestException e => (Raise (Exception ("Request failed: " ++ e)), st')
    | Decoded data =>
        (let! ok := lift (get data "ok" JNull) in
         if negb (truthy ok) then
           let! error_msg := lift (get data "error" (JStr "Unknown error")) in
           raise (Exception ("Slack API error: " ++ str error_msg))
         else ret data) st'
    end.

(** *** [get_user_info] *)

Definition get_user_info (user_id : json) : M json :=
  match hash_key user_id with
  | None => raise TypeError
  | Some k =>
      fun st =>
        match user_cache st !! k with
        | Some user_info => (Ok user_info, st)
        | None =>
            try_except
              (let! data := _make_request "users.info" [("user", user_id)] in
               let! user_info := lift (get data "user" (JObj [])) in
               fun st1 => (Ok user_info, set_user_cache (<[k := user_info]> (user_cache st1)) st1))
              (ret (JObj [])) st
        end
  end.

(** *** [get_channel_info] *)

Definition get_channel_info (channel_id : json) : M json :=
  let! data := _make_request "conversations.info" [("channel", channel_id)] in
  lift (get data "channel" (JObj [])).

(** *** [fetch_messages] *)

(** [data.get("response_metadata", {}).get("next_cursor")] *)
Definition next_cursor (data : json) : outcome json :=
  obind (get data "response_metadata" (JObj [])) (fun metadata =>
  get metadata "next_cursor" JNull).

(** The query of one page. *)
Definition history_params (channel_id : json) (oldest : string) (cursor : json)
  : list (string * json) :=
  ([("channel", channel_id); ("oldest", JStr oldest); ("limit", JInt 100)]
   ++ (if truthy cursor then [("cursor", cursor)] else []))%list.

(** One turn of the [while True] loop: [None] for the cursor is
    [break]. *)
Definition history_page (channel_id : json) (oldest : string)
    (cursor : json) (messages : list json) : M (list json * option json) :=
  let params := history_params channel_id oldest cursor in
  let! data := _make_request "conversations.history" params in
  let! batch_messages := lift (get data "messages" (JList [])) in
  let! batch := lift (iter batch_messages) in
  let messages := (messages ++ batch)%list in
  let! has_more := lift (get data "has_more" JNull) in
  if negb (truthy has_more) then ret (messages, None)
  else
    let! cursor := lift (next_cursor data) in
    if negb (truthy cursor) then ret (messages, None)
    else ret (messages, Some cursor).

(** The loop, run for at most [fuel] turns; [None] when they do not
    suffice. *)
Fixpoint history_loop (fuel : nat) (channel_id : json) (oldest : string)
    (cursor : json) (messages : list json) (st : state)
  : option (outcome (list json) * state) :=
  match fuel with
  | O => None
  | S fuel' =>
      match history_page channel_id oldest cursor messages st with
      | (Raise e, st') => Some (Raise e, st')
      | (Ok (messages', None), st') => Some (Ok messages', st')
      | (Ok (messages', Some cursor'), st') =>
          history_loop fuel' channel_id oldest cursor' messages' st'
      end
  end.

(** [float(x.get("ts", 0))] *)
Definition ts_key (x : json) : outcome spec_float :=
  obind (get x "ts" (JInt 0)) float.

Fixpoint decorate (l : list json) : outcome (list (spec_float * json)) :=
  match l with
  | [] => Ok []
  | x :: l' =>
      obind (ts_key x) (fun k =>
      obind (decorate l') (fun d => Ok ((k, x) :: d)))
  end.

(** [list.sort] compares with [<] only and is stable.  Where [<]
    orders the keys totally (floats other than NaN) its result is
    that of any stable sort; here, insertion from the right.  With a
    NaN among the keys the result of [list.sort] depends on how it
    finds and merges its runs, which this model does not follow: what
    is proved of the order of the result is proved for keys without
    NaN. *)
Fixpoint insert {A} (lt : A -> A -> bool) (x : A) (l : list A) : list A :=
  match l with
  | [] => [x]
  | y :: l' => if lt y x then y :: insert lt x l' else x :: y :: l'
  end.

Definition sort {A} (lt : A -> A -> bool) (l : list A) : list A :=
  fold_right (insert lt) [] l.

(** [messages.sort(key=lambda x: float(x.get("ts", 0)))] *)
Definition sort_by_ts (messages : list json) : outcome (list json) :=
  obind (decorate messages) (fun d =>
  Ok (map snd (sort (fun a b => flt (fst a) (fst b)) d))).

(** *** [_fetch_thread_replies] *)

Definition _fetch_thread_replies (channel_id thread_ts : json) : M json :=
  let params := [("channel", channel_id); ("ts", thread_ts); ("limit", JInt 100)] in
  let! data := _make_request "conversations.replies" params in
  let! all_messages := lift (get data "messages" (JList [])) in
  let! n := lift (len all_messages) in
  if (1 <? n)%nat then lift (slice_from_1 all_messages) else ret (JList []).

(** *** [_fetch_replies_for_messages] *)

Definition fetch_replies_for (channel_id : json) (msg : json) : M json :=
  let! reply_count := lift (get msg "reply_count" (JInt 0)) in
  let! threaded := lift (gt0 reply_count) in
  if threaded then
    let! thread_ts := lift (get msg "ts" JNull) in
    let! replies := _fetch_thread_replies channel_id thread_ts in
    lift (setitem msg "replies" replies)
  else ret msg.

Fixpoint _fetch_replies_for_messages (channel_id : json) (messages : list json)
  : M (list json) :=
  match messages with
  | [] => ret []
  | msg :: rest =>
      let! msg' := fetch_replies_for channel_id msg in
      let! rest' := _fetch_replies_for_messages channel_id rest in
      ret (msg' :: rest')
  end.

(** [oldest] is [str(oldest_timestamp)], read off the clock. *)
Definition fetch_messages (fuel : nat) (channel_id : json) (oldest : string)
    (include_replies : bool) (st : state) : option (outcome (list json) * state) :=
  match history_loop fuel channel_id oldest JNull [] st with
  | None => None
  | Some (Raise e, st') => Some (Raise e, st')
  | Some (Ok messages, st') =>
      Some ((let! messages := lift (sort_by_ts messages) in
             if include_replies then _fetch_replies_for_messages channel_id messages
             else ret messages) st')
  end.

(** *** [_get_user_display] *)

Definition _get_user_display (user_id message : json) : M json :=
  let! subtype := lift (get message "subtype" JNull) in
  if eq subtype (JStr "bot_message") then lift (get message "username" (JStr "Bot"))
  else if negb (truthy user_id) then ret (JStr "Unknown User")
  else
    let! user_info := get_user_info user_id in
    if truthy user_info then
      let! real_name := lift (get user_info "real_name" (JStr "")) in
      let! profile := lift (get user_info "profile" (JObj [])) in
      let! display_name := lift (get profile "display_name" (JStr "")) in
      let! username := lift (get user_info "name" (JStr "")) in
      ret (or_ real_name (or_ display_name (or_ username (JStr ("User " ++ str user_id)))))
    else ret (JStr ("User " ++ str user_id)).

(** *** [_extract_text_from_blocks] *)

(** The [if]/[elif] chain on one item of a section; the result is
    [text_parts] after it. *)
Definition append_item (text_parts : list json) (item : json) : M (list json) :=
  let! type := lift (get item "type" JNull) in
  if eq type (JStr "text") then
    let! text := lift (get item "text" (JStr "")) in
    ret (text_parts ++ [text])%list
  else if eq type (JStr "link") then
    let! default := lift (get item "url" (JStr "")) in
    let! link_text := lift (get item "text" default) in
    let! url := lift (get item "url" (JStr "")) in
    ret (text_parts ++ [JStr ("[" ++ str link_text ++ "](" ++ str url ++ ")")])%list
  else if eq type (JStr "user") then
    let! user_id := lift (get item "user_id" (JStr "unknown")) in
    let! user_info := get_user_info user_id in
    let! user_display :=
      if truthy user_info then
        let! profile := lift (get user_info "profile" (JObj [])) in
        let! display_name := lift (get profile "display_name" (JStr "")) in
        let! username := lift (get user_info "name" (JStr "")) in
        ret (or_ display_name (or_ username user_id))
      else ret user_id in
    ret (text_parts ++ [JStr ("@" ++ str user_display)])%list
  else if eq type (JStr "emoji") then
    let! name := lift (get item "name" (JStr "")) in
    ret (text_parts ++ [JStr (":" ++ str name ++ ":")])%list
  else ret text_parts.

Definition append_element (text_parts : list json) (element : json) : M (list json) :=
  let! type := lift (get element "type" JNull) in
  if eq type (JStr "rich_text_section") then
    let! elements := lift (get element "elements" (JList [])) in
    let! items := lift (iter elements) in
    foldM append_item text_parts items
  else ret text_parts.

Definition append_block (text_parts : list json) (block : json) : M (list json) :=
  let! type := lift (get block "type" JNull) in
  if eq type (JStr "rich_text") then
    let! elements := lift (get block "elements" (JList [])) in
    let! elements := lift (iter elements) in
    foldM append_element text_parts elements
  else ret text_parts.

(** The result is a [str], or [JNull] for [None]. *)
Definition _extract_text_from_blocks (blocks : json) : M json :=
  let! blocks := lift (iter blocks) in
  let! text_parts := foldM append_block [] blocks in
  match text_parts with
  | [] => ret JNull
  | _ => let! text := lift (join_empty text_parts) in ret (JStr text)
  end.

(** *** [_get_thread_participants] *)

(** A [set] of labels, as the list of its members. *)
Definition set_add (x : json) (s : list json) : outcome (list json) :=
  match hash_key x with
  | None => Raise TypeError
  | Some k =>
      Ok (if existsb (fun y => bool_decide (hash_key y = Some k)) s then s
          else s ++ [x])%list
  end.

Definition is_str (x : json) : bool :=
  match x with JStr _ => true | _ => false end.

Definition is_int (x : json) : bool :=
  match x with JInt _ | JBool _ => true | _ => false end.

Definition str_lt (a b : json) : bool :=
  match a, b with
  | JStr x, JStr y => String.ltb x y
  | _, _ => false
  end.

Definition int_lt (a b : json) : bool :=
  match hash_key a, hash_key b with
  | Some (KInt x), Some (KInt y) => x <? y
  | _, _ => false
  end.

(** [sorted(list(s))] of a set: strings order among themselves and
    so do numbers; two members of other or of mixed types do not
    compare. *)
Definition sorted (s : list json) : outcome (list json) :=
  match s with
  | [] | [_] => Ok s
  | _ =>
      if forallb is_str s then Ok (sort str_lt s)
      else if forallb is_int s then Ok (sort int_lt s)
      else Raise TypeError
  end.

Definition add_reply_author (participants : list json) (reply : json) : M (list json) :=
  let! reply_user := lift (get reply "user" (JStr "")) in
  if truthy reply_user then
    let! label := _get_user_display reply_user reply in
    lift (set_add label participants)
  else ret participants.

Definition _get_thread_participants (parent_msg : json) : M (list json) :=
  let! parent_user := lift (get parent_msg "user" (JStr "")) in
  let! participants :=
    if truthy parent_user then
      let! label := _get_user_display parent_user parent_msg in
      lift (set_add label [])
    else ret [] in
  let! replies := lift (get parent_msg "replies" (JList [])) in
  let! replies := lift (iter replies) in
  let! participants := foldM add_reply_author participants replies in
  lift (sorted participants).

(** *** [_extract_thread_metadata] *)

(** The ["timestamp"] entry is left out: its [try]/[except] yields a
    [datetime] on either branch and touches nothing else. *)
Record thread_metadata : Type := {
  thread_id : json;
  author : json;
  reply_count : nat;
  participants : list json }.

Definition _extract_thread_metadata (parent_msg : json) : M thread_metadata :=
  let! ts := lift (get parent_msg "ts" (JStr "")) in
  let! user := lift (get parent_msg "user" (JStr "")) in
  let! author := _get_user_display user parent_msg in
  let! replies := lift (get parent_msg "replies" (JList [])) in
  let! reply_count := lift (len replies) in
  let! participants := _get_thread_participants parent_msg in
  ret {| thread_id := ts; author := author;
         reply_count := reply_count; participants := participants |}.

(** *** [export_threads_individually] *)

(** [msg.get("thread_ts") == msg.get("ts")] *)
Definition is_thread_parent (msg : json) : outcome bool :=
  obind (get msg "thread_ts" JNull) (fun thread_ts =>
  obind (get msg "ts" JNull) (fun ts => Ok (eq thread_ts ts))).

Fixpoint thread_parents (messages : list json) : outcome (list json) :=
  match messages with
  | [] => Ok []
  | msg :: rest =>
      obind (is_thread_parent msg) (fun p =>
      obind (thread_parents rest) (fun ps => Ok (if p then msg :: ps else ps)))
  end.

(** What [.replace(".", "_")] makes of a thread id. *)
Definition normalize (s : string) : string := replace_char "." "_" s.

Definition thread_filename (thread_id : string) : string :=
  "thread_" ++ thread_id ++ ".md".

(** [Path(output_dir) / channel_name / "threads"] *)
Definition threads_dir (output_dir channel_name : string) : path :=
  [output_dir; channel_name; "threads"].

Record counts : Type := {
  exported_count : nat;
  skipped_count : nat }.

Section ThreadExport.

(** The body of the [with open(file_path, 'w')] block, which renders
    the thread as Markdown into the opened file.  It is taken as
    given: it runs in the exporter's state (rendering resolves user
    names) and may raise. *)
Variable write_thread :
  path -> string -> json -> json -> thread_metadata -> json -> M unit.

(** One turn of the loop over the thread parents. *)
Definition export_parent (output_dir channel_name : string) (channel_id : json)
    (include_standalone : bool) (c : counts) (parent_msg : json) : M counts :=
  let! replies := lift (get parent_msg "replies" (JList [])) in
  let! n := lift (len replies) in
  let has_replies := (0 <? n)%nat in
  if negb has_replies && negb include_standalone then
    ret {| exported_count := exported_count c;
           skipped_count := S (skipped_count c) |}
  else
    let! metadata := _extract_thread_metadata parent_msg in
    let! thread_id := lift (replace (thread_id metadata) "." "_") in
    let filename := thread_filename thread_id in
    let file_path := (threads_dir output_dir channel_name ++ [filename])%list in
    let! _ := (fun st => (Ok tt, set_opened (opened st ++ [file_path])%list st)) in
    let! _ := write_thread file_path channel_name channel_id parent_msg metadata replies in
    ret {| exported_count := S (exported_count c);
           skipped_count := skipped_count c |}.

(** The result is the two counters the method reports. *)
Definition export_threads_individually (messages : list json)
    (output_dir channel_name : string) (channel_id : json)
    (include_standalone : bool) : M counts :=
  let! parents := lift (thread_parents messages) in
  foldM (export_parent output_dir channel_name channel_id include_standalone)
    {| exported_count := O; skipped_count := O |} parents.

End ThreadExport.

End Exporter.

(** ** The Markdown of a thread

    The body of the [with open(file_path, 'w')] block of
    [export_threads_individually] and [_write_message_md].  The file
    handle is the list of the strings written to it so far, oldest
    first, passed along and returned; what a call that raises had
    written before is not kept. *)

Module Markdown.
Import Py Exporter.

(** The newline character. *)
Definition nl : string := String "010" "".

(** [file.write(s)] *)
Definition write (file : list string) (s : string) : list string :=
  (file ++ [s])%list.

(** [s * n] *)
Fixpoint repeat_str (s : string) (n : nat) : string :=
  match n with
  | O => ""
  | S n' => s ++ repeat_str s n'
  end.

(** [s.split(sep)] for a one-character [sep]: never empty. *)
Fixpoint split_char (sep : ascii) (s : string) : list string :=
  match s with
  | EmptyString => [EmptyString]
  | String c s' =>
      if Ascii.eqb c sep then EmptyString :: split_char sep s'
      else
        match split_char sep s' with
        | line :: rest => String c line :: rest
        | [] => [String c EmptyString]
        end
  end.

(** [x.split(sep)]: a method of [str] only. *)
Definition split (x : json) (sep : ascii) : outcome (list string) :=
  match x with
  | JStr s => Ok (split_char sep s)
  | _ => Raise AttributeError
  end.

(** White space, as [str.strip] sees it (code points below 256). *)
Definition is_whitespace (c : ascii) : bool :=
  let n := N_of_ascii c in
  ((9 <=? n) && (n <=? 13) || (28 <=? n) && (n <=? 32) || (n =? 133) || (n =? 160))%N.

Fixpoint strip_left (s : string) : string :=
  match s with
  | String c s' => if is_whitespace c then strip_left s' else s
  | EmptyString => EmptyString
  end.

Fixpoint strip_right (s : string) : string :=
  match s with
  | EmptyString => EmptyString
  | String c s' =>
      match strip_right s' with
      | EmptyString => if is_whitespace c then EmptyString else String c EmptyString
      | r => String c r
      end
  end.

(** [s.strip()] *)
Definition strip (s : string) : string := strip_right (strip_left s).

(** [sep.join(parts)]: every part must be a [str]. *)
Fixpoint join_str (sep : string) (parts : list json) : outcome string :=
  match parts with
  | [] => Ok ""
  | JStr s :: parts' =>
      match parts' with
      | [] => Ok s
      | _ => obind (join_str sep parts') (fun r => Ok (s ++ sep ++ r))
      end
  | _ :: _ => Raise TypeError
  end.

(** [text[:50] + "..."], evaluated when [len(text) > 50]: a list does
    not take a [str] on its right, and a dict cannot be sliced
    (TypeError up to Python 3.11, KeyError from 3.12 on). *)
Definition head_50 (text : json) : outcome json :=
  match text with
  | JStr s => Ok (JStr (String.substring 0 50 s ++ "..."))
  | _ => Raise TypeError
  end.

(** The title of a thread file: the parent's text, or else what its
    blocks render to, cut after 50 characters and put on one line. *)
Definition thread_title (parent_msg : json) : M string :=
  let! text := lift (get parent_msg "text" (JStr "")) in
  let! text :=
    if negb (truthy text) then
      let! blocks := lift (get parent_msg "blocks" (JList [])) in
      if truthy blocks then
        let! block_text := _extract_text_from_blocks blocks in
        ret (or_ block_text (JStr ""))
      else ret text
    else ret text in
  let! n := lift (len text) in
  let! title := if (50 <? n)%nat then lift (head_50 text) else ret text in
  let! title := lift (replace title "010" " ") in
  ret (strip title).

Section Clock.

(** [datetime.fromtimestamp(t).strftime('%Y-%m-%d %H:%M:%S')], which
    depends on the local time zone; [None] where it raises. *)
Variable local_time : spec_float -> option string.

(** The [try] of [_write_message_md]: the formatted time of [ts], or
    [ts] itself when anything fails. *)
Definition format_ts (ts : json) : json :=
  match float ts with
  | Ok t =>
      match local_time t with
      | Some timestamp => JStr timestamp
      | None => ts
      end
  | Raise _ => ts
  end.

(** One turn of the loop over the files of a message. *)
Definition write_file (indent : string) (level : Z) (file : list string)
    (file_obj : json) : M (list string) :=
  let! file_name := lift (get file_obj "name" (JStr "file")) in
  let! file_title := lift (get file_obj "title" file_name) in
  let! permalink := lift (get file_obj "permalink" (JStr "")) in
  if level =? 0 then
    ret (write file
           (nl ++ "**[File: " ++ str file_title ++ "](" ++ str permalink ++ ")**" ++ nl))
  else
    ret (write file
           (indent ++ "> **[File: " ++ str file_title ++ "](" ++ str permalink
                   ++ ")**" ++ nl)).

Definition _write_message_md (file : list string) (message : json) (level : Z)
  : M (list string) :=
  let indent := repeat_str "  " (Z.to_nat level) in
  let! user_id := lift (get message "user" (JStr "")) in
  let! username := _get_user_display user_id message in
  let! ts := lift (get message "ts" (JStr "")) in
  let timestamp := format_ts ts in
  let! text := lift (get message "text" (JStr "")) in
  let! blocks := lift (get message "blocks" (JList [])) in
  let! text :=
    if truthy blocks then
      let! block_text := _extract_text_from_blocks blocks in
      ret (if truthy block_text then block_text else text)
    else ret text in
  let file :=
    if level =? 0 then
      let file := write file ("## " ++ str username ++ nl) in
      write file ("**" ++ str timestamp ++ "**" ++ nl ++ nl)
    else
      let file :=
        write file (indent ++ "> **" ++ str username ++ "** - " ++ str timestamp ++ nl) in
      write file (indent ++ ">" ++ nl) in
  let! file :=
    if truthy text then
      if level =? 0 then ret (write file (str text ++ nl))
      else
        let! lines := lift (split text "010") in
        let file := fold_left (fun file line => write file (indent ++ "> " ++ line ++ nl))
                      lines file in
        ret (write file (indent ++ ">" ++ nl))
    else ret file in
  let! files := lift (get message "files" (JList [])) in
  if truthy files then
    let! files := lift (iter files) in
    foldM (write_file indent level) file files
  else ret file.

(** The [with] block.  [started] is
    [metadata['timestamp'].strftime('%Y-%m-%d %H:%M:%S')], the entry
    that [thread_metadata] leaves out. *)
Definition thread_body (channel_name : string) (channel_id parent_msg : json)
    (metadata : thread_metadata) (started : string) (replies : json)
    (file : list string) : M (list string) :=
  let! title := thread_title parent_msg in
  let file := write file ("# Thread: " ++ title ++ nl ++ nl) in
  let file := write file ("**Thread ID:** " ++ str (thread_id metadata) ++ nl) in
  let file := write file ("**Channel:** #" ++ channel_name ++ nl) in
  let file := write file ("**Channel ID:** " ++ str channel_id ++ nl) in
  let file := write file ("**Started:** " ++ started ++ nl) in
  let file := write file ("**Author:** " ++ str (author metadata) ++ nl) in
  let file :=
    write file ("**Reply Count:** " ++ str_int (Z.of_nat (reply_count metadata)) ++ nl) in
  let! file :=
    match participants metadata with
    | [] => ret file
    | _ =>
        let! participants_str := lift (join_str ", " (participants metadata)) in
        ret (write file ("**Participants:** " ++ participants_str ++ nl))
    end in
  let file := write file (nl ++ "---" ++ nl ++ nl) in
  let file := write file ("## Parent Message" ++ nl ++ nl) in
  let! file := _write_message_md file parent_msg 0 in
  let file := write file nl in
  let! n := lift (len replies) in
  if (0 <? n)%nat then
    let file := write file (nl ++ "## Replies (" ++ str_int (Z.of_nat n) ++ ")" ++ nl ++ nl) in
    let! replies := lift (iter replies) in
    foldM (fun file reply =>
             let! file := _write_message_md file reply 1 in
             ret (write file nl)) file replies
  else ret file.

End Clock.

(** A string that begins a quoted line at the given indent and ends
    its line. *)
Definition quoted (indent chunk : string) : Prop :=
  exists body, chunk = indent ++ ">" ++ body ++ nl.

End Markdown.

(** ** Rich text, as the specification describes it

    The renderer's input read as typed data, and the rendering the
    specification gives for it, to be compared with
    [_extract_text_from_blocks]. *)

Module RichText.
Import Py Exporter.

Inductive item : Type :=
| Text (text : string)
| Link (text : option string) (url : string)
| Mention (user_id : string)
| Emoji (name : string)
| Unrecognized.

Inductive element : Type :=
| RichTextSection (items : list item)
| OtherElement.

Inductive block : Type :=
| RichTextBlock (elements : list element)
| OtherBlock.

Fixpoint decode_list {A} (decode : json -> option A) (l : list json) : option (list A) :=
  match l with
  | [] => Some []
  | x :: l' =>
      match decode x, decode_list decode l' with
      | Some a, Some r => Some (a :: r)
      | _, _ => None
      end
  end.

Definition kind_of (d : list (string * json)) : json :=
  match assoc "type" d with Some k => k | None => JNull end.

(** The items, sections and blocks of the Slack format; [None] for
    JSON of another shape. *)
Definition decode_item (x : json) : option item :=
  match x with
  | JObj d =>
      if eq (kind_of d) (JStr "text") then
        match assoc "text" d with
        | Some (JStr t) => Some (Text t)
        | _ => None
        end
      else if eq (kind_of d) (JStr "link") then
        match assoc "url" d, assoc "text" d with
        | Some (JStr u), Some (JStr t) => Some (Link (Some t) u)
        | Some (JStr u), None => Some (Link None u)
        | _, _ => None
        end
      else if eq (kind_of d) (JStr "user") then
        match assoc "user_id" d with
        | Some (JStr u) => Some (Mention u)
        | _ => None
        end
      else if eq (kind_of d) (JStr "emoji") then
        match assoc "name" d with
        | Some (JStr n) => Some (Emoji n)
        | _ => None
        end
      else Some Unrecognized
  | _ => None
  end.

Definition decode_children {A} (decode : json -> option A) (d : list (string * json))
  : option (list A) :=
  match assoc "elements" d with
  | Some (JList l) => decode_list decode l
  | Some _ => None
  | None => Some []
  end.

Definition decode_element (x : json) : option element :=
  match x with
  | JObj d =>
      if eq (kind_of d) (JStr "rich_text_section")
      then option_map RichTextSection (decode_children decode_item d)
      else Some OtherElement
  | _ => None
  end.

Definition decode_block (x : json) : option block :=
  match x with
  | JObj d =>
      if eq (kind_of d) (JStr "rich_text")
      then option_map RichTextBlock (decode_children decode_element d)
      else Some OtherBlock
  | _ => None
  end.

(** The label of a mention: the user is resolved through the cache;
    the label is the profile's display name, else the user name, else
    the raw ID. *)
Definition mention_label (user_id : string) : M string :=
  let! profile := get_user_info (JStr user_id) in
  if truthy profile then
    let! display_name :=
      lift (obind (get profile "profile" (JObj [])) (fun p =>
            get p "display_name" (JStr ""))) in
    let! username := lift (get profile "name" (JStr "")) in
    ret (str (if truthy display_name then display_name
              else if truthy username then username
              else JStr user_id))
  else ret user_id.

(** What an item contributes: text verbatim, a link as [[label](url)]
    with the URL for a missing label, a mention as [@label], an emoji
    as [:name:], anything else nothing. *)
Definition item_forms (i : item) : M (list string) :=
  match i with
  | Text t => ret [t]
  | Link (Some label) url => ret ["[" ++ label ++ "](" ++ url ++ ")"]
  | Link None url => ret ["[" ++ url ++ "](" ++ url ++ ")"]
  | Mention user_id =>
      let! label := mention_label user_id in ret ["@" ++ label]
  | Emoji name => ret [":" ++ name ++ ":"]
  | Unrecognized => ret []
  end.

(** The contributions of a sequence, in its order. *)
Fixpoint concatM {A} (f : A -> M (list string)) (l : list A) : M (list string) :=
  match l with
  | [] => ret []
  | x :: l' =>
      let! fs := f x in
      let! rest := concatM f l' in
      ret (fs ++ rest)%list
  end.

Definition element_forms (e : element) : M (list string) :=
  match e with
  | RichTextSection items => concatM item_forms items
  | OtherElement => ret []
  end.

Definition block_forms (b : block) : M (list string) :=
  match b with
  | RichTextBlock elements => concatM element_forms elements
  | OtherBlock => ret []
  end.

(** The rendering: the contributions joined with nothing between
    them, or [None] when there is none. *)
Definition render (blocks : list block) : M json :=
  let! fs := concatM block_forms blocks in
  ret (match fs with
       | [] => JNull
       | _ => JStr (String.concat "" fs)
       end).

End RichText.

(** ** Shapes of messages

    Decidable conditions on JSON values, for stating properties. *)

Module Shape.
Import Py Exporter.

(** A dict without the key [k]. *)
Definition lacks (k : string) (x : json) : bool :=
  match x with
  | JObj d => match assoc k d with None => true | Some _ => false end
  | _ => false
  end.

(** A decimal numeral: a digit, then digits with at most one period
    among them, as Slack writes its timestamps. *)
Fixpoint decimal_tail (dot : bool) (s : string) : bool :=
  match s with
  | EmptyString => true
  | String c s' =>
      if is_digit c then decimal_tail dot s'
      else Ascii.eqb c "." && negb dot && decimal_tail true s'
  end.

Definition decimal (s : string) : bool :=
  match s with
  | String c s' => is_digit c && decimal_tail false s'
  | EmptyString => false
  end.

(** A message as the data model has it, as far as its timestamp
    goes: a dict whose ["ts"] is a decimal numeral, or missing. *)
Definition timestamped (x : json) : bool :=
  match x with
  | JObj d =>
      match assoc "ts" d with
      | None => true
      | Some (JStr s) => decimal s
      | Some _ => false
      end
  | _ => false
  end.

(** The characters of a decimal numeral. *)
Definition plain (c : ascii) : bool := is_digit c || Ascii.eqb c ".".

Fixpoint all_plain (s : string) : bool :=
  match s with
  | EmptyString => true
  | String c s' => plain c && all_plain s'
  end.

(** A message whose sort key exists and is a number: its ["ts"] is
    absent or converts to a float other than NaN. *)
Definition numeric_ts (x : json) : bool :=
  match ts_key x with
  | Ok k => negb (is_nan k)
  | Raise _ => false
  end.

(** [float(a.get("ts", 0)) <= float(b.get("ts", 0))] *)
Definition ts_le (a b : json) : bool :=
  match ts_key a, ts_key b with
  | Ok x, Ok y => fle x y
  | _, _ => false
  end.

(** The number a message is ordered by, as the specification has
    it: its ["ts"] parsed as a number (the double nearest to the
    numeral), and 0 for a message without ["ts"]. *)
Definition timestamp_number (x : json) : option spec_float :=
  match x with
  | JObj d =>
      match assoc "ts" d with
      | None => Some (S754_zero false)
      | Some (JStr s) => float_of_str s
      | Some _ => None
      end
  | _ => None
  end.

(** [a] is not later than [b]. *)
Definition chronological (a b : json) : bool :=
  match timestamp_number a, timestamp_number b with
  | Some x, Some y => fle x y
  | _, _ => false
  end.

(** [m'] is the message [m], possibly with replies attached. *)
Definition with_replies (m m' : json) : Prop :=
  m' = m \/ exists replies, setitem m "replies" replies = Ok m'.

(** The place of a float in the order of [<]: sign class, then
    exponent, then mantissa, both reversed below zero. *)
Definition rank (x : spec_float) : Z * Z * Z :=
  match x with
  | S754_nan => (0, 0, 0)
  | S754_zero _ => (0, 0, 0)
  | S754_infinity true => (-2, 0, 0)
  | S754_infinity false => (2, 0, 0)
  | S754_finite true m e => (-1, - e, - Zpos m)
  | S754_finite false m e => (1, e, Zpos m)
  end.

Definition rank_lt (a b : Z * Z * Z) : Prop :=
  let '(a1, a2, a3) := a in
  let '(b1, b2, b3) := b in
  a1 < b1 \/ (a1 = b1 /\ (a2 < b2 \/ (a2 = b2 /\ a3 < b3))).

(** A decorated message: the key is that of the message, and a number. *)
Definition keyed (p : spec_float * json) : Prop :=
  ts_key (snd p) = Ok (fst p) /\ is_nan (fst p) = false.

(** A message that is not a bot's:
    [message.get("subtype") == "bot_message"] is false. *)
Definition not_bot (m : list (string * json)) : bool :=
  negb (eq (match assoc "subtype" m with Some v => v | None => JNull end)
          (JStr "bot_message")).

(** [msg.get("reply_count", 0) > 0], and false where that raises. *)
Definition threaded (msg : json) : bool :=
  match obind (get msg "reply_count" (JInt 0)) gt0 with
  | Ok b => b
  | Raise _ => false
  end.

(** A dict whose ["reply_count"] is missing, or a number that is not
    positive. *)
Definition unthreaded (msg : json) : bool :=
  match obind (get msg "reply_count" (JInt 0)) gt0 with
  | Ok b => negb b
  | Raise _ => false
  end.

(** The request for the replies of [msg]. *)
Definition replies_request (channel_id msg : json) : request :=
  {| endpoint := "conversations.replies";
     params := [("channel", channel_id);
                ("ts", match get msg "ts" JNull with Ok ts => ts | Raise _ => JNull end);
                ("limit", JInt 100)] |}.

(** One such request for each message with replies, in order. *)
Definition replies_requests (channel_id : json) (messages : list json) : list request :=
  flat_map (fun msg => if threaded msg then [replies_request channel_id msg] else [])
    messages.

(** [st'] is [st] with more requests in its log, each of them
    satisfying [P]; nothing else differs. *)
Definition logs (P : request -> Prop) (st st' : state) : Prop :=
  exists reqs, st' = set_sent (sent st ++ reqs)%list st /\ Forall P reqs.

(** A request for a page of the channel's history: the first page,
    asked for without a cursor, or a later one, asked for with the
    cursor that leads to it. *)
Definition history_request (channel_id : json) (oldest : string) (r : request) : Prop :=
  r = {| endpoint := "conversations.history";
         params := [("channel", channel_id); ("oldest", JStr oldest);
                    ("limit", JInt 100)] |} \/
  exists cursor,
    truthy cursor = true /\
    r = {| endpoint := "conversations.history";
           params := [("channel", channel_id); ("oldest", JStr oldest);
                      ("limit", JInt 100); ("cursor", cursor)] |}.

(** A request for the replies of some thread of the channel. *)
Definition thread_request (channel_id : json) (r : request) : Prop :=
  exists thread_ts,
    r = {| endpoint := "conversations.replies";
           params := [("channel", channel_id); ("ts", thread_ts); ("limit", JInt 100)] |}.

(** A message whose sort key cannot be computed. *)
Definition bad_ts (x : json) : bool :=
  match ts_key x with
  | Ok _ => false
  | Raise _ => true
  end.

(** A message whose sort key equals the float [t]. *)
Definition same_ts (t : spec_float) (x : json) : bool :=
  match ts_key x with
  | Ok k => SFeqb k t
  | Raise _ => false
  end.

(** Whether the export loop writes a file for the parent:
    [len(replies) > 0 or include_standalone]; false where [len]
    raises. *)
Definition kept (include_standalone : bool) (parent_msg : json) : bool :=
  match obind (get parent_msg "replies" (JList [])) len with
  | Ok n => (0 <? n)%nat || include_standalone
  | Raise _ => false
  end.

(** The file of a parent whose ["ts"] is a string. *)
Definition file_of (output_dir channel_name : string) (parent_msg : json) : path :=
  [output_dir; channel_name; "threads";
   thread_filename (match get parent_msg "ts" (JStr "") with
                    | Ok (JStr T) => normalize T
                    | _ => ""
                    end)].

(** A computation that opens no file. *)
Definition keeps_files {A} (c : M A) : Prop :=
  forall st, opened (snd (c st)) = opened st.

(** A message outside any thread: it has a ["ts"] and no
    ["thread_ts"]. *)
Definition unthreaded_message (x : json) : bool :=
  match x with
  | JObj d =>
      match assoc "thread_ts" d, assoc "ts" d with
      | None, Some JNull => false
      | None, Some _ => true
      | _, _ => false
      end
  | _ => false
  end.

(** A step of a loop that only appends to [text_parts]: what it
    appends does not depend on what is there already. *)
Definition appends {B} (f : list json -> B -> M (list json)) : Prop :=
  forall acc x st,
    f acc x st = (let! parts := f [] x in ret (acc ++ parts)%list) st.

(** Two renderings put together: [None] adds nothing. *)
Definition join_text (a b : json) : json :=
  match a, b with
  | JStr x, JStr y => JStr (x ++ y)
  | JNull, _ => b
  | _, _ => a
  end.

(** A request for the profile of some user. *)
Definition users_request (r : request) : Prop :=
  exists user_id, r = {| endpoint := "users.info"; params := [("user", user_id)] |}.

(** A computation that at most looks users up: it opens no file, it
    leaves every cached profile as it is, and the requests it sends
    are [users.info] requests. *)
Definition quiet {A} (c : M A) : Prop :=
  forall st,
    opened (snd (c st)) = opened st /\
    (forall k v, user_cache st !! k = Some v -> user_cache (snd (c st)) !! k = Some v) /\
    exists reqs, sent (snd (c st)) = (sent st ++ reqs)%list /\ Forall users_request reqs.

End Shape.

(** ** Scenarios

    Concrete upstreams and messages, on which the definitions above
    are evaluated. *)

Module Scenario.
Import Py Exporter RichText Shape.

(** An upstream that answers every request with the same body. *)
Definition always (body : list (string * json)) : list request -> request -> response :=
  fun _ _ => Decoded (JObj body).

(** An upstream that answers the [n]-th request with the [n]-th of
    [answers], and fails once they are used up. *)
Definition script (answers : list response) : list request -> request -> response :=
  fun before _ => nth (length before) answers (RequestException "Network error").

(** The messages and profiles of the test suite. *)
Definition sample_message : json :=
  JObj [("type", JStr "message"); ("user", JStr "U12345");
        ("text", JStr "Hello, this is a test message");
        ("ts", JStr "1234567890.123456"); ("thread_ts", JStr "1234567890.123456");
        ("reply_count", JInt 0)].

Definition reply_1 : json :=
  JObj [("type", JStr "message"); ("user", JStr "U67890");
        ("text", JStr "Reply 1"); ("ts", JStr "1234567891.123456")].

Definition reply_2 : json :=
  JObj [("type", JStr "message"); ("user", JStr "U11111");
        ("text", JStr "Reply 2"); ("ts", JStr "1234567892.123456")].

Definition sample_parent : json :=
  JObj [("type", JStr "message"); ("user", JStr "U12345");
        ("text", JStr "Parent message");
        ("ts", JStr "1234567890.123456"); ("thread_ts", JStr "1234567890.123456");
        ("reply_count", JInt 2)].

Definition sample_user_info : json :=
  JObj [("id", JStr "U12345"); ("name", JStr "testuser");
        ("real_name", JStr "Test User");
        ("profile", JObj [("display_name", JStr "Test Display");
                          ("email", JStr "test@example.com")])].

Definition replies_body : list (string * json) :=
  [("ok", JBool true); ("messages", JList [sample_parent; reply_1; reply_2])].

Definition user_body : list (string * json) :=
  [("ok", JBool true); ("user", sample_user_info)].

Definition bot_message : json :=
  JObj [("subtype", JStr "bot_message"); ("username", JStr "DeployBot");
        ("text", JStr "Deployed"); ("ts", JStr "1234567893.000100")].

(** A body writer that writes nothing. *)
Definition no_body : path -> string -> json -> json -> thread_metadata -> json -> M unit :=
  fun _ _ _ _ _ _ => ret tt.

(** A thread parent whose replies were never fetched: its
    ["reply_count"] is positive, and it has no ["replies"]. *)
Definition unfetched_messages : list json := [sample_parent; reply_1; sample_message].

Definition parent_with_replies : json :=
  JObj [("user", JStr "U12345"); ("text", JStr "Parent message");
        ("ts", JStr "1234567890.123456"); ("thread_ts", JStr "1234567890.123456");
        ("reply_count", JInt 2); ("replies", JList [reply_1; reply_2])].

(** An upstream that knows nobody. *)
Definition nobody : list request -> request -> response :=
  always [("ok", JBool false); ("error", JStr "user_not_found")].

(** Two pages linked by a cursor.  The messages come newest first;
    one of them has no ["ts"]. *)
Definition msg_at (ts text : string) : json :=
  JObj [("type", JStr "message"); ("user", JStr "U12345");
        ("text", JStr text); ("ts", JStr ts)].

Definition msg_without_ts : json :=
  JObj [("type", JStr "message"); ("text", JStr "no timestamp")].

Definition page_1 : list (string * json) :=
  [("ok", JBool true);
   ("messages", JList [msg_at "1700000300.000200" "d"; msg_at "1700000200.000100" "c"]);
   ("has_more", JBool true);
   ("response_metadata", JObj [("next_cursor", JStr "cursor123")])].

Definition page_2 : list (string * json) :=
  [("ok", JBool true);
   ("messages", JList [msg_at "1700000100.000300" "b"; msg_without_ts;
                       msg_at "1700000000.000400" "a"]);
   ("has_more", JBool false)].

(** A page that claims more but carries no cursor. *)
Definition page_without_cursor : list (string * json) :=
  [("ok", JBool true);
   ("messages", JList [sample_message]);
   ("has_more", JBool true)].

(** A page that claims more and whose metadata is [null]. *)
Definition page_null_metadata : list (string * json) :=
  [("ok", JBool true);
   ("messages", JList [sample_message]);
   ("has_more", JBool true);
   ("response_metadata", JNull)].

Definition two_pages : list request -> request -> response :=
  script [Decoded (JObj page_1); Decoded (JObj page_2)].

Definition accumulated : list json :=
  [msg_at "1700000300.000200" "d"; msg_at "1700000200.000100" "c";
   msg_at "1700000100.000300" "b"; msg_without_ts;
   msg_at "1700000000.000400" "a"].

(** The state after both pages were fetched. *)
Definition after_two_pages : state :=
  set_sent
    [ {| endpoint := "conversations.history";
         params := [("channel", JStr "C12345"); ("oldest", JStr "1699400000.0");
                    ("limit", JInt 100)] |};
      {| endpoint := "conversations.history";
         params := [("channel", JStr "C12345"); ("oldest", JStr "1699400000.0");
                    ("limit", JInt 100); ("cursor", JStr "cursor123")] |} ]
    (init two_pages).

(** Scenario F: a text item, a link item and a mention in one
    section, with an item of a kind the renderer does not know. *)
Definition scenario_f : json :=
  JList [JObj [("type", JStr "rich_text");
               ("elements",
                JList [JObj [("type", JStr "rich_text_section");
                             ("elements",
                              JList [JObj [("type", JStr "text"); ("text", JStr "Check ")];
                                     JObj [("type", JStr "link");
                                           ("url", JStr "https://example.com");
                                           ("text", JStr "this")];
                                     JObj [("type", JStr "text"); ("text", JStr ", ")];
                                     JObj [("type", JStr "broadcast"); ("range", JStr "here")];
                                     JObj [("type", JStr "user");
                                           ("user_id", JStr "U12345")]])]])]].

Definition scenario_f_blocks : list block :=
  [RichTextBlock
     [RichTextSection [Text "Check "; Link (Some "this") "https://example.com";
                Text ", "; Unrecognized; Mention "U12345"]]].

(** A message of a person, with nothing but its author. *)
Definition message_of (user_id : string) : list (string * json) :=
  [("type", JStr "message"); ("user", JStr user_id)].

(** An upstream whose [users.info] answers carry no ["user"]. *)
Definition userless : list request -> request -> response :=
  always [("ok", JBool true)].

(** The state after the test user was looked up once. *)
Definition after_lookup : state :=
  set_user_cache (<[KStr "U12345" := sample_user_info]> ∅)
    (set_sent [{| endpoint := "users.info"; params := [("user", JStr "U12345")] |}]
       (init (always user_body))).

(** A page with a message whose timestamp is no number. *)
Definition page_with_bad_ts : list (string * json) :=
  [("ok", JBool true);
   ("messages", JList [msg_at "1700000300.000200" "d"; msg_at "yesterday" "c"]);
   ("has_more", JBool false)].

(** Messages that share timestamps, as they arrived. *)
Definition tied : list json :=
  [msg_at "1700000200.000100" "second"; msg_at "1700000100.000300" "x";
   msg_at "1700000200.000100" "first"; msg_at "1700000100.000300" "y";
   msg_at "1700000200.0001" "third"].

(** A channel with a thread, a parent without replies, a reply and
    a message outside any thread. *)
Definition lonely_parent : json :=
  JObj [("user", JStr "U67890"); ("text", JStr "Anyone?");
        ("ts", JStr "1234567895.000100"); ("thread_ts", JStr "1234567895.000100")].

Definition mixed_messages : list json :=
  [parent_with_replies; lonely_parent; reply_1; msg_at "1700000000.000400" "a"].

(** A rich-text block with one section holding one text item. *)
Definition text_block (text : string) : json :=
  JObj [("type", JStr "rich_text");
        ("elements", JList [JObj [("type", JStr "rich_text_section");
                                  ("elements", JList [JObj [("type", JStr "text");
                                                            ("text", JStr text)]])]])].

(** A parent whose text has two lines and more than 50 characters. *)
Definition long_parent : json :=
  JObj [("ts", JStr "1700000000.000100"); ("thread_ts", JStr "1700000000.000100");
        ("user", JStr "U12345");
        ("text", JStr ("Deploy failed on staging" ++ String "010" ""
                       ++ "see the build log for the stack trace"))].

(** A reply of two lines. *)
Definition two_line_reply : list (string * json) :=
  [("ts", JStr "1700000000.000200"); ("user", JStr "U12345");
   ("text", JStr ("first line" ++ String "010" "" ++ "second line"))].

(** A clock for which every time is the same moment. *)
Definition still_clock : spec_float -> option string :=
  fun _ => Some "2023-11-14 22:13:20".

End Scenario.

(** * Properties *)

Import Py Exporter RichText Shape Scenario.

(** ** Running the monad *)

Section Monad.

Context {A B : Type}.

Lemma bind_ok (c : M A) (k : A -> M B) st a st' :
  c st = (Ok a, st') -> bind c k st = k a st'.
Proof. intros H. unfold bind. rewrite H. reflexivity. Qed.

Lemma bind_lift_ok (o : outcome A) (k : A -> M B) st a :
  o = Ok a -> bind (lift o) k st = k a st.
Proof. intros ->. reflexivity. Qed.

End Monad.

(** ** The API gateway *)

Section Gateway.

Variables (ep : string) (ps : list (string * json)) (st : state).

Let req := {| endpoint := ep; params := ps |}.
Let st' := set_sent (sent st ++ [req])%list st.

(** Every call is logged, whatever comes of it. *)
Lemma make_request_sent : sent (snd (_make_request ep ps st)) = (sent st ++ [req])%list.
Proof.
  unfold _make_request. fold req.
  destruct (session st (sent st) req) as [e | data]; [reflexivity |].
  unfold bind, lift. destruct (get data "ok" JNull) as [ok | e]; [| reflexivity].
  destruct (negb (truthy ok)); [| reflexivity].
  destruct (get data "error" (JStr "Unknown error")); reflexivity.
Qed.

(** A call touches neither the cache nor the files. *)
Lemma make_request_state : snd (_make_request ep ps st) = st'.
Proof.
  unfold _make_request. fold req. fold st'.
  destruct (session st (sent st) req) as [e | data]; [reflexivity |].
  unfold bind, lift. destruct (get data "ok" JNull) as [ok | e]; [| reflexivity].
  destruct (negb (truthy ok)); [| reflexivity].
  destruct (get data "error" (JStr "Unknown error")); reflexivity.
Qed.

(** What is returned is the decoded body, a dict with a truthy
    ["ok"]. *)
Lemma make_request_ok data :
  fst (_make_request ep ps st) = Ok data ->
  exists d ok, data = JObj d /\ session st (sent st) req = Decoded data /\
               assoc "ok" d = Some ok /\ truthy ok = true.
Proof.
  unfold _make_request. fold req.
  destruct (session st (sent st) req) as [e | body]; [discriminate |].
  destruct body as [ | b | n | s | l | d]; try discriminate.
  unfold bind, lift. simpl.
  destruct (assoc "ok" d) as [ok | ] eqn:Hok; simpl.
  - destruct (truthy ok) eqn:Ht; simpl.
    + intros [= <-]. exists d, ok. auto.
    + destruct (assoc "error" d); discriminate.
  - destruct (assoc "error" d); discriminate.
Qed.

Lemma make_request_decoded d ok :
  session st (sent st) req = Decoded (JObj d) ->
  assoc "ok" d = Some ok -> truthy ok = true ->
  _make_request ep ps st = (Ok (JObj d), st').
Proof.
  intros Hs Hok Ht. unfold _make_request. fold req. rewrite Hs.
  unfold bind, lift. simpl. rewrite Hok, Ht. reflexivity.
Qed.

End Gateway.

(** C5, as the code has it: a decoded dict whose ["ok"] is falsy (or
    absent) makes [_make_request] raise an [Exception] whose message is
    ["Slack API error: "] followed by the API's ["error"] value; when
    the dict has no ["error"] the message carries ["Unknown error"]. *)
Theorem make_request_api_error (ep : string) (ps : list (string * json))
    (st : state) (d : list (string * json)) :
  session st (sent st) {| endpoint := ep; params := ps |} = Decoded (JObj d) ->
  truthy (match assoc "ok" d with Some ok => ok | None => JNull end) = false ->
  fst (_make_request ep ps st) =
    Raise (Exception ("Slack API error: " ++
                      match assoc "error" d with
                      | Some code => str code
                      | None => "Unknown error"
                      end)).
Proof.
  intros Hs Hok. unfold _make_request. rewrite Hs.
  unfold bind, lift. simpl. rewrite Hok. simpl.
  destruct (assoc "error" d); reflexivity.
Qed.

Lemma make_request_api_error_witness :
  fst (_make_request "conversations.info" [("channel", JStr "C12345")]
         (init (always [("ok", JBool false); ("error", JStr "invalid_auth")])))
  = Raise (Exception "Slack API error: invalid_auth").
Proof.
  apply (make_request_api_error "conversations.info" [("channel", JStr "C12345")]
           (init (always [("ok", JBool false); ("error", JStr "invalid_auth")]))
           [("ok", JBool false); ("error", JStr "invalid_auth")]);
    reflexivity.
Defined.

(** C5 as stated fails: on the body [{"ok": false}], which has no
    ["error"], the exception carries ["Unknown error"] and not
    ["unknown_error"]. *)
Lemma make_request_default_code_counterexample :
  let r := fst (_make_request "conversations.info" [("channel", JStr "C12345")]
                  (init (always [("ok", JBool false)]))) in
  r = Raise (Exception "Slack API error: Unknown error") /\
  r <> Raise (Exception "Slack API error: unknown_error").
Proof. split; [reflexivity | discriminate]. Qed.

(** ** Thread replies *)

(** C3: the replies endpoint echoes the parent first, and
    [_fetch_thread_replies] drops exactly that first entry: from a body
    with the entries [l] it returns [l] without its head, in the same
    order; one entry or none gives the empty list, [N > 1] entries
    give [N - 1]. *)
Theorem fetch_thread_replies_strips_first (channel_id thread_ts : json)
    (st : state) (d : list (string * json)) (ok : json) (l : list json) :
  session st (sent st)
    {| endpoint := "conversations.replies";
       params := [("channel", channel_id); ("ts", thread_ts); ("limit", JInt 100)] |}
    = Decoded (JObj d) ->
  assoc "ok" d = Some ok -> truthy ok = true ->
  assoc "messages" d = Some (JList l) ->
  fst (_fetch_thread_replies channel_id thread_ts st) = Ok (JList (skipn 1 l)) /\
  length (skipn 1 l) = (length l - 1)%nat /\
  (forall parent, l = [parent] -> skipn 1 l = []) /\
  (forall parent replies, l = parent :: replies -> skipn 1 l = replies) /\
  (l = [] -> skipn 1 l = []).
Proof.
  intros Hs Hok Ht Hm. split; [| repeat split].
  - unfold _fetch_thread_replies.
    erewrite bind_ok by (eapply make_request_decoded; eassumption).
    unfold bind, lift. simpl. rewrite Hm. simpl.
    destruct l as [ | parent [ | reply rest]]; reflexivity.
  - rewrite length_skipn. reflexivity.
  - intros parent ->. reflexivity.
  - intros parent replies ->. reflexivity.
  - intros ->. reflexivity.
Qed.

Lemma fetch_thread_replies_strips_first_witness :
  fst (_fetch_thread_replies (JStr "C12345") (JStr "1234567890.123456")
         (init (always replies_body)))
  = Ok (JList [reply_1; reply_2]).
Proof.
  apply (fetch_thread_replies_strips_first (JStr "C12345") (JStr "1234567890.123456")
           (init (always replies_body)) replies_body (JBool true)
           [sample_parent; reply_1; reply_2]);
    reflexivity.
Defined.

(** ** The user directory cache *)

Section UserCache.

Variables (user_id : json) (k : key) (st : state).
Hypothesis Hkey : hash_key user_id = Some k.

Let req := {| endpoint := "users.info"; params := [("user", user_id)] |}.

Lemma get_user_info_hit profile :
  user_cache st !! k = Some profile ->
  get_user_info user_id st = (Ok profile, st).
Proof. intros H. unfold get_user_info. rewrite Hkey, H. reflexivity. Qed.

Lemma get_user_info_miss_ok d profile :
  user_cache st !! k = None ->
  fst (_make_request "users.info" [("user", user_id)] st) = Ok (JObj d) ->
  profile = match assoc "user" d with Some p => p | None => JObj [] end ->
  get_user_info user_id st =
    (Ok profile,
     set_user_cache (<[k := profile]> (user_cache st)) (set_sent (sent st ++ [req])%list st)).
Proof.
  intros Hmiss Hok ->. unfold get_user_info. rewrite Hkey, Hmiss.
  destruct (_make_request "users.info" [("user", user_id)] st) as [o st1] eqn:E.
  pose proof (make_request_state "users.info" [("user", user_id)] st) as Hst.
  rewrite E in Hst. simpl in Hst, Hok. subst o st1.
  unfold try_except, bind, lift. rewrite E. reflexivity.
Qed.

Lemma get_user_info_miss_raise e :
  user_cache st !! k = None ->
  fst (_make_request "users.info" [("user", user_id)] st) = Raise e ->
  get_user_info user_id st = (Ok (JObj []), set_sent (sent st ++ [req])%list st).
Proof.
  intros Hmiss Hraise. unfold get_user_info. rewrite Hkey, Hmiss.
  destruct (_make_request "users.info" [("user", user_id)] st) as [o st1] eqn:E.
  pose proof (make_request_state "users.info" [("user", user_id)] st) as Hst.
  rewrite E in Hst. simpl in Hst, Hraise. subst o st1.
  unfold try_except, bind. rewrite E. reflexivity.
Qed.

End UserCache.

(** C2: a first lookup of a user (a cache miss) sends one [users.info]
    request.  If the request succeeds, the profile is returned and
    cached, and a second lookup returns it again and leaves the whole
    state, the log of requests included, as it was.  If the request
    fails, the lookup returns the empty profile [{}] instead of
    raising and leaves the cache as it was, so that the next lookup
    sends a request again. *)
Theorem get_user_info_caches (user_id : json) (k : key) (st : state) :
  hash_key user_id = Some k ->
  user_cache st !! k = None ->
  let req := {| endpoint := "users.info"; params := [("user", user_id)] |} in
  let first := get_user_info user_id st in
  (forall data,
      fst (_make_request "users.info" [("user", user_id)] st) = Ok data ->
      exists profile,
        get data "user" (JObj []) = Ok profile /\
        fst first = Ok profile /\
        user_cache (snd first) !! k = Some profile /\
        sent (snd first) = (sent st ++ [req])%list /\
        get_user_info user_id (snd first) = (Ok profile, snd first)) /\
  (forall e,
      fst (_make_request "users.info" [("user", user_id)] st) = Raise e ->
      fst first = Ok (JObj []) /\
      user_cache (snd first) = user_cache st /\
      sent (snd first) = (sent st ++ [req])%list /\
      sent (snd (get_user_info user_id (snd first))) = (sent st ++ [req; req])%list).
Proof.
  intros Hkey Hmiss req first. split.
  - intros data Hok.
    destruct (make_request_ok _ _ _ _ Hok) as (d & ok & -> & _).
    set (profile := match assoc "user" d with Some p => p | None => JObj [] end).
    assert (Hfirst : first = (Ok profile,
              set_user_cache (<[k := profile]> (user_cache st))
                (set_sent (sent st ++ [req])%list st)))
      by (eapply get_user_info_miss_ok; eauto).
    exists profile. rewrite Hfirst. simpl.
    repeat split.
    + apply lookup_insert_eq.
    + eapply get_user_info_hit; [eassumption |]. simpl. apply lookup_insert_eq.
  - intros e Hraise.
    assert (Hfirst : first = (Ok (JObj []), set_sent (sent st ++ [req])%list st))
      by (eapply get_user_info_miss_raise; eauto).
    rewrite Hfirst. simpl. repeat split.
    set (st1 := set_sent (sent st ++ [req])%list st).
    assert (Hmiss1 : user_cache st1 !! k = None) by exact Hmiss.
    destruct (fst (_make_request "users.info" [("user", user_id)] st1)) as [data | e1] eqn:E1.
    + destruct (make_request_ok _ _ _ _ E1) as (d & ok & -> & _).
      erewrite get_user_info_miss_ok by eauto. simpl.
      rewrite <- app_assoc. reflexivity.
    + erewrite get_user_info_miss_raise by eauto. simpl.
      rewrite <- app_assoc. reflexivity.
Qed.

Lemma get_user_info_caches_witness :
  let first := get_user_info (JStr "U12345") (init (always user_body)) in
  fst first = Ok sample_user_info /\
  get_user_info (JStr "U12345") (snd first) = (Ok sample_user_info, snd first).
Proof.
  destruct (get_user_info_caches (JStr "U12345") (KStr "U12345")
              (init (always user_body)) eq_refl eq_refl) as [Hok _].
  destruct (Hok (JObj user_body) eq_refl) as (profile & Hp & H1 & _ & _ & H2).
  injection Hp as <-. split; assumption.
Defined.

(** ** Author labels *)

(** C8: for a message whose subtype is ["bot_message"] the author
    label is the message's own ["username"], and the state is left as
    it was: no request is sent and the user cache is not touched. *)
Theorem bot_message_label (user_id : json) (d : list (string * json))
    (username : json) (st : state) :
  assoc "subtype" d = Some (JStr "bot_message") ->
  assoc "username" d = Some username ->
  _get_user_display user_id (JObj d) st = (Ok username, st).
Proof.
  intros Hsub Hname. unfold _get_user_display, bind, lift. simpl.
  rewrite Hsub. simpl. rewrite Hname. reflexivity.
Qed.

Lemma bot_message_label_witness :
  _get_user_display (JStr "U12345") bot_message (init (always user_body))
  = (Ok (JStr "DeployBot"), init (always user_body)).
Proof.
  apply (bot_message_label (JStr "U12345") _ (JStr "DeployBot")
           (init (always user_body))); reflexivity.
Defined.

(** ** The thread exporter *)

Lemma bind_inv_ok {A B} (c : M A) (k : A -> M B) st b st2 :
  bind c k st = (Ok b, st2) ->
  exists a st1, c st = (Ok a, st1) /\ k a st1 = (Ok b, st2).
Proof.
  unfold bind. destruct (c st) as [[a | e] st1]; [eauto | discriminate].
Qed.

Lemma lift_inv_ok {A} (o : outcome A) st a st1 :
  lift o st = (Ok a, st1) -> o = Ok a /\ st1 = st.
Proof. unfold lift. intros [= -> ->]. auto. Qed.

Lemma extract_thread_metadata_id parent_msg st md st1 :
  _extract_thread_metadata parent_msg st = (Ok md, st1) ->
  get parent_msg "ts" (JStr "") = Ok (thread_id md).
Proof.
  unfold _extract_thread_metadata. intros H.
  apply bind_inv_ok in H as (ts & s1 & H1 & H).
  apply lift_inv_ok in H1 as [H1 ->].
  repeat (apply bind_inv_ok in H as (? & ? & _ & H)).
  injection H as <- _. exact H1.
Qed.

Lemma export_parent_skip_step write_thread output_dir channel_name channel_id c
    parent_msg replies st :
  get parent_msg "replies" (JList []) = Ok replies ->
  len replies = Ok O ->
  export_parent write_thread output_dir channel_name channel_id false c parent_msg st
  = (Ok {| exported_count := exported_count c; skipped_count := S (skipped_count c) |}, st).
Proof.
  intros Hr Hn. unfold export_parent, bind, lift. rewrite Hr, Hn. reflexivity.
Qed.

(** C6: with [include_standalone] false, a parent whose ["replies"]
    are absent or empty is only counted: the skipped counter goes up
    by one, the exported counter stays, and the state is as before, so
    no file is opened for it; the loop goes on from there with the
    parents that follow. *)
Theorem export_parent_skips_standalone
    (write_thread : path -> string -> json -> json -> thread_metadata -> json -> M unit)
    (output_dir channel_name : string) (channel_id : json) (c : counts)
    (parent_msg replies : json) (st : state) :
  get parent_msg "replies" (JList []) = Ok replies ->
  len replies = Ok O ->
  let c' := {| exported_count := exported_count c;
               skipped_count := S (skipped_count c) |} in
  export_parent write_thread output_dir channel_name channel_id false c parent_msg st
  = (Ok c', st) /\
  forall rest,
    foldM (export_parent write_thread output_dir channel_name channel_id false) c
      (parent_msg :: rest) st
    = foldM (export_parent write_thread output_dir channel_name channel_id false) c'
        rest st.
Proof.
  intros Hr Hn c'.
  pose proof (export_parent_skip_step write_thread output_dir channel_name channel_id
                c parent_msg replies st Hr Hn) as Hstep.
  split; [exact Hstep |].
  intros rest. simpl. rewrite (bind_ok _ _ _ _ _ Hstep). reflexivity.
Qed.

Lemma export_parent_skips_standalone_witness :
  export_parent no_body "./exports" "test-channel" (JStr "C12345") false
    {| exported_count := 3; skipped_count := 4 |} sample_message (init nobody)
  = (Ok {| exported_count := 3; skipped_count := 5 |}, init nobody).
Proof.
  apply (proj1 (export_parent_skips_standalone no_body "./exports" "test-channel"
                  (JStr "C12345") {| exported_count := 3; skipped_count := 4 |}
                  sample_message (JList []) (init nobody) eq_refl eq_refl)).
Defined.

Lemma append_cons c s t : String c s ++ t = String c (s ++ t).
Proof. reflexivity. Qed.

Lemma append_nil t : "" ++ t = t.
Proof. reflexivity. Qed.

Lemma normalize_cons c s :
  normalize (String c s) = String (if Ascii.eqb c "." then "_"%char else c) (normalize s).
Proof.
  unfold normalize. simpl. destruct (Ascii.eqb c "."); [| reflexivity].
  rewrite append_cons, append_nil. reflexivity.
Qed.

Lemma normalize_idempotent s : normalize (normalize s) = normalize s.
Proof.
  induction s as [ | c s IH]; [reflexivity |].
  rewrite !normalize_cons, IH.
  destruct (Ascii.eqb c ".") eqn:E; [reflexivity | rewrite E; reflexivity].
Qed.

Lemma normalize_get s i :
  String.get i (normalize s) =
  option_map (fun c : ascii => if Ascii.eqb c "." then "_"%char else c) (String.get i s).
Proof.
  revert i. induction s as [ | c s IH]; intros i; [reflexivity |].
  rewrite normalize_cons. destruct i; simpl; auto.
Qed.

(** C9: a parent with timestamp [T] that is exported has its file
    opened at [output_dir/channel_name/threads/thread_<normalize(T)>.md],
    and the body is written to that path; [normalize] turns each period
    into an underscore and leaves every other character, and applying
    it twice is the same as applying it once. *)
Theorem thread_file_name :
  (forall s, normalize (normalize s) = normalize s) /\
  (forall s i,
      String.get i (normalize s) =
      option_map (fun c : ascii => if Ascii.eqb c "." then "_"%char else c)
        (String.get i s)) /\
  (forall (write_thread : path -> string -> json -> json -> thread_metadata -> json -> M unit)
          (output_dir channel_name : string) (channel_id : json)
          (include_standalone : bool) (c : counts) (parent_msg replies : json)
          (T : string) (n : nat) (md : thread_metadata) (st st1 : state),
      get parent_msg "ts" (JStr "") = Ok (JStr T) ->
      get parent_msg "replies" (JList []) = Ok replies ->
      len replies = Ok n ->
      (0 <? n)%nat || include_standalone = true ->
      _extract_thread_metadata parent_msg st = (Ok md, st1) ->
      let file := [output_dir; channel_name; "threads"; "thread_" ++ normalize T ++ ".md"] in
      export_parent write_thread output_dir channel_name channel_id
        include_standalone c parent_msg st
      = (let! _ := write_thread file channel_name channel_id parent_msg md replies in
         ret {| exported_count := S (exported_count c); skipped_count := skipped_count c |})
          (set_opened (opened st1 ++ [file])%list st1)).
Proof.
  split; [exact normalize_idempotent | split; [exact normalize_get |]].
  intros write_thread output_dir channel_name channel_id include_standalone c
    parent_msg replies T n md st st1 Hts Hr Hn Hexp Hmd file.
  pose proof (extract_thread_metadata_id _ _ _ _ Hmd) as Hid.
  rewrite Hts in Hid. injection Hid as Hid.
  unfold export_parent.
  rewrite (bind_lift_ok _ _ _ _ Hr), (bind_lift_ok _ _ _ _ Hn).
  replace (negb (0 <? n)%nat && negb include_standalone) with false
    by (destruct (0 <? n)%nat, include_standalone; simpl in *; congruence).
  erewrite bind_ok by exact Hmd.
  rewrite <- Hid. reflexivity.
Qed.

Lemma thread_file_name_witness :
  exists md st1,
    export_parent no_body "./exports" "test-channel" (JStr "C12345") false
      {| exported_count := 0; skipped_count := 0 |} parent_with_replies (init nobody)
    = (Ok {| exported_count := 1; skipped_count := 0 |},
       set_opened [["./exports"; "test-channel"; "threads"; "thread_1234567890_123456.md"]] st1)
    /\ _extract_thread_metadata parent_with_replies (init nobody) = (Ok md, st1).
Proof.
  destruct (_extract_thread_metadata parent_with_replies (init nobody)) as [o st1] eqn:E.
  assert (Ho : exists md, o = Ok md /\ opened st1 = []).
  { vm_compute in E. injection E as <- <-. eexists. split; reflexivity. }
  destruct Ho as (md & -> & Hop).
  exists md, st1. split; [| reflexivity].
  rewrite (proj2 (proj2 thread_file_name) no_body "./exports" "test-channel" (JStr "C12345")
             false {| exported_count := 0; skipped_count := 0 |} parent_with_replies
             (JList [reply_1; reply_2]) "1234567890.123456" 2%nat md (init nobody) st1
             eq_refl eq_refl eq_refl eq_refl E).
  unfold no_body, bind, ret. rewrite Hop. reflexivity.
Defined.

Lemma lacks_get k x default : lacks k x = true -> get x k default = Ok default.
Proof.
  destruct x as [ | | | | | d]; try discriminate. simpl.
  destruct (assoc k d); [discriminate | reflexivity].
Qed.

Lemma lacks_is_thread_parent k x : lacks k x = true -> exists p, is_thread_parent x = Ok p.
Proof. destruct x; try discriminate. intros _. simpl. eauto. Qed.

(** The comprehension keeps some of the messages, in their order. *)
Lemma thread_parents_lacking k messages :
  forallb (lacks k) messages = true ->
  exists parents, thread_parents messages = Ok parents /\
                  forallb (lacks k) parents = true.
Proof.
  induction messages as [ | msg rest IH]; simpl; [eauto |].
  intros [Hmsg Hrest]%andb_prop.
  destruct (IH Hrest) as (ps & -> & Hps).
  destruct (lacks_is_thread_parent _ _ Hmsg) as [p ->]. simpl.
  exists (if p then msg :: ps else ps). split; [reflexivity |].
  destruct p; simpl; rewrite ?Hmsg; assumption.
Qed.

Lemma export_all_skipped write_thread output_dir channel_name channel_id parents :
  forallb (lacks "replies") parents = true ->
  forall c st,
    foldM (export_parent write_thread output_dir channel_name channel_id false) c parents st
    = (Ok {| exported_count := exported_count c;
             skipped_count := (skipped_count c + length parents)%nat |}, st).
Proof.
  induction parents as [ | p ps IH]; simpl; intros H c st.
  - rewrite Nat.add_0_r. destruct c; reflexivity.
  - apply andb_prop in H as [Hp Hps].
    erewrite bind_ok
      by (eapply export_parent_skip_step; [apply lacks_get; exact Hp | reflexivity]).
    rewrite (IH Hps). simpl. rewrite Nat.add_succ_r. reflexivity.
Qed.

(** C10: whether a parent has replies is read off its attached
    ["replies"] alone.  If no message has a ["replies"] key, then with
    [include_standalone] false every thread parent is counted as
    skipped, none is exported and the state is as before (no file is
    opened), whatever the parents' ["reply_count"] says. *)
Theorem export_without_replies_skips_all
    (write_thread : path -> string -> json -> json -> thread_metadata -> json -> M unit)
    (messages : list json) (output_dir channel_name : string) (channel_id : json)
    (st : state) :
  forallb (lacks "replies") messages = true ->
  exists parents,
    thread_parents messages = Ok parents /\
    export_threads_individually write_thread messages output_dir channel_name
      channel_id false st
    = (Ok {| exported_count := 0; skipped_count := length parents |}, st).
Proof.
  intros H. destruct (thread_parents_lacking _ _ H) as (parents & Hps & Hl).
  exists parents. split; [exact Hps |].
  unfold export_threads_individually.
  rewrite (bind_lift_ok _ _ _ _ Hps).
  rewrite (export_all_skipped _ _ _ _ _ Hl). reflexivity.
Qed.

Lemma export_without_replies_skips_all_witness :
  get sample_parent "reply_count" (JInt 0) = Ok (JInt 2) /\
  export_threads_individually no_body unfetched_messages "./exports" "test-channel"
    (JStr "C12345") false (init nobody)
  = (Ok {| exported_count := 0; skipped_count := 2 |}, init nobody).
Proof.
  split; [reflexivity |].
  destruct (export_without_replies_skips_all no_body unfetched_messages "./exports"
              "test-channel" (JStr "C12345") (init nobody) eq_refl) as (parents & Hps & He).
  injection Hps as <-. exact He.
Defined.

(** The whole run without replies: the parent that the API reports
    with two replies is fetched, found to be a thread parent, and
    skipped. *)
Example run_without_replies :
  let st := init (always [("ok", JBool true); ("messages", JList [sample_parent; reply_1]);
                          ("has_more", JBool false)]) in
  exists messages st1,
    fetch_messages 2 (JStr "C12345") "1699400000.0" false st = Some (Ok messages, st1) /\
    fst (export_threads_individually no_body messages "./exports" "test-channel"
           (JStr "C12345") false st1)
    = Ok {| exported_count := 0; skipped_count := 1 |} /\
    opened (snd (export_threads_individually no_body messages "./exports" "test-channel"
                   (JStr "C12345") false st1)) = [].
Proof. do 2 eexists. split; [vm_compute; reflexivity |]. split; vm_compute; reflexivity. Qed.

(** With the replies fetched, the same parent is exported. *)
Example run_with_replies :
  let st := script [Decoded (JObj [("ok", JBool true); ("messages", JList [sample_parent]);
                                   ("has_more", JBool false)]);
                    Decoded (JObj replies_body)] in
  exists messages st1,
    fetch_messages 2 (JStr "C12345") "1699400000.0" true (init st) = Some (Ok messages, st1) /\
    fst (export_threads_individually no_body messages "./exports" "test-channel"
           (JStr "C12345") false st1)
    = Ok {| exported_count := 1; skipped_count := 0 |} /\
    opened (snd (export_threads_individually no_body messages "./exports" "test-channel"
                   (JStr "C12345") false st1))
    = [["./exports"; "test-channel"; "threads"; "thread_1234567890_123456.md"]].
Proof. do 2 eexists. split; [vm_compute; reflexivity |]. split; vm_compute; reflexivity. Qed.

(** ** Pagination *)

Section Page.

Variables (channel_id : json) (oldest : string) (cursor : json)
          (messages : list json) (st : state).
Variables (d : list (string * json)) (ok : json) (batch : list json).

Let req :=
  {| endpoint := "conversations.history";
     params := history_params channel_id oldest cursor |}.
Let st' := set_sent (sent st ++ [req])%list st.
Let has_more := match assoc "has_more" d with Some v => v | None => JNull end.

Hypothesis Hsession : session st (sent st) req = Decoded (JObj d).
Hypothesis Hok : assoc "ok" d = Some ok.
Hypothesis Htruthy : truthy ok = true.
Hypothesis Hbatch :
  iter (match assoc "messages" d with Some v => v | None => JList [] end) = Ok batch.

Lemma history_page_last :
  truthy has_more = false ->
  history_page channel_id oldest cursor messages st
  = (Ok ((messages ++ batch)%list, None), st').
Proof.
  intros Hm. unfold history_page.
  erewrite bind_ok by (eapply make_request_decoded; eassumption).
  unfold bind, lift. simpl get. cbv beta iota. rewrite Hbatch.
  fold has_more. rewrite Hm. reflexivity.
Qed.

Lemma history_page_more next :
  truthy has_more = true ->
  next_cursor (JObj d) = Ok next ->
  history_page channel_id oldest cursor messages st
  = (Ok ((messages ++ batch)%list, if truthy next then Some next else None), st').
Proof.
  intros Hm Hn. unfold history_page.
  erewrite bind_ok by (eapply make_request_decoded; eassumption).
  unfold bind, lift. simpl get. cbv beta iota. rewrite Hbatch.
  fold has_more. rewrite Hm. simpl negb. cbv beta iota. rewrite Hn.
  destruct (truthy next); reflexivity.
Qed.

Lemma history_page_bad_metadata v :
  truthy has_more = true ->
  assoc "response_metadata" d = Some v ->
  (forall metadata, v <> JObj metadata) ->
  history_page channel_id oldest cursor messages st = (Raise AttributeError, st').
Proof.
  intros Hm Hv Hbad. unfold history_page.
  erewrite bind_ok by (eapply make_request_decoded; eassumption).
  unfold bind, lift. simpl get. cbv beta iota. rewrite Hbatch.
  fold has_more. rewrite Hm. cbn [negb get]. cbv beta iota.
  unfold next_cursor. cbn [get]. rewrite Hv.
  destruct v; try reflexivity. exfalso. eapply Hbad. reflexivity.
Qed.

End Page.

Lemma history_page_state channel_id oldest cursor messages st :
  snd (history_page channel_id oldest cursor messages st)
  = set_sent (sent st ++ [{| endpoint := "conversations.history";
                             params := history_params channel_id oldest cursor |}])%list st.
Proof.
  unfold history_page, bind.
  pose proof (make_request_state "conversations.history"
                (history_params channel_id oldest cursor) st) as H.
  destruct (_make_request _ _ st) as [[data | e] st1]; simpl in H; subst st1;
    [| reflexivity].
  unfold lift. destruct (get data "messages" (JList [])) as [v | ]; [| reflexivity].
  destruct (iter v) as [batch | ]; [| reflexivity].
  destruct (get data "has_more" JNull) as [has_more | ]; [| reflexivity].
  destruct (negb (truthy has_more)); [reflexivity |].
  destruct (next_cursor data) as [next | ]; [| reflexivity].
  destruct (negb (truthy next)); reflexivity.
Qed.

(** The log only grows, and a loop that has fuel starts by asking for
    the page at its cursor. *)
Lemma history_loop_sent fuel channel_id oldest :
  forall cursor messages st o st',
    history_loop (S fuel) channel_id oldest cursor messages st = Some (o, st') ->
    exists reqs,
      sent st' = (sent st ++ {| endpoint := "conversations.history";
                                params := history_params channel_id oldest cursor |}
                          :: reqs)%list.
Proof.
  induction fuel as [ | fuel IH]; intros cursor messages st o st' H;
    cbn [history_loop] in H;
    pose proof (history_page_state channel_id oldest cursor messages st) as Hst;
    destruct (history_page channel_id oldest cursor messages st)
      as [[[ms [c | ]] | e] st1]; cbn [snd] in Hst; subst st1;
    try (injection H as _ <-; exists []; reflexivity).
  - discriminate.
  - apply IH in H as (reqs & ->). cbn [sent set_sent].
    eexists. rewrite <- app_assoc. reflexivity.
Qed.

(** C4, as the code has it.  A page that the API answers (a dict with
    a truthy ["ok"]) ends the loop, which then returns the messages
    accumulated so far, this page included, and raises nothing,
    - when its ["has_more"] is falsy, and
    - when ["has_more"] is truthy and the page has no
      ["response_metadata"], or that is a dict without
      ["next_cursor"], or with one that is falsy ([None] or empty).
    When ["has_more"] is truthy and the metadata carries a cursor,
    the loop does not end here: it asks for the next page with that
    cursor and goes on with the same accumulated messages.  When
    ["has_more"] is truthy and ["response_metadata"] is there but no
    dict, the look-up of the cursor raises AttributeError. *)
Theorem history_loop_stops (fuel : nat) (channel_id : json) (oldest : string)
    (cursor : json) (messages : list json) (st : state)
    (d : list (string * json)) (ok : json) (batch : list json) :
  let req :=
    {| endpoint := "conversations.history";
       params := ([("channel", channel_id); ("oldest", JStr oldest); ("limit", JInt 100)]
                  ++ (if truthy cursor then [("cursor", cursor)] else []))%list |} in
  let st' := set_sent (sent st ++ [req])%list st in
  let has_more := match assoc "has_more" d with Some v => v | None => JNull end in
  let run := history_loop (S fuel) channel_id oldest cursor messages st in
  let stops := run = Some (Ok (messages ++ batch)%list, st') in
  session st (sent st) req = Decoded (JObj d) ->
  assoc "ok" d = Some ok ->
  truthy ok = true ->
  iter (match assoc "messages" d with Some v => v | None => JList [] end) = Ok batch ->
  (truthy has_more = false -> stops) /\
  (truthy has_more = true ->
   match assoc "response_metadata" d with
   | None => stops
   | Some (JObj metadata) =>
       match assoc "next_cursor" metadata with
       | None => stops
       | Some next =>
           if truthy next then
             run = history_loop fuel channel_id oldest next (messages ++ batch)%list st' /\
             ~ stops /\
             (forall o st2,
                 run = Some (o, st2) ->
                 exists reqs,
                   sent st2
                   = (sent st'
                      ++ {| endpoint := "conversations.history";
                            params := [("channel", channel_id); ("oldest", JStr oldest);
                                       ("limit", JInt 100); ("cursor", next)] |}
                      :: reqs)%list)
           else stops
       end
   | Some _ => run = Some (Raise AttributeError, st')
   end).
Proof.
  intros req st' has_more run stops Hs Hok Ht Hb. subst run stops. split.
  - intros Hm. cbn [history_loop].
    erewrite history_page_last by eassumption. reflexivity.
  - intros Hm.
    assert (Hstop : forall next,
               next_cursor (JObj d) = Ok next -> truthy next = false ->
               history_loop (S fuel) channel_id oldest cursor messages st
               = Some (Ok (messages ++ batch)%list, st')).
    { intros next Hn Hf. cbn [history_loop].
      erewrite history_page_more by eassumption. rewrite Hf. reflexivity. }
    destruct (assoc "response_metadata" d) as [v | ] eqn:Hv.
    + destruct v as [ | b | n | s | l | metadata];
        try (cbn [history_loop];
             erewrite history_page_bad_metadata by (eassumption || discriminate);
             reflexivity).
      destruct (assoc "next_cursor" metadata) as [next | ] eqn:Hc.
      * assert (Hn : next_cursor (JObj d) = Ok next).
        { unfold next_cursor. simpl. rewrite Hv. simpl. rewrite Hc. reflexivity. }
        destruct (truthy next) eqn:Hnext; [| eauto].
        assert (Hgo : history_loop (S fuel) channel_id oldest cursor messages st
                      = history_loop fuel channel_id oldest next (messages ++ batch)%list st').
        { cbn [history_loop]. erewrite history_page_more by eassumption.
          rewrite Hnext. reflexivity. }
        assert (Hlog : forall o st2,
                   history_loop (S fuel) channel_id oldest cursor messages st = Some (o, st2) ->
                   exists reqs,
                     sent st2
                     = (sent st'
                        ++ {| endpoint := "conversations.history";
                              params := [("channel", channel_id); ("oldest", JStr oldest);
                                         ("limit", JInt 100); ("cursor", next)] |}
                        :: reqs)%list).
        { intros o st2. rewrite Hgo. destruct fuel as [ | fuel]; [discriminate |].
          intros H. apply history_loop_sent in H as (reqs & ->).
          exists reqs. unfold history_params. rewrite Hnext. reflexivity. }
        split; [exact Hgo |]. split; [| exact Hlog].
        intros Hstops. destruct (Hlog _ _ Hstops) as (reqs & Hsent).
        apply (f_equal (@length request)) in Hsent.
        rewrite length_app in Hsent. simpl in Hsent. lia.
      * apply (Hstop JNull); [| reflexivity].
        unfold next_cursor. simpl. rewrite Hv. simpl. rewrite Hc. reflexivity.
    + apply (Hstop JNull); [| reflexivity].
      unfold next_cursor. simpl. rewrite Hv. reflexivity.
Qed.

Lemma history_loop_stops_witness :
  history_loop 1 (JStr "C12345") "1699400000.0" JNull []
    (init (always page_without_cursor))
  = Some (Ok [sample_message],
          set_sent [ {| endpoint := "conversations.history";
                        params := [("channel", JStr "C12345");
                                   ("oldest", JStr "1699400000.0");
                                   ("limit", JInt 100)] |} ]
            (init (always page_without_cursor))) /\
  history_loop 2 (JStr "C12345") "1699400000.0" JNull [] (init two_pages)
  = history_loop 1 (JStr "C12345") "1699400000.0" (JStr "cursor123")
      [msg_at "1700000300.000200" "d"; msg_at "1700000200.000100" "c"]
      (set_sent [ {| endpoint := "conversations.history";
                     params := [("channel", JStr "C12345");
                                ("oldest", JStr "1699400000.0");
                                ("limit", JInt 100)] |} ]
         (init two_pages)).
Proof.
  split.
  - exact (proj2 (history_loop_stops 0 (JStr "C12345") "1699400000.0" JNull []
                    (init (always page_without_cursor)) page_without_cursor (JBool true)
                    [sample_message] eq_refl eq_refl eq_refl eq_refl) eq_refl).
  - exact (proj1 (proj2 (history_loop_stops 1 (JStr "C12345") "1699400000.0" JNull []
                           (init two_pages) page_1 (JBool true)
                           [msg_at "1700000300.000200" "d"; msg_at "1700000200.000100" "c"]
                           eq_refl eq_refl eq_refl eq_refl) eq_refl)).
Defined.

(** C4 as stated fails: on a page whose ["has_more"] is true and
    whose ["response_metadata"] is [null], no cursor is present, yet
    the loop does not return the accumulated messages: it raises
    AttributeError. *)
Lemma history_loop_null_metadata_counterexample :
  let run := history_loop 1 (JStr "C12345") "1699400000.0" JNull []
               (init (always page_null_metadata)) in
  assoc "has_more" page_null_metadata = Some (JBool true) /\
  assoc "response_metadata" page_null_metadata = Some JNull /\
  run = Some (Raise AttributeError,
              set_sent [ {| endpoint := "conversations.history";
                            params := [("channel", JStr "C12345");
                                       ("oldest", JStr "1699400000.0");
                                       ("limit", JInt 100)] |} ]
                (init (always page_null_metadata))) /\
  (forall acc st', run <> Some (Ok acc, st')).
Proof.
  repeat split. intros acc st'. vm_compute. discriminate.
Qed.

(** Scenario A, run: one page with ["has_more"] false and one message
    gives that message after a single request. *)
Example fetch_single_page :
  let st := init (always [("ok", JBool true); ("messages", JList [sample_message]);
                          ("has_more", JBool false)]) in
  exists st1,
    fetch_messages 2 (JStr "C12345") "1699400000.0" false st
    = Some (Ok [sample_message], st1) /\ length (sent st1) = 1%nat.
Proof. eexists. split; vm_compute; reflexivity. Qed.

(** A cursor that is present but empty ends the loop as a missing
    one does. *)
Example empty_cursor_stops :
  let st := init (always [("ok", JBool true); ("messages", JList [sample_message]);
                          ("has_more", JBool true);
                          ("response_metadata", JObj [("next_cursor", JStr "")])]) in
  exists st1,
    history_loop 1 (JStr "C12345") "1699400000.0" JNull [] st
    = Some (Ok [sample_message], st1).
Proof. eexists. vm_compute. reflexivity. Qed.

(** ** Sorting by timestamp *)

(** *** The order of floats *)

Lemma flt_rank x y :
  is_nan x = false -> is_nan y = false ->
  (flt x y = true <-> rank_lt (rank x) (rank y)).
Proof.
  unfold flt, SFltb.
  destruct x as [sx | sx | | sx mx ex], y as [sy | sy | | sy my ey];
    try discriminate; intros _ _;
    try destruct sx; try destruct sy; simpl;
    try (split; [discriminate | lia]);
    try (split; [lia | reflexivity]);
    change (Pos.compare_cont Eq mx my) with (Pos.compare mx my);
    destruct (Z.compare_spec ex ey); try destruct (Pos.compare_spec mx my); simpl;
    split; try discriminate; try reflexivity; lia.
Qed.

Lemma fle_rank x y :
  is_nan x = false -> is_nan y = false ->
  (fle x y = true <-> ~ rank_lt (rank y) (rank x)).
Proof.
  unfold fle, SFleb.
  destruct x as [sx | sx | | sx mx ex], y as [sy | sy | | sy my ey];
    try discriminate; intros _ _;
    try destruct sx; try destruct sy; simpl;
    try (split; [lia | reflexivity]);
    try (split; [discriminate | lia]);
    change (Pos.compare_cont Eq mx my) with (Pos.compare mx my);
    destruct (Z.compare_spec ex ey); try destruct (Pos.compare_spec mx my); simpl;
    split; try discriminate; try reflexivity; lia.
Qed.

Lemma fle_of_not_flt x y :
  is_nan x = false -> is_nan y = false -> flt y x = false -> fle x y = true.
Proof.
  intros Hx Hy H. apply fle_rank; [assumption .. |].
  intros Hlt. apply (flt_rank y x Hy Hx) in Hlt. congruence.
Qed.

Lemma flt_asym x y :
  is_nan x = false -> is_nan y = false -> flt x y = true -> flt y x = false.
Proof.
  intros Hx Hy H. apply (flt_rank x y Hx Hy) in H.
  destruct (flt y x) eqn:E; [| reflexivity].
  apply (flt_rank y x Hy Hx) in E.
  destruct (rank x) as [[? ?] ?], (rank y) as [[? ?] ?]. simpl in *. lia.
Qed.

Lemma fle_trans x y z :
  is_nan x = false -> is_nan y = false -> is_nan z = false ->
  fle x y = true -> fle y z = true -> fle x z = true.
Proof.
  intros Hx Hy Hz Hxy Hyz.
  apply (fle_rank x y Hx Hy) in Hxy. apply (fle_rank y z Hy Hz) in Hyz.
  apply (fle_rank x z Hx Hz).
  destruct (rank x) as [[? ?] ?], (rank y) as [[? ?] ?], (rank z) as [[? ?] ?].
  simpl in *. lia.
Qed.

(** *** Insertion sort *)

Section Sort.

Context {A : Type} (lt : A -> A -> bool) (P : A -> Prop).

Hypothesis lt_asym : forall a b, P a -> P b -> lt a b = true -> lt b a = false.
Hypothesis le_trans :
  forall a b c, P a -> P b -> P c -> lt b a = false -> lt c b = false -> lt c a = false.

Lemma insert_perm x l : Permutation (x :: l) (insert lt x l).
Proof.
  induction l as [ | y l IH]; simpl; [reflexivity |].
  destruct (lt y x); [| reflexivity].
  rewrite perm_swap. apply perm_skip, IH.
Qed.

Lemma sort_perm l : Permutation l (sort lt l).
Proof.
  induction l as [ | x l IH]; simpl; [reflexivity |].
  rewrite <- insert_perm. apply perm_skip, IH.
Qed.

Lemma insert_sorted x l :
  P x -> Forall P l ->
  StronglySorted (fun a b => lt b a = false) l ->
  StronglySorted (fun a b => lt b a = false) (insert lt x l).
Proof.
  intros Hx. induction l as [ | y l IH]; simpl; intros HP Hs.
  - repeat constructor.
  - inversion HP as [ | ? ? Hy HPl]; subst.
    inversion Hs as [ | ? ? Hsl Hyl]; subst.
    destruct (lt y x) eqn:E.
    + constructor; [apply IH; assumption |].
      eapply Permutation_Forall; [apply insert_perm |].
      constructor; [apply lt_asym; assumption | assumption].
    + constructor; [assumption |].
      constructor; [assumption |].
      rewrite Forall_forall in Hyl, HPl |- *. intros z Hz.
      apply (le_trans x y z); auto.
Qed.

Lemma sort_sorted l :
  Forall P l -> StronglySorted (fun a b => lt b a = false) (sort lt l).
Proof.
  induction l as [ | x l IH]; simpl; intros HP; [constructor |].
  inversion HP; subst.
  apply insert_sorted; auto.
  eapply Permutation_Forall; [apply sort_perm | assumption].
Qed.

End Sort.

Lemma StronglySorted_map {A B} (R : A -> A -> Prop) (R' : B -> B -> Prop)
    (Q : A -> Prop) (f : A -> B) l :
  (forall a b, Q a -> Q b -> R a b -> R' (f a) (f b)) ->
  Forall Q l -> StronglySorted R l -> StronglySorted R' (map f l).
Proof.
  intros HR. induction l as [ | a l IH]; simpl; intros HQ Hs; [constructor |].
  inversion HQ as [ | ? ? Ha HQl]; subst.
  inversion Hs as [ | ? ? Hsl Hal]; subst.
  constructor; [auto |].
  rewrite List.Forall_forall in Hal, HQl. rewrite List.Forall_forall.
  intros b' [b [<- Hb]]%in_map_iff. auto.
Qed.

(** *** Timestamps convert to numbers *)

(** Rounding a value that is not negative never gives NaN. *)
Lemma shr_1_nonneg mrs : 0 <= shr_m mrs -> 0 <= shr_m (shr_1 mrs).
Proof. destruct mrs as [[ | [p | p | ] | p] r s]; simpl; lia. Qed.

Lemma iter_pos_nonneg n mrs :
  0 <= shr_m mrs -> 0 <= shr_m (SpecFloat.iter_pos shr_1 n mrs).
Proof.
  revert mrs. induction n as [n IH | n IH | ]; simpl; intros mrs H.
  - apply IH, IH, shr_1_nonneg, H.
  - apply IH, IH, H.
  - apply shr_1_nonneg, H.
Qed.

Lemma shr_fexp_nonneg m e l :
  0 <= m -> 0 <= shr_m (fst (shr_fexp prec emax m e l)).
Proof.
  intros H. unfold shr_fexp, shr.
  assert (H0 : 0 <= shr_m (shr_record_of_loc m l)) by (destruct l as [ | []]; exact H).
  destruct (fexp prec emax (Zdigits2 m + e) - e); simpl; auto using iter_pos_nonneg.
Qed.

Lemma round_nearest_even_nonneg m l : 0 <= m -> 0 <= round_nearest_even m l.
Proof. destruct l as [ | []]; simpl; try destruct (Z.even m); lia. Qed.

Lemma binary_round_aux_number sx mx ex lx :
  0 <= mx -> is_nan (binary_round_aux prec emax sx mx ex lx) = false.
Proof.
  intros H. unfold binary_round_aux.
  pose proof (shr_fexp_nonneg mx ex lx H) as H1.
  destruct (shr_fexp prec emax mx ex lx) as [mrs' e']. simpl in H1.
  pose proof (shr_fexp_nonneg _ e' loc_Exact
                (round_nearest_even_nonneg _ (loc_of_shr_record mrs') H1)) as H2.
  destruct (shr_fexp prec emax _ e' loc_Exact) as [mrs'' e'']. simpl in H2.
  destruct (shr_m mrs''); [reflexivity | | lia].
  destruct (e'' <=? emax - prec); reflexivity.
Qed.

Lemma binary_normalize_number m e s : is_nan (binary_normalize prec emax m e s) = false.
Proof.
  destruct m; simpl; [reflexivity | |]; unfold binary_round;
    destruct (shl_align _ _ _); apply binary_round_aux_number; lia.
Qed.

Lemma round_decimal_number neg m e : 0 <= m -> is_nan (round_decimal neg m e) = false.
Proof.
  intros H. unfold round_decimal.
  destruct (m =? 0); [reflexivity |].
  destruct (0 <=? e) eqn:He; [apply binary_normalize_number |].
  unfold SFdiv_core_binary.
  set (s := _ - _ - _).
  set (m' := match s with Zpos _ => Z.shiftl m s | Z0 => m | Zneg _ => 0 end).
  assert (Hm' : 0 <= m') by (subst m'; destruct s; try lia; apply Z.shiftl_nonneg; exact H).
  assert (Hd : 0 < 10 ^ (- e)) by (apply Z.pow_pos_nonneg; lia).
  pose proof (Z.div_pos m' (10 ^ (- e)) Hm' Hd) as Hq.
  unfold Z.div in Hq. destruct (Z.div_eucl m' (10 ^ (- e))) as [q r].
  apply binary_round_aux_number. exact Hq.
Qed.

Lemma digit_char c :
  is_digit c = true ->
  is_space c = false /\ Ascii.eqb c "_" = false /\ Ascii.eqb c "-" = false /\
  Ascii.eqb c "+" = false /\ Ascii.eqb c "." = false /\ lower c = c /\
  Ascii.eqb c "i" = false /\ Ascii.eqb c "n" = false /\ 0 <= digit_value c.
Proof.
  destruct c as [[] [] [] [] [] [] [] []]; intros H; try discriminate H;
    repeat split; try reflexivity; vm_compute; discriminate.
Qed.

Lemma plain_char c : plain c = true -> is_space c = false /\ Ascii.eqb c "_" = false.
Proof.
  unfold plain. destruct (is_digit c) eqn:E.
  - intros _. destruct (digit_char c E) as (? & ? & _). auto.
  - simpl. intros ->%Ascii.eqb_eq. split; reflexivity.
Qed.

Lemma decimal_tail_plain s dot : decimal_tail dot s = true -> all_plain s = true.
Proof.
  revert dot. induction s as [ | c s IH]; simpl; intros dot H; [reflexivity |].
  unfold plain. destruct (is_digit c); simpl in *.
  - eapply IH, H.
  - apply andb_prop in H as [[-> _]%andb_prop H]. simpl. eapply IH, H.
Qed.

Lemma rstrip_plain s : all_plain s = true -> rstrip s = s.
Proof.
  induction s as [ | c s IH]; simpl; [reflexivity |].
  intros [Hc Hs]%andb_prop. rewrite (IH Hs).
  destruct (plain_char c Hc) as [-> _]. destruct s; reflexivity.
Qed.

Lemma drop_underscores_plain s prev :
  all_plain s = true -> Ascii.eqb prev "_" = false -> drop_underscores prev s = Some s.
Proof.
  revert prev. induction s as [ | c s IH]; simpl; intros prev H Hp.
  - rewrite Hp. reflexivity.
  - apply andb_prop in H as [Hc Hs]. destruct (plain_char c Hc) as [_ Hu].
    rewrite Hu, Hp. simpl. rewrite (IH c Hs Hu). reflexivity.
Qed.

Lemma digits_digits s : forall acc n,
  decimal_tail true s = true -> 0 <= acc ->
  exists m n', digits acc n s = (m, n', "") /\ 0 <= m /\ n <= n'.
Proof.
  induction s as [ | c s IH]; simpl; intros acc n H Hacc.
  - exists acc, n. repeat split; lia.
  - destruct (is_digit c) eqn:E.
    + destruct (digit_char c E) as (_ & _ & _ & _ & _ & _ & _ & _ & Hv).
      destruct (IH (10 * acc + digit_value c) (n + 1) H ltac:(lia)) as (m & n' & -> & ? & ?).
      exists m, n'. repeat split; lia.
    + rewrite andb_false_r in H. discriminate.
Qed.

Lemma digits_decimal s : forall acc n,
  decimal_tail false s = true -> 0 <= acc ->
  exists m n' rest,
    digits acc n s = (m, n', rest) /\ 0 <= m /\ n <= n' /\
    (rest = "" \/ exists s2, rest = String "." s2 /\ decimal_tail true s2 = true).
Proof.
  induction s as [ | c s IH]; simpl; intros acc n H Hacc.
  - exists acc, n, "". repeat split; auto; lia.
  - destruct (is_digit c) eqn:E.
    + destruct (digit_char c E) as (_ & _ & _ & _ & _ & _ & _ & _ & Hv).
      destruct (IH (10 * acc + digit_value c) (n + 1) H ltac:(lia))
        as (m & n' & rest & -> & ? & ? & ?).
      exists m, n', rest. repeat split; auto; lia.
    + apply andb_prop in H as [[->%Ascii.eqb_eq _]%andb_prop H].
      exists acc, n, (String "." s). repeat split; eauto; lia.
Qed.

Lemma float_of_decimal s :
  decimal s = true -> exists f, float_of_str s = Some f /\ is_nan f = false.
Proof.
  destruct s as [ | c s]; [discriminate |]. simpl.
  intros [Hc Hs]%andb_prop.
  destruct (digit_char c Hc) as (Hsp & Hu & Hminus & Hplus & Hdot & Hlow & Hi & Hn & Hv).
  assert (Hplain : all_plain (String c s) = true).
  { simpl. unfold plain. rewrite Hc. simpl. eapply decimal_tail_plain, Hs. }
  unfold float_of_str. simpl lstrip. rewrite Hsp.
  rewrite (rstrip_plain _ Hplain).
  rewrite (drop_underscores_plain _ " " Hplain eq_refl).
  assert (Hsign : sign (String c s) = (false, String c s)).
  { unfold sign. apply Ascii.eqb_neq in Hminus, Hplus.
    destruct c as [[] [] [] [] [] [] [] []]; try reflexivity; congruence. }
  rewrite Hsign.
  assert (Hword : forall w, String.eqb (lower_str (String c s)) (String "i" w) = false
                            /\ String.eqb (lower_str (String c s)) (String "n" w) = false).
  { intros w. simpl. rewrite Hlow, Hi, Hn. split; reflexivity. }
  rewrite (proj1 (Hword "nf")), (proj1 (Hword "nfinity")), (proj2 (Hword "an")).
  simpl orb. cbv iota.
  simpl digits. rewrite Hc.
  destruct (digits_decimal s (10 * 0 + digit_value c) (0 + 1) Hs ltac:(lia))
    as (ip & ni & rest & -> & Hip & Hni & [-> | (s2 & -> & Hs2)]).
  - replace (ni + 0 =? 0) with false by (symmetry; apply Z.eqb_neq; lia).
    simpl. eexists. split; [reflexivity |]. apply round_decimal_number, Hip.
  - destruct (digits_digits s2 ip 0 Hs2 Hip) as (m & nf & -> & Hm & Hnf).
    replace (ni + nf =? 0) with false by (symmetry; apply Z.eqb_neq; lia).
    simpl. eexists. split; [reflexivity |]. apply round_decimal_number, Hm.
Qed.

Lemma timestamped_numeric x : timestamped x = true -> numeric_ts x = true.
Proof.
  destruct x as [ | | | | | d]; try discriminate.
  unfold timestamped, numeric_ts, ts_key. simpl.
  destruct (assoc "ts" d) as [[ | | | s | | ] | ]; try discriminate; [| reflexivity].
  intros (f & Hf & Hn)%float_of_decimal. simpl. rewrite Hf, Hn. reflexivity.
Qed.

Lemma forallb_timestamped_numeric l :
  forallb timestamped l = true -> forallb numeric_ts l = true.
Proof.
  induction l as [ | x l IH]; simpl; [reflexivity |].
  intros [Hx Hl]%andb_prop. rewrite (timestamped_numeric x Hx). auto.
Qed.

(** *** Keys of the messages *)

Lemma decorate_numeric l :
  forallb numeric_ts l = true ->
  exists d, decorate l = Ok d /\ map snd d = l /\ Forall keyed d.
Proof.
  induction l as [ | x l IH]; simpl; intros H.
  - exists []. repeat split. constructor.
  - apply andb_prop in H as [Hx Hl].
    destruct (IH Hl) as (d & -> & Hm & Hk).
    unfold numeric_ts in Hx. destruct (ts_key x) as [k | e] eqn:E; [| discriminate].
    simpl. exists ((k, x) :: d). repeat split.
    + simpl. rewrite Hm. reflexivity.
    + constructor; [| assumption]. split; simpl; [assumption |].
      destruct (is_nan k); [discriminate | reflexivity].
Qed.

Lemma sort_by_ts_sorted l :
  forallb numeric_ts l = true ->
  exists sorted,
    sort_by_ts l = Ok sorted /\ Permutation l sorted /\
    StronglySorted (fun a b => ts_le a b = true) sorted.
Proof.
  intros H. destruct (decorate_numeric l H) as (d & Hd & Hm & Hk).
  unfold sort_by_ts. rewrite Hd. simpl.
  set (lt := fun a b : spec_float * json => flt (fst a) (fst b)).
  exists (map snd (sort lt d)). split; [reflexivity |]. split.
  - rewrite <- Hm. apply Permutation_map, sort_perm.
  - apply (StronglySorted_map (fun a b => lt b a = false) _ keyed).
    + intros a b [Ha Na] [Hb Nb] Hab. unfold ts_le. rewrite Ha, Hb.
      apply fle_of_not_flt; assumption.
    + eapply Permutation_Forall; [apply sort_perm | assumption].
    + apply (sort_sorted lt keyed); [| | assumption].
      * intros a b [_ Na] [_ Nb]. apply flt_asym; assumption.
      * intros a b c [_ Na] [_ Nb] [_ Nc] Hab Hbc. unfold lt in *.
        destruct (flt (fst c) (fst a)) eqn:E; [| reflexivity].
        pose proof (fle_trans _ _ _ Na Nb Nc
                      (fle_of_not_flt _ _ Na Nb Hab) (fle_of_not_flt _ _ Nb Nc Hbc)) as Hac.
        apply (fle_rank _ _ Na Nc) in Hac. apply (flt_rank _ _ Nc Na) in E. contradiction.
Qed.

(** *** Attaching replies keeps the keys *)

Lemma assoc_dict_set_ne k k' v d :
  String.eqb k k' = false -> assoc k (dict_set k' v d) = assoc k d.
Proof.
  intros Hne. induction d as [ | [k0 v0] d IH]; simpl.
  - rewrite Hne. reflexivity.
  - destruct (String.eqb k' k0) eqn:E; simpl.
    + apply String.eqb_eq in E. subst k0. rewrite Hne. reflexivity.
    + rewrite IH. reflexivity.
Qed.

(** *** The order of the specification *)

(** On the messages of the data model the key of the code is the
    number of the specification. *)
Lemma timestamped_key x :
  timestamped x = true ->
  exists k, ts_key x = Ok k /\ timestamp_number x = Some k /\ is_nan k = false.
Proof.
  destruct x as [ | | | | | d]; try discriminate.
  unfold timestamped, timestamp_number, ts_key. simpl.
  destruct (assoc "ts" d) as [[ | | | s | | ] | ]; try discriminate.
  - intros (f & Hf & Hn)%float_of_decimal. simpl. rewrite Hf. eauto.
  - intros _. eexists. repeat split; reflexivity.
Qed.

Lemma ts_le_chronological a b :
  timestamped a = true -> timestamped b = true ->
  ts_le a b = true -> chronological a b = true.
Proof.
  intros (x & Ha & Na & _)%timestamped_key (y & Hb & Nb & _)%timestamped_key.
  unfold ts_le, chronological. rewrite Ha, Hb, Na, Nb. auto.
Qed.

Lemma StronglySorted_on {A} (P : A -> Prop) (R R' : A -> A -> Prop) l :
  (forall a b, P a -> P b -> R a b -> R' a b) ->
  Forall P l -> StronglySorted R l -> StronglySorted R' l.
Proof.
  intros HR HP Hs. induction Hs as [ | a l Hs IH Ha]; [constructor |].
  inversion HP as [ | ? ? Pa Pl]; subst. constructor; [auto |].
  clear IH Hs HP. induction Ha as [ | b l Hab Hl IH]; [constructor |].
  inversion Pl; subst. constructor; auto.
Qed.

Lemma fetch_replies_for_with_replies channel_id msg st msg' st' :
  fetch_replies_for channel_id msg st = (Ok msg', st') -> with_replies msg msg'.
Proof.
  unfold fetch_replies_for. intros H.
  apply bind_inv_ok in H as (rc & s1 & _ & H).
  apply bind_inv_ok in H as (threaded & s2 & _ & H).
  destruct threaded.
  - apply bind_inv_ok in H as (ts & s3 & _ & H).
    apply bind_inv_ok in H as (replies & s4 & _ & H).
    apply lift_inv_ok in H as [H _]. right. eauto.
  - injection H as <- _. left. reflexivity.
Qed.

Lemma fetch_replies_for_messages_with_replies channel_id messages :
  forall st result st',
    _fetch_replies_for_messages channel_id messages st = (Ok result, st') ->
    Forall2 with_replies messages result.
Proof.
  induction messages as [ | msg rest IH]; simpl; intros st result st' H.
  - injection H as <- _. constructor.
  - apply bind_inv_ok in H as (msg' & s1 & Hmsg & H).
    apply bind_inv_ok in H as (rest' & s2 & Hrest & H).
    injection H as <- _. constructor.
    + eapply fetch_replies_for_with_replies; eassumption.
    + eapply IH; eassumption.
Qed.

(** Attaching replies leaves the number of a message as it is. *)
Lemma with_replies_number m m' :
  with_replies m m' -> timestamp_number m' = timestamp_number m.
Proof.
  intros [-> | (replies & H)]; [reflexivity |].
  destruct m; try discriminate. injection H as <-.
  unfold timestamp_number. rewrite assoc_dict_set_ne by reflexivity. reflexivity.
Qed.

Lemma StronglySorted_with_replies l l' :
  Forall2 with_replies l l' ->
  StronglySorted (fun a b => chronological a b = true) l ->
  StronglySorted (fun a b => chronological a b = true) l'.
Proof.
  induction 1 as [ | m m' l l' Hm Hl IH]; intros Hs; [constructor |].
  inversion Hs as [ | ? ? Hsl Hml]; subst.
  constructor; [auto |].
  clear IH Hsl Hs. induction Hl as [ | x x' l l' Hx Hl IH]; [constructor |].
  inversion Hml; subst. constructor; [| auto].
  unfold chronological in *.
  rewrite (with_replies_number _ _ Hm), (with_replies_number _ _ Hx). assumption.
Qed.

(** C1: whatever messages the loop has accumulated over its pages,
    in whatever order, [fetch_messages] returns them in chronological
    order: the number of each message (its ["ts"] parsed as a number,
    0 for a message without ["ts"]) is no greater than the number of
    any message after it.  The messages are those of the data model,
    with ["ts"] a decimal numeral or missing.  Without replies the
    result is a rearrangement of the accumulated messages.  With
    replies, whenever the reply requests succeed, the result is such
    a rearrangement in chronological order, message by message as it
    was or with its replies attached, and is itself in chronological
    order. *)
Theorem fetch_messages_sorted (fuel : nat) (channel_id : json) (oldest : string)
    (st st1 : state) (acc : list json) :
  history_loop fuel channel_id oldest JNull [] st = Some (Ok acc, st1) ->
  forallb timestamped acc = true ->
  (exists sorted,
      fetch_messages fuel channel_id oldest false st = Some (Ok sorted, st1) /\
      Permutation acc sorted /\
      StronglySorted (fun a b => chronological a b = true) sorted) /\
  (forall result st2,
      fetch_messages fuel channel_id oldest true st = Some (Ok result, st2) ->
      exists sorted,
        Permutation acc sorted /\
        StronglySorted (fun a b => chronological a b = true) sorted /\
        Forall2 with_replies sorted result /\
        StronglySorted (fun a b => chronological a b = true) result) /\
  (forall m, lacks "ts" m = true -> timestamp_number m = Some (S754_zero false)).
Proof.
  intros Hloop Hmodel.
  destruct (sort_by_ts_sorted acc (forallb_timestamped_numeric _ Hmodel))
    as (sorted & Hsort & Hperm & Hsorted).
  assert (Hchron : StronglySorted (fun a b => chronological a b = true) sorted).
  { apply (StronglySorted_on (fun x => timestamped x = true)
             (fun a b => ts_le a b = true)); [| | exact Hsorted].
    - intros a b. apply ts_le_chronological.
    - eapply Permutation_Forall; [exact Hperm |].
      apply List.Forall_forall. intros x Hx.
      rewrite forallb_forall in Hmodel. apply Hmodel, Hx. }
  split; [| split].
  - exists sorted. unfold fetch_messages. rewrite Hloop.
    rewrite (bind_lift_ok _ _ _ _ Hsort). auto.
  - intros result st2. unfold fetch_messages. rewrite Hloop.
    rewrite (bind_lift_ok _ _ _ _ Hsort). intros [= H].
    apply fetch_replies_for_messages_with_replies in H.
    exists sorted. repeat split; auto.
    eapply StronglySorted_with_replies; eassumption.
  - intros [ | | | | | d]; try discriminate. unfold lacks, timestamp_number.
    destruct (assoc "ts" d); [discriminate | reflexivity].
Qed.

Lemma fetch_messages_sorted_witness :
  let sorted := [msg_without_ts;
                 msg_at "1700000000.000400" "a"; msg_at "1700000100.000300" "b";
                 msg_at "1700000200.000100" "c"; msg_at "1700000300.000200" "d"] in
  fetch_messages 5 (JStr "C12345") "1699400000.0" false (init two_pages)
  = Some (Ok sorted, after_two_pages) /\
  Permutation accumulated sorted /\
  StronglySorted (fun a b => chronological a b = true) sorted.
Proof.
  destruct (proj1 (fetch_messages_sorted 5 (JStr "C12345") "1699400000.0"
                     (init two_pages) after_two_pages accumulated
                     ltac:(vm_compute; reflexivity) ltac:(vm_compute; reflexivity)))
    as (sorted & Hf & Hp & Hs).
  assert (E : fetch_messages 5 (JStr "C12345") "1699400000.0" false (init two_pages)
              = Some (Ok [msg_without_ts;
                          msg_at "1700000000.000400" "a"; msg_at "1700000100.000300" "b";
                          msg_at "1700000200.000100" "c"; msg_at "1700000300.000200" "d"],
                      after_two_pages))
    by (vm_compute; reflexivity).
  rewrite E in Hf. injection Hf as <-. auto.
Defined.

(** The order on two of these messages: the earlier one is not later
    than the later one, and not the other way round; a message
    without ["ts"] is not later than either. *)
Example chronological_order :
  chronological (msg_at "1700000200.000100" "c") (msg_at "1700000300.000200" "d") = true /\
  chronological (msg_at "1700000300.000200" "d") (msg_at "1700000200.000100" "c") = false /\
  chronological msg_without_ts (msg_at "1700000000.000400" "a") = true /\
  chronological (msg_at "1700000000.000400" "a") msg_without_ts = false.
Proof. repeat split; vm_compute; reflexivity. Qed.

(** Scenario B, run: the two pages come back as one list in
    timestamp order, the message without ["ts"] first. *)
Example fetch_two_pages :
  fetch_messages 5 (JStr "C12345") "1699400000.0" false (init two_pages)
  = Some (Ok [msg_without_ts;
              msg_at "1700000000.000400" "a"; msg_at "1700000100.000300" "b";
              msg_at "1700000200.000100" "c"; msg_at "1700000300.000200" "d"],
          after_two_pages).
Proof. vm_compute. reflexivity. Qed.

(** ** Rich text *)

Lemma append_nil_r s : s ++ "" = s.
Proof. induction s as [ | c s IH]; [reflexivity |]. rewrite append_cons, IH. reflexivity. Qed.

Lemma join_empty_strings fs : join_empty (map JStr fs) = Ok (String.concat "" fs).
Proof.
  induction fs as [ | f fs IH]; [reflexivity |].
  simpl. rewrite IH. simpl. destruct fs; [rewrite append_nil_r |]; reflexivity.
Qed.

(** A loop that appends to [text_parts] what the specification says
    each member contributes. *)
Lemma foldM_forms {T} (step : list json -> json -> M (list json))
    (forms : T -> M (list string)) (decode : json -> option T) :
  (forall acc j t st,
      decode j = Some t ->
      step acc j st = bind (forms t) (fun fs => ret (acc ++ map JStr fs)%list) st) ->
  forall js ts,
    decode_list decode js = Some ts ->
    forall acc st,
      foldM step acc js st
      = bind (concatM forms ts) (fun fs => ret (acc ++ map JStr fs)%list) st.
Proof.
  intros Hstep. induction js as [ | j js IH]; simpl; intros ts Hd acc st.
  - injection Hd as <-. unfold bind, ret. simpl. rewrite app_nil_r. reflexivity.
  - destruct (decode j) as [t | ] eqn:Hj; [| discriminate].
    destruct (decode_list decode js) as [ts' | ] eqn:Hjs; [| discriminate].
    injection Hd as <-. simpl.
    cbv [bind]. rewrite (Hstep _ _ _ _ Hj). cbv [bind].
    destruct (forms t st) as [[fs | e] st1]; [| reflexivity].
    cbv [ret]. rewrite (IH _ eq_refl). cbv [bind ret].
    destruct (concatM forms ts' st1) as [[rest | e] st2]; [| reflexivity].
    rewrite map_app, app_assoc. reflexivity.
Qed.

Lemma append_item_forms acc j i st :
  decode_item j = Some i ->
  append_item acc j st = bind (item_forms i) (fun fs => ret (acc ++ map JStr fs)%list) st.
Proof.
  destruct j as [ | | | | | d]; try discriminate.
  unfold decode_item, append_item, kind_of.
  cbv [bind lift get].
  destruct (eq _ (JStr "text")).
  { destruct (assoc "text" d) as [[ | | | t | | ] | ]; try discriminate.
    intros [= <-]. reflexivity. }
  destruct (eq _ (JStr "link")).
  { destruct (assoc "url" d) as [[ | | | u | | ] | ]; try discriminate.
    destruct (assoc "text" d) as [[ | | | t | | ] | ]; try discriminate;
      intros [= <-]; reflexivity. }
  destruct (eq _ (JStr "user")).
  { destruct (assoc "user_id" d) as [[ | | | u | | ] | ]; try discriminate.
    intros [= <-]. cbv [item_forms mention_label bind lift ret obind].
    destruct (get_user_info (JStr u) st) as [[info | e] st1]; [| reflexivity].
    destruct (truthy info) eqn:Hinfo; [| reflexivity].
    destruct info as [ | | | | | p]; try reflexivity.
    cbv [get].
    destruct (match assoc "profile" p with Some v => v | None => JObj [] end);
      reflexivity. }
  destruct (eq _ (JStr "emoji")).
  { destruct (assoc "name" d) as [[ | | | n | | ] | ]; try discriminate.
    intros [= <-]. reflexivity. }
  intros [= <-]. cbv [item_forms bind ret]. simpl. rewrite app_nil_r. reflexivity.
Qed.

Lemma children_iter {A} (decode : json -> option A) d ts :
  decode_children decode d = Some ts ->
  exists js, iter (match assoc "elements" d with Some v => v | None => JList [] end) = Ok js /\
             decode_list decode js = Some ts.
Proof.
  unfold decode_children.
  destruct (assoc "elements" d) as [[ | | | | l | ] | ]; try discriminate; simpl; eauto.
Qed.

Lemma append_element_forms acc j e st :
  decode_element j = Some e ->
  append_element acc j st
  = bind (element_forms e) (fun fs => ret (acc ++ map JStr fs)%list) st.
Proof.
  destruct j as [ | | | | | d]; try discriminate.
  unfold decode_element, append_element, kind_of.
  cbv [bind lift get].
  destruct (eq _ (JStr "rich_text_section")).
  - destruct (decode_children decode_item d) as [items | ] eqn:Hc; [| discriminate].
    intros [= <-]. apply children_iter in Hc as (js & Hjs & Hd).
    rewrite Hjs. apply (foldM_forms append_item item_forms decode_item);
      [exact append_item_forms | exact Hd].
  - intros [= <-]. cbv [element_forms bind ret]. simpl. rewrite app_nil_r. reflexivity.
Qed.

Lemma append_block_forms acc j b st :
  decode_block j = Some b ->
  append_block acc j st
  = bind (block_forms b) (fun fs => ret (acc ++ map JStr fs)%list) st.
Proof.
  destruct j as [ | | | | | d]; try discriminate.
  unfold decode_block, append_block, kind_of.
  cbv [bind lift get].
  destruct (eq _ (JStr "rich_text")).
  - destruct (decode_children decode_element d) as [elements | ] eqn:Hc; [| discriminate].
    intros [= <-]. apply children_iter in Hc as (js & Hjs & Hd).
    rewrite Hjs. apply (foldM_forms append_element element_forms decode_element);
      [exact append_element_forms | exact Hd].
  - intros [= <-]. cbv [block_forms bind ret]. simpl. rewrite app_nil_r. reflexivity.
Qed.

(** C7: on blocks of the Slack format, [_extract_text_from_blocks]
    computes the rendering of the specification: each text item
    verbatim, each link as [[label](url)] (the URL standing in for a
    missing label), each mention as [@label], each emoji as [:name:],
    nothing for other kinds, all joined in the order of the blocks,
    sections and items with nothing in between; and [None] when no
    item contributed, be it for want of blocks or of recognized
    items. *)
Theorem extract_text_renders (blocks : list json) (typed : list block) (st : state) :
  decode_list decode_block blocks = Some typed ->
  _extract_text_from_blocks (JList blocks) st = render typed st.
Proof.
  intros Hd. unfold _extract_text_from_blocks, render.
  rewrite bind_lift_ok with (a := blocks) by reflexivity.
  cbv [bind].
  rewrite (foldM_forms append_block block_forms decode_block append_block_forms _ _ Hd).
  cbv [bind ret].
  destruct (concatM block_forms typed st) as [[fs | e] st1]; [| reflexivity].
  destruct fs as [ | f fs]; [reflexivity |].
  change ([] ++ map JStr (f :: fs))%list with (map JStr (f :: fs)).
  cbv [lift]. rewrite join_empty_strings. reflexivity.
Qed.

Lemma extract_text_renders_witness :
  _extract_text_from_blocks scenario_f (init (always user_body))
  = render scenario_f_blocks (init (always user_body)).
Proof.
  apply (extract_text_renders _ scenario_f_blocks (init (always user_body))).
  reflexivity.
Defined.

(** Scenario F, run: text, link and mention in order, nothing in
    between, the unknown item skipped; the mention is resolved with
    one request and cached. *)
Example render_scenario_f :
  fst (_extract_text_from_blocks scenario_f (init (always user_body)))
  = Ok (JStr "Check [this](https://example.com), @Test Display").
Proof. vm_compute. reflexivity. Qed.

Example render_no_blocks st : _extract_text_from_blocks (JList []) st = (Ok JNull, st).
Proof. reflexivity. Qed.

Example render_empty_section st :
  _extract_text_from_blocks
    (JList [JObj [("type", JStr "rich_text");
                  ("elements", JList [JObj [("type", JStr "rich_text_section");
                                            ("elements", JList [])]])]]) st
  = (Ok JNull, st).
Proof. reflexivity. Qed.

(** * Further properties *)

(** ** The gateway and the two lookups *)

(** X1: [_make_request] logs its request and changes nothing else,
    whatever the outcome.  It succeeds exactly when the body is a
    dict with a truthy ["ok"], and then returns that body; a transport
    failure comes back as [Exception("Request failed: ...")]; a body
    that is not a dict raises AttributeError, which the handler for
    [RequestException] lets through. *)
Theorem make_request_outcomes (ep : string) (ps : list (string * json)) (st : state) :
  let req := {| endpoint := ep; params := ps |} in
  let r := _make_request ep ps st in
  snd r = set_sent (sent st ++ [req])%list st /\
  (forall data,
      fst r = Ok data <->
      exists d ok, session st (sent st) req = Decoded (JObj d) /\ data = JObj d /\
                   assoc "ok" d = Some ok /\ truthy ok = true) /\
  (forall e, session st (sent st) req = RequestException e ->
             fst r = Raise (Exception ("Request failed: " ++ e))) /\
  (forall body, session st (sent st) req = Decoded body ->
                (forall d, body <> JObj d) -> fst r = Raise AttributeError).
Proof.
  intros req r. split; [apply make_request_state |]. split; [| split].
  - intros data. split.
    + intros H. destruct (make_request_ok _ _ _ _ H) as (d & ok & -> & Hs & Hok & Ht).
      exists d, ok. auto.
    + intros (d & ok & Hs & -> & Hok & Ht). unfold r.
      erewrite make_request_decoded by eassumption. reflexivity.
  - intros e Hs. unfold r, _make_request. fold req. rewrite Hs. reflexivity.
  - intros body Hs Hbody. unfold r, _make_request. fold req. rewrite Hs.
    destruct body; try reflexivity. destruct (Hbody d eq_refl).
Qed.

(** X2: [get_channel_info] swallows nothing: it raises whatever
    [_make_request] raises, and on success returns the body's
    ["channel"], or [{}] when the body has none.  It sends that one
    request and leaves the cache alone. *)
Theorem get_channel_info_propagates (channel_id : json) (st : state) :
  let request := _make_request "conversations.info" [("channel", channel_id)] st in
  let r := get_channel_info channel_id st in
  snd r = snd request /\
  user_cache (snd r) = user_cache st /\
  (forall e, fst request = Raise e -> fst r = Raise e) /\
  (forall d, fst request = Ok (JObj d) ->
             fst r = Ok (match assoc "channel" d with Some c => c | None => JObj [] end)).
Proof.
  intros request r. unfold r, get_channel_info, bind. fold request.
  pose proof (make_request_state "conversations.info" [("channel", channel_id)] st) as Hst.
  fold request in Hst.
  destruct request as [[data | e] st1] eqn:E; simpl in *.
  - pose proof (make_request_ok "conversations.info" [("channel", channel_id)] st data) as Hok.
    fold request in Hok. rewrite E in Hok. destruct (Hok eq_refl) as (d & ok & -> & _).
    subst st1. repeat split; [discriminate |].
    intros d' [= <-]. reflexivity.
  - subst st1. repeat split; [| discriminate]. intros e' [= <-]. reflexivity.
Qed.

(** X3: [get_user_info] never raises on a hashable ID: every failure
    of the request ends in the bare [except].  It never drops or
    changes an entry of the cache, sends at most the one [users.info]
    request, and opens no file. *)
Theorem get_user_info_never_raises (user_id : json) (k : key) (st : state) :
  hash_key user_id = Some k ->
  let req := {| endpoint := "users.info"; params := [("user", user_id)] |} in
  let r := get_user_info user_id st in
  (exists profile, fst r = Ok profile) /\
  (forall k' v, user_cache st !! k' = Some v -> user_cache (snd r) !! k' = Some v) /\
  (sent (snd r) = sent st \/ sent (snd r) = (sent st ++ [req])%list) /\
  opened (snd r) = opened st.
Proof.
  intros Hkey req r.
  destruct (user_cache st !! k) as [cached | ] eqn:Hc.
  - unfold r. rewrite (get_user_info_hit _ _ _ Hkey _ Hc). simpl. eauto 6.
  - destruct (fst (_make_request "users.info" [("user", user_id)] st)) as [data | e] eqn:E.
    + destruct (make_request_ok _ _ _ _ E) as (d & ok & -> & _).
      unfold r. erewrite get_user_info_miss_ok by eauto. simpl.
      repeat split; eauto.
      intros k' v Hv. rewrite lookup_insert_ne; [exact Hv | congruence].
    + unfold r. erewrite get_user_info_miss_raise by eauto. simpl.
      repeat split; eauto.
Qed.

Lemma get_user_info_never_raises_witness :
  fst (get_user_info (JStr "U404") (init nobody)) = Ok (JObj []).
Proof.
  destruct (get_user_info_never_raises (JStr "U404") (KStr "U404") (init nobody) eq_refl)
    as [[profile Hp] _].
  rewrite Hp. vm_compute in Hp. injection Hp as <-. reflexivity.
Defined.

(** X4: a successful [users.info] answer without ["user"] is cached as
    the empty profile, unlike a failed request: the next lookup
    returns [{}] from the cache without asking again, and the author
    label of that user is ["User <id>"] from then on. *)
Theorem get_user_info_caches_empty_profile (user_id : json) (k : key) (st : state)
    (d m : list (string * json)) (ok : json) :
  hash_key user_id = Some k ->
  user_cache st !! k = None ->
  session st (sent st) {| endpoint := "users.info"; params := [("user", user_id)] |}
    = Decoded (JObj d) ->
  assoc "ok" d = Some ok -> truthy ok = true ->
  assoc "user" d = None ->
  let first := get_user_info user_id st in
  fst first = Ok (JObj []) /\
  user_cache (snd first) !! k = Some (JObj []) /\
  get_user_info user_id (snd first) = (Ok (JObj []), snd first) /\
  (not_bot m = true -> truthy user_id = true ->
   _get_user_display user_id (JObj m) (snd first)
   = (Ok (JStr ("User " ++ str user_id)), snd first)).
Proof.
  intros Hkey Hmiss Hs Hok Ht Huser first.
  assert (Hreq : _make_request "users.info" [("user", user_id)] st
                 = (Ok (JObj d), set_sent (sent st ++ [_])%list st))
    by (eapply make_request_decoded; eassumption).
  assert (Hfirst : first = (Ok (JObj []),
            set_user_cache (<[k := JObj []]> (user_cache st))
              (set_sent (sent st ++ [{| endpoint := "users.info";
                                        params := [("user", user_id)] |}])%list st))).
  { unfold first. eapply get_user_info_miss_ok; eauto.
    - rewrite Hreq. reflexivity.
    - rewrite Huser. reflexivity. }
  rewrite Hfirst. cbn [fst snd].
  assert (Hhit : forall st2, user_cache st2 !! k = Some (JObj []) ->
                             get_user_info user_id st2 = (Ok (JObj []), st2))
    by (intros st2 H2; eapply get_user_info_hit; eassumption).
  repeat split.
  - apply lookup_insert_eq.
  - apply Hhit. simpl. apply lookup_insert_eq.
  - intros Hbot Hid. unfold not_bot in Hbot. apply negb_true_iff in Hbot.
    unfold _get_user_display, bind, lift. simpl get. cbv beta iota.
    rewrite Hbot, Hid. cbv beta iota delta [negb].
    rewrite Hhit by (simpl; apply lookup_insert_eq). reflexivity.
Qed.

Lemma get_user_info_caches_empty_profile_witness :
  let first := get_user_info (JStr "U12345") (init userless) in
  _get_user_display (JStr "U12345") (JObj (message_of "U12345")) (snd first)
  = (Ok (JStr "User U12345"), snd first).
Proof.
  apply (get_user_info_caches_empty_profile (JStr "U12345") (KStr "U12345") (init userless)
           [("ok", JBool true)] (message_of "U12345") (JBool true)); reflexivity.
Defined.

(** ** Author labels, beyond bots *)

(** X5: for a message that is not a bot's and a user that resolves to
    a non-empty profile, the label is the first non-empty of the real
    name, the profile's display name and the user name, and
    ["User <id>"] when all three are empty or missing. *)
Theorem user_display_precedence (user_id : json) (m p : list (string * json))
    (display_name : json) (st st1 : state) :
  not_bot m = true ->
  truthy user_id = true ->
  get_user_info user_id st = (Ok (JObj p), st1) ->
  p <> [] ->
  get (match assoc "profile" p with Some v => v | None => JObj [] end)
    "display_name" (JStr "") = Ok display_name ->
  let real_name := match assoc "real_name" p with Some v => v | None => JStr "" end in
  let username := match assoc "name" p with Some v => v | None => JStr "" end in
  _get_user_display user_id (JObj m) st
  = (Ok (if truthy real_name then real_name
         else if truthy display_name then display_name
         else if truthy username then username
         else JStr ("User " ++ str user_id)), st1).
Proof.
  intros Hbot Hid Hinfo Hp Hdn real_name username.
  unfold not_bot in Hbot. apply negb_true_iff in Hbot.
  unfold _get_user_display, bind, lift. simpl get. cbv beta iota.
  rewrite Hbot, Hid. cbv beta iota delta [negb]. rewrite Hinfo.
  replace (truthy (JObj p)) with true by (destruct p; [congruence | reflexivity]).
  cbn [get]. rewrite Hdn. reflexivity.
Qed.

Lemma user_display_precedence_witness :
  fst (_get_user_display (JStr "U12345") (JObj (message_of "U12345"))
         (init (always user_body)))
  = Ok (JStr "Test User").
Proof.
  rewrite (user_display_precedence (JStr "U12345") (message_of "U12345")
             [("id", JStr "U12345"); ("name", JStr "testuser");
              ("real_name", JStr "Test User");
              ("profile", JObj [("display_name", JStr "Test Display");
                                ("email", JStr "test@example.com")])]
             (JStr "Test Display") (init (always user_body)) after_lookup
             eq_refl eq_refl ltac:(vm_compute; reflexivity) ltac:(discriminate) eq_refl).
  reflexivity.
Defined.

(** X6: the labels of last resort.  A bot message without ["username"]
    is labelled ["Bot"]; a message that is not a bot's and has no (or
    an empty) user ID is labelled ["Unknown User"], both without any
    lookup.  When the lookup of a user fails, the label is
    ["User <id>"]: nothing is raised, the request is logged and the
    cache stays as it was. *)
Theorem user_display_fallbacks (user_id : json) (m : list (string * json)) (st : state) :
  (not_bot m = false -> assoc "username" m = None ->
   _get_user_display user_id (JObj m) st = (Ok (JStr "Bot"), st)) /\
  (not_bot m = true -> truthy user_id = false ->
   _get_user_display user_id (JObj m) st = (Ok (JStr "Unknown User"), st)) /\
  (forall k e,
      not_bot m = true -> truthy user_id = true ->
      hash_key user_id = Some k -> user_cache st !! k = None ->
      fst (_make_request "users.info" [("user", user_id)] st) = Raise e ->
      _get_user_display user_id (JObj m) st
      = (Ok (JStr ("User " ++ str user_id)),
         set_sent (sent st ++ [{| endpoint := "users.info";
                                  params := [("user", user_id)] |}])%list st)).
Proof.
  unfold not_bot. repeat split.
  - intros Hbot%negb_false_iff Hname.
    unfold _get_user_display, bind, lift. simpl get. cbv beta iota.
    rewrite Hbot. cbn [get]. rewrite Hname. reflexivity.
  - intros Hbot%negb_true_iff Hid.
    unfold _get_user_display, bind, lift. simpl get. cbv beta iota.
    rewrite Hbot, Hid. reflexivity.
  - intros k e Hbot%negb_true_iff Hid Hkey Hmiss Hraise.
    unfold _get_user_display, bind, lift. simpl get. cbv beta iota.
    rewrite Hbot, Hid. cbv beta iota delta [negb].
    erewrite get_user_info_miss_raise by eassumption. reflexivity.
Qed.

Lemma user_display_fallbacks_witness :
  _get_user_display (JStr "U404") (JObj (message_of "U404")) (init nobody)
  = (Ok (JStr "User U404"),
     set_sent [{| endpoint := "users.info"; params := [("user", JStr "U404")] |}]
       (init nobody)).
Proof.
  apply (proj2 (proj2 (user_display_fallbacks (JStr "U404") (message_of "U404")
                         (init nobody)))
           (KStr "U404") (Exception "Slack API error: user_not_found"));
    reflexivity.
Defined.

(** ** Attaching replies *)

Lemma set_sent_same st : set_sent (sent st) st = st.
Proof. destruct st. reflexivity. Qed.

Lemma set_sent_twice l1 l2 st : set_sent l2 (set_sent l1 st) = set_sent l2 st.
Proof. reflexivity. Qed.

Lemma fetch_thread_replies_state channel_id thread_ts st :
  snd (_fetch_thread_replies channel_id thread_ts st)
  = set_sent (sent st ++ [{| endpoint := "conversations.replies";
                             params := [("channel", channel_id); ("ts", thread_ts);
                                        ("limit", JInt 100)] |}])%list st.
Proof.
  unfold _fetch_thread_replies, bind.
  pose proof (make_request_state "conversations.replies"
                [("channel", channel_id); ("ts", thread_ts); ("limit", JInt 100)] st) as H.
  destruct (_make_request _ _ st) as [[data | e] st1]; simpl in H; subst st1;
    [| reflexivity].
  unfold lift. destruct (get data "messages" (JList [])) as [v | ]; [| reflexivity].
  destruct (len v) as [n | ]; [| reflexivity].
  destruct (1 <? n)%nat; [| reflexivity].
  destruct (slice_from_1 v); reflexivity.
Qed.

(** One message: it comes back as it was, or with its replies set
    after one request. *)
Lemma fetch_replies_for_step channel_id msg st msg' st' :
  fetch_replies_for channel_id msg st = (Ok msg', st') ->
  if threaded msg
  then (exists replies, setitem msg "replies" replies = Ok msg') /\
       st' = set_sent (sent st ++ [replies_request channel_id msg])%list st
  else msg' = msg /\ st' = st.
Proof.
  unfold fetch_replies_for, threaded, replies_request. intros H.
  apply bind_inv_ok in H as (rc & s1 & H1 & H). apply lift_inv_ok in H1 as [H1 ->].
  apply bind_inv_ok in H as (b & s2 & H2 & H). apply lift_inv_ok in H2 as [H2 ->].
  rewrite H1. simpl. rewrite H2. destruct b.
  - apply bind_inv_ok in H as (ts & s3 & H3 & H). apply lift_inv_ok in H3 as [H3 ->].
    apply bind_inv_ok in H as (replies & s4 & H4 & H). apply lift_inv_ok in H as [H ->].
    rewrite H3. split; [eauto |].
    pose proof (fetch_thread_replies_state channel_id ts st) as Hst.
    rewrite H4 in Hst. exact Hst.
  - injection H as <- <-. auto.
Qed.

(** X7: when [_fetch_replies_for_messages] succeeds it has sent one
    [conversations.replies] request for each message whose
    ["reply_count"] is positive, in the order of the messages and with
    the message's ["ts"], and changed nothing else in the state.  The
    messages come back in the same order, each one as it was, or, if
    it has replies, with its ["replies"] set. *)
Theorem fetch_replies_requests (channel_id : json) (messages result : list json)
    (st st' : state) :
  _fetch_replies_for_messages channel_id messages st = (Ok result, st') ->
  st' = set_sent (sent st ++ replies_requests channel_id messages)%list st /\
  Forall2 (fun msg msg' =>
             if threaded msg
             then exists replies, setitem msg "replies" replies = Ok msg'
             else msg' = msg) messages result.
Proof.
  revert result st st'. induction messages as [ | msg rest IH]; simpl; intros result st st' H.
  - injection H as <- <-. unfold replies_requests. simpl. rewrite app_nil_r.
    split; [symmetry; apply set_sent_same | constructor].
  - apply bind_inv_ok in H as (msg' & s1 & Hmsg & H).
    apply bind_inv_ok in H as (rest' & s2 & Hrest & H).
    injection H as <- <-.
    apply fetch_replies_for_step in Hmsg. apply IH in Hrest as [-> Hall].
    unfold replies_requests. simpl. fold (replies_requests channel_id rest).
    split.
    + destruct (threaded msg).
      * destruct Hmsg as [_ ->]. simpl. rewrite <- app_assoc. reflexivity.
      * destruct Hmsg as [_ ->]. reflexivity.
    + constructor; [| assumption].
      destruct (threaded msg); tauto.
Qed.

Lemma fetch_replies_requests_witness :
  exists result,
    _fetch_replies_for_messages (JStr "C12345") [sample_message; sample_parent]
      (init (always replies_body))
    = (Ok result,
       set_sent [replies_request (JStr "C12345") sample_parent]
         (init (always replies_body))).
Proof.
  destruct (_fetch_replies_for_messages (JStr "C12345") [sample_message; sample_parent]
              (init (always replies_body))) as [[result | e] st'] eqn:E;
    [| vm_compute in E; discriminate].
  exists result. f_equal.
  exact (proj1 (fetch_replies_requests _ _ _ _ _ E)).
Defined.

(** X8: messages without replies cost nothing: if each message is a
    dict whose ["reply_count"] is missing or not positive,
    [_fetch_replies_for_messages] returns the list as it is and sends
    no request. *)
Theorem fetch_replies_nothing_to_do (channel_id : json) (messages : list json)
    (st : state) :
  forallb unthreaded messages = true ->
  _fetch_replies_for_messages channel_id messages st = (Ok messages, st).
Proof.
  revert st. induction messages as [ | msg rest IH]; simpl; intros st H; [reflexivity |].
  apply andb_prop in H as [Hmsg Hrest].
  assert (Hstep : fetch_replies_for channel_id msg st = (Ok msg, st)).
  { unfold unthreaded in Hmsg. unfold fetch_replies_for, bind, lift.
    destruct (get msg "reply_count" (JInt 0)) as [rc | ]; [| discriminate].
    simpl in Hmsg. destruct (gt0 rc) as [[] | ]; try discriminate. reflexivity. }
  rewrite (bind_ok _ _ _ _ _ Hstep), (bind_ok _ _ _ _ _ (IH st Hrest)). reflexivity.
Qed.

Lemma fetch_replies_nothing_to_do_witness :
  _fetch_replies_for_messages (JStr "C12345") [sample_message; reply_1] (init nobody)
  = (Ok [sample_message; reply_1], init nobody).
Proof.
  apply (fetch_replies_nothing_to_do (JStr "C12345") [sample_message; reply_1]
           (init nobody)); reflexivity.
Defined.

(** ** Fetching: what it touches, when it fails *)

Lemma logs_refl P st : logs P st st.
Proof.
  exists []. split; [| constructor]. rewrite app_nil_r. symmetry. apply set_sent_same.
Qed.

Lemma logs_trans P st1 st2 st3 : logs P st1 st2 -> logs P st2 st3 -> logs P st1 st3.
Proof.
  intros (r1 & -> & H1) (r2 & -> & H2). exists (r1 ++ r2)%list. split.
  - simpl. rewrite app_assoc. reflexivity.
  - apply Forall_app. auto.
Qed.

Lemma logs_one (P : request -> Prop) st r :
  P r -> logs P st (set_sent (sent st ++ [r])%list st).
Proof. intros H. exists [r]. split; [reflexivity | repeat constructor; exact H]. Qed.

Lemma logs_weaken (P Q : request -> Prop) st st' :
  (forall r, P r -> Q r) -> logs P st st' -> logs Q st st'.
Proof.
  intros HPQ (reqs & -> & H). exists reqs. split; [reflexivity |].
  eapply Forall_impl; eassumption.
Qed.

Lemma history_loop_logs fuel channel_id oldest :
  forall cursor messages st o st',
    history_loop fuel channel_id oldest cursor messages st = Some (o, st') ->
    logs (history_request channel_id oldest) st st'.
Proof.
  induction fuel as [ | fuel IH]; simpl; intros cursor messages st o st' H; [discriminate |].
  pose proof (history_page_state channel_id oldest cursor messages st) as Hst.
  assert (Hone : logs (history_request channel_id oldest) st
                   (snd (history_page channel_id oldest cursor messages st))).
  { rewrite Hst. apply logs_one. unfold history_request, history_params.
    destruct (truthy cursor) eqn:Hc; [right; exists cursor; auto | left; reflexivity]. }
  destruct (history_page channel_id oldest cursor messages st) as [[[ms [c | ]] | e] st1];
    simpl in Hone.
  - eapply logs_trans; [exact Hone |]. eapply IH, H.
  - injection H as _ <-. exact Hone.
  - injection H as _ <-. exact Hone.
Qed.

Lemma fetch_replies_for_logs channel_id msg st :
  logs (thread_request channel_id) st (snd (fetch_replies_for channel_id msg st)).
Proof.
  unfold fetch_replies_for, bind, lift.
  destruct (get msg "reply_count" (JInt 0)) as [rc | ]; [| apply logs_refl].
  destruct (gt0 rc) as [[] | ]; try apply logs_refl.
  destruct (get msg "ts" JNull) as [ts | ]; [| apply logs_refl].
  pose proof (fetch_thread_replies_state channel_id ts st) as Hst.
  destruct (_fetch_thread_replies channel_id ts st) as [[replies | e] st1];
    simpl in Hst; subst st1.
  - destruct (setitem msg "replies" replies); apply logs_one; exists ts; reflexivity.
  - apply logs_one. exists ts. reflexivity.
Qed.

Lemma fetch_replies_for_messages_logs channel_id messages :
  forall st,
    logs (thread_request channel_id) st
      (snd (_fetch_replies_for_messages channel_id messages st)).
Proof.
  induction messages as [ | msg rest IH]; simpl; intros st; [apply logs_refl |].
  unfold bind. pose proof (fetch_replies_for_logs channel_id msg st) as H1.
  destruct (fetch_replies_for channel_id msg st) as [[msg' | e] st1]; [| exact H1].
  pose proof (IH st1) as H2.
  destruct (_fetch_replies_for_messages channel_id rest st1) as [[rest' | e] st2];
    simpl in *; eapply logs_trans; eassumption.
Qed.

(** X9: whatever comes of it, [fetch_messages] only adds requests to
    the log.  Each is a [conversations.history] request with this
    channel, the given [oldest] and the limit 100, and with a cursor
    or without one; or, only if [include_replies] is set, a
    [conversations.replies] request with this channel, a timestamp
    and the limit 100.  The user cache and the files are as before. *)
Theorem fetch_messages_frame (fuel : nat) (channel_id : json) (oldest : string)
    (include_replies : bool) (st st' : state) (o : outcome (list json)) :
  fetch_messages fuel channel_id oldest include_replies st = Some (o, st') ->
  user_cache st' = user_cache st /\ opened st' = opened st /\
  exists reqs,
    sent st' = (sent st ++ reqs)%list /\
    Forall (fun r => history_request channel_id oldest r \/
                     (include_replies = true /\ thread_request channel_id r)) reqs.
Proof.
  intros H.
  assert (Hlogs : logs (fun r => history_request channel_id oldest r \/
                                 (include_replies = true /\ thread_request channel_id r))
                    st st').
  { unfold fetch_messages in H.
    destruct (history_loop fuel channel_id oldest JNull [] st) as [[[acc | e] st1] | ] eqn:E;
      [| | discriminate].
    - apply history_loop_logs in E.
      eapply logs_trans; [eapply logs_weaken; [| exact E]; auto |].
      injection H as H.
      match type of H with
      | ?run = _ => replace st' with (snd run) by (rewrite H; reflexivity)
      end.
      unfold bind, lift.
      destruct (sort_by_ts acc) as [sorted | ]; [| apply logs_refl].
      destruct include_replies; [| apply logs_refl].
      eapply logs_weaken; [| apply fetch_replies_for_messages_logs]. auto.
    - injection H as _ <-. apply history_loop_logs in E.
      eapply logs_weaken; [| exact E]. auto. }
  destruct Hlogs as (reqs & -> & Hall). simpl. eauto.
Qed.

Lemma fetch_messages_frame_witness :
  sent after_two_pages
  = [ {| endpoint := "conversations.history";
         params := [("channel", JStr "C12345"); ("oldest", JStr "1699400000.0");
                    ("limit", JInt 100)] |};
      {| endpoint := "conversations.history";
         params := [("channel", JStr "C12345"); ("oldest", JStr "1699400000.0");
                    ("limit", JInt 100); ("cursor", JStr "cursor123")] |} ] /\
  user_cache after_two_pages = user_cache (init two_pages) /\
  opened after_two_pages = opened (init two_pages) /\
  exists reqs,
    sent after_two_pages = (sent (init two_pages) ++ reqs)%list /\
    Forall (fun r => history_request (JStr "C12345") "1699400000.0" r \/
                     (false = true /\ thread_request (JStr "C12345") r)) reqs.
Proof.
  split; [reflexivity |].
  apply (fetch_messages_frame 5 (JStr "C12345") "1699400000.0" false (init two_pages)
           after_two_pages
           (Ok [msg_without_ts;
                msg_at "1700000000.000400" "a"; msg_at "1700000100.000300" "b";
                msg_at "1700000200.000100" "c"; msg_at "1700000300.000200" "d"])).
  vm_compute. reflexivity.
Defined.

Lemma decorate_bad l : existsb bad_ts l = true -> exists e, decorate l = Raise e.
Proof.
  induction l as [ | x l IH]; simpl; [discriminate |].
  unfold bad_ts at 1. destruct (ts_key x) as [k | e]; simpl; [| eauto].
  intros H. destruct (IH H) as [e ->]. simpl. eauto.
Qed.

(** X10: one message whose ["ts"] does not convert to a float fails
    the whole fetch: once the pages are in, [fetch_messages] raises
    (ValueError for a string that is no number) instead of returning
    any message, and asks for no replies. *)
Theorem fetch_messages_bad_timestamp (fuel : nat) (channel_id : json) (oldest : string)
    (include_replies : bool) (st st1 : state) (acc : list json) :
  history_loop fuel channel_id oldest JNull [] st = Some (Ok acc, st1) ->
  existsb bad_ts acc = true ->
  exists e, fetch_messages fuel channel_id oldest include_replies st = Some (Raise e, st1).
Proof.
  intros Hloop Hbad. destruct (decorate_bad acc Hbad) as [e He].
  exists e. unfold fetch_messages, sort_by_ts. rewrite Hloop, He. reflexivity.
Qed.

Lemma fetch_messages_bad_timestamp_witness :
  fetch_messages 3 (JStr "C12345") "1699400000.0" true (init (always page_with_bad_ts))
  = Some (Raise ValueError,
          set_sent [{| endpoint := "conversations.history";
                       params := history_params (JStr "C12345") "1699400000.0" JNull |}]
            (init (always page_with_bad_ts))).
Proof.
  destruct (fetch_messages_bad_timestamp 3 (JStr "C12345") "1699400000.0" true
              (init (always page_with_bad_ts))
              (set_sent [{| endpoint := "conversations.history";
                            params := history_params (JStr "C12345") "1699400000.0" JNull |}]
                 (init (always page_with_bad_ts)))
              [msg_at "1700000300.000200" "d"; msg_at "yesterday" "c"]
              ltac:(vm_compute; reflexivity) ltac:(vm_compute; reflexivity)) as [e He].
  rewrite He. vm_compute in He. injection He as <-. reflexivity.
Defined.

(** ** Stability of the sort *)

Section Stable.

Context {A : Type} (lt : A -> A -> bool) (q : A -> bool).

(** Members picked by [q] are never below one another. *)
Hypothesis q_class : forall a b, q a = true -> q b = true -> lt b a = false.

Lemma insert_filter x l : List.filter q (insert lt x l) = List.filter q (x :: l).
Proof.
  induction l as [ | y l IH]; [reflexivity |].
  simpl insert. destruct (lt y x) eqn:E; [| reflexivity].
  simpl List.filter in *. rewrite IH.
  destruct (q x) eqn:Hx, (q y) eqn:Hy; try reflexivity.
  rewrite (q_class x y Hx Hy) in E. discriminate.
Qed.

Lemma sort_filter l : List.filter q (sort lt l) = List.filter q l.
Proof.
  induction l as [ | x l IH]; [reflexivity |].
  simpl sort. rewrite insert_filter. simpl. rewrite IH. reflexivity.
Qed.

End Stable.

Lemma feq_rank x t : SFeqb x t = true -> is_nan x = false /\ is_nan t = false /\ rank x = rank t.
Proof.
  unfold SFeqb.
  destruct x as [sx | sx | | sx mx ex], t as [st | st | | st mt et];
    try discriminate; try destruct sx; try destruct st; simpl;
    try discriminate; auto;
    change (Pos.compare_cont Eq mx mt) with (Pos.compare mx mt);
    destruct (Z.compare_spec ex et); try discriminate;
    destruct (Pos.compare_spec mx mt); try discriminate;
    subst; auto.
Qed.

Lemma decorate_keyed l d :
  decorate l = Ok d -> map snd d = l /\ Forall (fun p => ts_key (snd p) = Ok (fst p)) d.
Proof.
  revert d. induction l as [ | x l IH]; simpl; intros d H.
  - injection H as <-. split; [reflexivity | constructor].
  - destruct (ts_key x) as [k | ] eqn:Hk; [| discriminate]. simpl in H.
    destruct (decorate l) as [d' | ]; [| discriminate]. injection H as <-.
    destruct (IH d' eq_refl) as [Hm Hall]. split.
    + simpl. rewrite Hm. reflexivity.
    + constructor; assumption.
Qed.

Lemma filter_same_ts t d :
  Forall (fun p => ts_key (snd p) = Ok (fst p)) d ->
  List.filter (same_ts t) (map snd d) = map snd (List.filter (fun p => SFeqb (fst p) t) d).
Proof.
  induction 1 as [ | p d Hp Hd IH]; [reflexivity |].
  simpl. unfold same_ts at 1. rewrite Hp, IH.
  destruct (SFeqb (fst p) t); reflexivity.
Qed.

(** X11: the sort is stable, as [list.sort] is on keys that [<]
    orders totally: when no key is NaN, the messages that share a
    timestamp come out in the order in which they came in, whatever
    else is moved around them. *)
Theorem sort_by_ts_stable (messages sorted : list json) (t : spec_float) :
  forallb numeric_ts messages = true ->
  sort_by_ts messages = Ok sorted ->
  List.filter (same_ts t) sorted = List.filter (same_ts t) messages.
Proof.
  unfold sort_by_ts. intros _ H.
  destruct (decorate messages) as [d | ] eqn:Hd; [| discriminate].
  injection H as <-. destruct (decorate_keyed _ _ Hd) as [Hm Hk].
  rewrite <- Hm. rewrite !filter_same_ts.
  - f_equal. apply sort_filter.
    intros a b [Na [Nt Ha]]%feq_rank [Nb [_ Hb]]%feq_rank.
    destruct (flt (fst b) (fst a)) eqn:E; [| reflexivity].
    apply (flt_rank _ _ Nb Na) in E. rewrite Ha, Hb in E.
    destruct (rank t) as [[? ?] ?]. simpl in E. lia.
  - exact Hk.
  - eapply Permutation_Forall; [apply sort_perm | exact Hk].
Qed.

Lemma sort_by_ts_stable_witness :
  exists sorted,
    sort_by_ts tied = Ok sorted /\
    List.filter (same_ts (S754_finite false 7130317638861219 (-22))) sorted
    = [msg_at "1700000200.000100" "second"; msg_at "1700000200.000100" "first";
       msg_at "1700000200.0001" "third"].
Proof.
  destruct (sort_by_ts tied) as [sorted | ] eqn:E; [| vm_compute in E; discriminate].
  exists sorted. split; [reflexivity |].
  rewrite (sort_by_ts_stable tied sorted _ eq_refl E). vm_compute. reflexivity.
Defined.

(** ** The export loop as a whole *)

(** One turn either skips (and only when standalone messages are
    excluded) or exports. *)
Lemma export_parent_turn write_thread output_dir channel_name channel_id
    include_standalone c parent_msg st c' st' :
  export_parent write_thread output_dir channel_name channel_id include_standalone
    c parent_msg st = (Ok c', st') ->
  (kept include_standalone parent_msg = false /\ include_standalone = false /\ st' = st /\
   c' = {| exported_count := exported_count c; skipped_count := S (skipped_count c) |}) \/
  (kept include_standalone parent_msg = true /\
   c' = {| exported_count := S (exported_count c); skipped_count := skipped_count c |} /\
   exists md st1 replies,
     _extract_thread_metadata parent_msg st = (Ok md, st1) /\
     write_thread (file_of output_dir channel_name parent_msg) channel_name channel_id
       parent_msg md replies
       (set_opened (opened st1 ++ [file_of output_dir channel_name parent_msg])%list st1)
     = (Ok tt, st')).
Proof.
  unfold export_parent, kept. intros H.
  apply bind_inv_ok in H as (replies & s1 & H1 & H). apply lift_inv_ok in H1 as [H1 ->].
  apply bind_inv_ok in H as (n & s2 & H2 & H). apply lift_inv_ok in H2 as [H2 ->].
  rewrite H1. cbn [obind]. rewrite H2.
  destruct (negb (0 <? n)%nat && negb include_standalone) eqn:Hskip.
  - left. injection H as <- <-.
    apply andb_prop in Hskip as [Hn Hi]. apply negb_true_iff in Hn, Hi.
    rewrite Hn, Hi. auto.
  - right.
    assert (Hkept : (0 <? n)%nat || include_standalone = true)
      by (destruct (0 <? n)%nat, include_standalone; simpl in *; congruence).
    split; [exact Hkept |].
    apply bind_inv_ok in H as (md & s3 & H3 & H).
    apply bind_inv_ok in H as (id & s4 & H4 & H). apply lift_inv_ok in H4 as [H4 ->].
    apply bind_inv_ok in H as ([] & s5 & H5 & H). injection H5 as <-.
    apply bind_inv_ok in H as ([] & s6 & H6 & H). injection H as <- <-.
    split; [reflexivity |]. exists md, s3, replies. split; [exact H3 |].
    pose proof (extract_thread_metadata_id _ _ _ _ H3) as Hts.
    assert (Hfile : (threads_dir output_dir channel_name ++ [thread_filename id])%list
                    = file_of output_dir channel_name parent_msg).
    { unfold file_of. rewrite Hts. destruct (thread_id md); try discriminate.
      injection H4 as <-. reflexivity. }
    rewrite <- Hfile. exact H6.
Qed.

Lemma export_loop_counts write_thread output_dir channel_name channel_id
    include_standalone parents :
  forall c st c' st',
    foldM (export_parent write_thread output_dir channel_name channel_id include_standalone)
      c parents st = (Ok c', st') ->
    exported_count c'
    = (exported_count c + length (List.filter (kept include_standalone) parents))%nat /\
    (exported_count c' + skipped_count c'
     = exported_count c + skipped_count c + length parents)%nat /\
    (include_standalone = true -> skipped_count c' = skipped_count c).
Proof.
  induction parents as [ | p ps IH]; simpl; intros c st c' st' H.
  - injection H as <- _. lia.
  - apply bind_inv_ok in H as (c1 & s1 & H1 & H).
    apply IH in H as (He & Hsum & Hs).
    apply export_parent_turn in H1 as [(-> & Hi & _ & ->) | (-> & -> & _)];
      simpl in *; (split; [lia |]); (split; [lia |]); intros Ht;
      rewrite (Hs Ht); [congruence | reflexivity].
Qed.

(** X12: when the export returns, its counters are exact, whatever
    the body writer does: a parent is exported if it has attached
    replies or standalone messages are included, and skipped
    otherwise; the two counters add up to the number of thread
    parents, and nothing is skipped when standalone messages are
    included. *)
Theorem export_counts
    (write_thread : path -> string -> json -> json -> thread_metadata -> json -> M unit)
    (messages : list json) (output_dir channel_name : string) (channel_id : json)
    (include_standalone : bool) (c : counts) (st st' : state) :
  export_threads_individually write_thread messages output_dir channel_name channel_id
    include_standalone st = (Ok c, st') ->
  exists parents,
    thread_parents messages = Ok parents /\
    exported_count c = length (List.filter (kept include_standalone) parents) /\
    (exported_count c + skipped_count c = length parents)%nat /\
    (include_standalone = true -> skipped_count c = O).
Proof.
  unfold export_threads_individually. intros H.
  apply bind_inv_ok in H as (parents & s1 & H1 & H). apply lift_inv_ok in H1 as [H1 ->].
  apply export_loop_counts in H as (He & Hsum & Hs). simpl in He, Hsum, Hs.
  exists parents. auto.
Qed.

Lemma export_counts_witness :
  exists parents,
    thread_parents mixed_messages = Ok parents /\
    1%nat = length (List.filter (kept false) parents) /\
    (1 + 1 = length parents)%nat /\
    (false = true -> 1%nat = O).
Proof.
  refine (export_counts no_body mixed_messages "./exports" "test-channel" (JStr "C12345")
            false {| exported_count := 1; skipped_count := 1 |} (init nobody) _ _).
  vm_compute. reflexivity.
Defined.

(** *** Which files are opened *)

Lemma get_user_info_never_raises_files user_id k st :
  hash_key user_id = Some k -> opened (snd (get_user_info user_id st)) = opened st.
Proof.
  intros Hkey.
  destruct (user_cache st !! k) as [cached | ] eqn:Hc.
  - rewrite (get_user_info_hit _ _ _ Hkey _ Hc). reflexivity.
  - destruct (fst (_make_request "users.info" [("user", user_id)] st)) as [data | e] eqn:E.
    + destruct (make_request_ok _ _ _ _ E) as (d & ok & -> & _).
      erewrite get_user_info_miss_ok by eauto. reflexivity.
    + erewrite get_user_info_miss_raise by eauto. reflexivity.
Qed.

Lemma keeps_ret {A} (a : A) : keeps_files (ret a).
Proof. intros st. reflexivity. Qed.

Lemma keeps_lift {A} (o : outcome A) : keeps_files (lift o).
Proof. intros st. reflexivity. Qed.

Lemma keeps_bind {A B} (c : M A) (k : A -> M B) :
  keeps_files c -> (forall a, keeps_files (k a)) -> keeps_files (bind c k).
Proof.
  intros Hc Hk st. unfold bind. specialize (Hc st).
  destruct (c st) as [[a | e] st1]; simpl in Hc; [| exact Hc].
  rewrite (Hk a st1). exact Hc.
Qed.

Lemma keeps_foldM {A B} (f : A -> B -> M A) l :
  (forall a x, keeps_files (f a x)) -> forall a, keeps_files (foldM f a l).
Proof.
  intros Hf. induction l as [ | x l IH]; simpl; intros a.
  - apply keeps_ret.
  - apply keeps_bind; auto.
Qed.

Lemma get_user_info_keeps user_id : keeps_files (get_user_info user_id).
Proof.
  intros st. destruct (hash_key user_id) as [k | ] eqn:Hk.
  - apply (get_user_info_never_raises_files user_id k st Hk).
  - unfold get_user_info. rewrite Hk. reflexivity.
Qed.

Lemma user_display_keeps user_id message : keeps_files (_get_user_display user_id message).
Proof.
  unfold _get_user_display.
  apply keeps_bind; [apply keeps_lift |]. intros subtype.
  destruct (eq subtype (JStr "bot_message")); [apply keeps_lift |].
  destruct (negb (truthy user_id)); [apply keeps_ret |].
  apply keeps_bind; [apply get_user_info_keeps |]. intros user_info.
  destruct (truthy user_info); [| apply keeps_ret].
  repeat (apply keeps_bind; [apply keeps_lift |]; intros ?). apply keeps_ret.
Qed.

Lemma participants_keeps parent_msg : keeps_files (_get_thread_participants parent_msg).
Proof.
  unfold _get_thread_participants.
  apply keeps_bind; [apply keeps_lift |]. intros parent_user.
  apply keeps_bind.
  { destruct (truthy parent_user); [| apply keeps_ret].
    apply keeps_bind; [apply user_display_keeps |]. intros ?. apply keeps_lift. }
  intros participants.
  apply keeps_bind; [apply keeps_lift |]. intros replies.
  apply keeps_bind; [apply keeps_lift |]. intros replies'.
  apply keeps_bind; [| intros ?; apply keeps_lift].
  apply keeps_foldM. intros a reply. unfold add_reply_author.
  apply keeps_bind; [apply keeps_lift |]. intros reply_user.
  destruct (truthy reply_user); [| apply keeps_ret].
  apply keeps_bind; [apply user_display_keeps |]. intros ?. apply keeps_lift.
Qed.

Lemma metadata_keeps parent_msg : keeps_files (_extract_thread_metadata parent_msg).
Proof.
  unfold _extract_thread_metadata.
  apply keeps_bind; [apply keeps_lift |]. intros ts.
  apply keeps_bind; [apply keeps_lift |]. intros user.
  apply keeps_bind; [apply user_display_keeps |]. intros author.
  apply keeps_bind; [apply keeps_lift |]. intros replies.
  apply keeps_bind; [apply keeps_lift |]. intros n.
  apply keeps_bind; [apply participants_keeps |]. intros ?. apply keeps_ret.
Qed.

Lemma export_loop_files write_thread output_dir channel_name channel_id
    include_standalone parents :
  (forall f cn ci pm md r, keeps_files (write_thread f cn ci pm md r)) ->
  forall c st c' st',
    foldM (export_parent write_thread output_dir channel_name channel_id include_standalone)
      c parents st = (Ok c', st') ->
    opened st'
    = (opened st ++ map (file_of output_dir channel_name)
                      (List.filter (kept include_standalone) parents))%list.
Proof.
  intros Hw. induction parents as [ | p ps IH]; simpl; intros c st c' st' H.
  - injection H as _ <-. rewrite app_nil_r. reflexivity.
  - apply bind_inv_ok in H as (c1 & s1 & H1 & H).
    apply IH in H. rewrite H.
    apply export_parent_turn in H1
      as [(-> & _ & -> & _) | (-> & _ & md & s2 & replies & Hmd & Hbody)].
    + reflexivity.
    + pose proof (Hw (file_of output_dir channel_name p) channel_name channel_id p md replies
                    (set_opened (opened s2 ++ [file_of output_dir channel_name p])%list s2))
        as Hop.
      rewrite Hbody in Hop. simpl in Hop. rewrite Hop.
      pose proof (metadata_keeps p st) as Hk. rewrite Hmd in Hk. simpl in Hk.
      rewrite Hk. simpl. rewrite <- app_assoc. reflexivity.
Qed.

Lemma normalize_no_dot s : mem_char "." (normalize s) = false.
Proof.
  induction s as [ | c s IH]; [reflexivity |].
  rewrite normalize_cons. cbn [mem_char]. rewrite IH, orb_false_r.
  destruct (Ascii.eqb c ".") eqn:E; [reflexivity |].
  rewrite Ascii.eqb_sym. exact E.
Qed.

(** X13: provided the body writer opens no file of its own, an export
    that returns has opened exactly one file for each exported parent,
    in the order of the parents: the file
    [output_dir/channel_name/threads/thread_<id>.md] with the parent's
    ["ts"] normalized for [<id>], which has no period in it. *)
Theorem export_files
    (write_thread : path -> string -> json -> json -> thread_metadata -> json -> M unit)
    (messages : list json) (output_dir channel_name : string) (channel_id : json)
    (include_standalone : bool) (c : counts) (st st' : state) :
  (forall f cn ci pm md r, keeps_files (write_thread f cn ci pm md r)) ->
  export_threads_individually write_thread messages output_dir channel_name channel_id
    include_standalone st = (Ok c, st') ->
  exists parents,
    thread_parents messages = Ok parents /\
    opened st'
    = (opened st ++ map (file_of output_dir channel_name)
                      (List.filter (kept include_standalone) parents))%list /\
    (forall T, mem_char "." (normalize T) = false).
Proof.
  intros Hw H. unfold export_threads_individually in H.
  apply bind_inv_ok in H as (parents & s1 & H1 & H). apply lift_inv_ok in H1 as [H1 ->].
  exists parents. split; [exact H1 |]. split; [| exact normalize_no_dot].
  eapply export_loop_files; eassumption.
Qed.

Lemma export_files_witness :
  exists st',
    export_threads_individually no_body mixed_messages "./exports" "test-channel"
      (JStr "C12345") true (init nobody)
    = (Ok {| exported_count := 2; skipped_count := 0 |}, st') /\
    opened st' = [["./exports"; "test-channel"; "threads"; "thread_1234567890_123456.md"];
                  ["./exports"; "test-channel"; "threads"; "thread_1234567895_000100.md"]].
Proof.
  destruct (export_threads_individually no_body mixed_messages "./exports" "test-channel"
              (JStr "C12345") true (init nobody)) as [[c | e] st'] eqn:E;
    [| vm_compute in E; discriminate].
  exists st'. split; [vm_compute in E; injection E as <- _; reflexivity |].
  destruct (export_files no_body mixed_messages "./exports" "test-channel" (JStr "C12345")
              true c (init nobody) st' ltac:(intros; apply keeps_ret) E)
    as (parents & Hps & Hop & _).
  rewrite Hop. vm_compute in Hps. injection Hps as <-. reflexivity.
Defined.

(** ** File names and thread metadata *)

Lemma normalize_injective s1 s2 :
  mem_char "_" s1 = false -> mem_char "_" s2 = false ->
  normalize s1 = normalize s2 -> s1 = s2.
Proof.
  revert s2. induction s1 as [ | c1 s1 IH]; intros [ | c2 s2]; try reflexivity;
    rewrite ?normalize_cons; try discriminate.
  cbn [mem_char]. intros [H1 Hs1]%orb_false_elim [H2 Hs2]%orb_false_elim [= Hc Hs].
  rewrite (IH s2 Hs1 Hs2 Hs). f_equal.
  destruct (Ascii.eqb c1 ".") eqn:E1, (Ascii.eqb c2 ".") eqn:E2.
  - apply Ascii.eqb_eq in E1, E2. congruence.
  - subst c2. discriminate H2.
  - subst c1. discriminate H1.
  - exact Hc.
Qed.

Lemma plain_no_underscore s : all_plain s = true -> mem_char "_" s = false.
Proof.
  induction s as [ | c s IH]; [reflexivity |].
  cbn [all_plain mem_char]. intros [Hc Hs]%andb_prop. rewrite (IH Hs), orb_false_r.
  destruct (plain_char c Hc) as [_ Hu]. rewrite Ascii.eqb_sym. exact Hu.
Qed.

Lemma decimal_no_underscore s : decimal s = true -> mem_char "_" s = false.
Proof.
  destruct s as [ | c s]; [discriminate |]. simpl decimal.
  intros [Hc Hs]%andb_prop. apply plain_no_underscore. cbn [all_plain].
  unfold plain at 1. rewrite Hc. simpl. eapply decimal_tail_plain, Hs.
Qed.

Lemma length_append s t : String.length (s ++ t) = (String.length s + String.length t)%nat.
Proof.
  induction s as [ | c s IH]; [reflexivity |].
  rewrite append_cons. simpl. rewrite IH. reflexivity.
Qed.

Lemma append_cancel_r s1 s2 t : s1 ++ t = s2 ++ t -> s1 = s2.
Proof.
  revert s2. induction s1 as [ | c1 s1 IH]; intros [ | c2 s2] H; try reflexivity.
  - apply (f_equal String.length) in H. rewrite append_nil, length_append in H.
    simpl in H. lia.
  - apply (f_equal String.length) in H. rewrite append_nil, length_append in H.
    simpl in H. lia.
  - rewrite !append_cons in H. injection H as -> H. f_equal. exact (IH _ H).
Qed.

(** X14: threads with different timestamps get different files.
    [normalize] does not tell a period from an underscore, but decimal
    timestamps have no underscore, and on such strings the file name
    determines the timestamp. *)
Theorem thread_files_distinct (T1 T2 : string) :
  decimal T1 = true -> decimal T2 = true ->
  thread_filename (normalize T1) = thread_filename (normalize T2) ->
  T1 = T2.
Proof.
  intros H1 H2 H. unfold thread_filename in H.
  rewrite !append_cons, !append_nil in H. injection H as H.
  apply append_cancel_r in H.
  apply normalize_injective; auto using decimal_no_underscore.
Qed.

Lemma thread_files_distinct_witness :
  decimal "1234567890.123456" = true /\
  thread_filename (normalize "1234567890.123456") = "thread_1234567890_123456.md" /\
  "1234567890.123456" = "1234567890.123456".
Proof.
  split; [reflexivity |]. split; [reflexivity |].
  apply (thread_files_distinct "1234567890.123456" "1234567890.123456"); reflexivity.
Defined.

(** Without that proviso the names can clash. *)
Example normalize_clash :
  thread_filename (normalize "1.5") = thread_filename (normalize "1_5").
Proof. reflexivity. Qed.

(** X15: the reply count of the metadata is the number of replies
    attached to the parent, whatever the parent's own ["reply_count"]
    says; it is zero for a parent without ["replies"].  The thread ID
    is the parent's ["ts"], or the empty string when it has none. *)
Theorem metadata_counts_attached_replies (parent_msg : json) (md : thread_metadata)
    (st st1 : state) :
  _extract_thread_metadata parent_msg st = (Ok md, st1) ->
  (exists replies,
      get parent_msg "replies" (JList []) = Ok replies /\
      len replies = Ok (reply_count md)) /\
  (lacks "replies" parent_msg = true -> reply_count md = O) /\
  get parent_msg "ts" (JStr "") = Ok (thread_id md).
Proof.
  intros H. pose proof (extract_thread_metadata_id _ _ _ _ H) as Hid.
  unfold _extract_thread_metadata in H.
  apply bind_inv_ok in H as (ts & s1 & _ & H).
  apply bind_inv_ok in H as (user & s2 & _ & H).
  apply bind_inv_ok in H as (author & s3 & _ & H).
  apply bind_inv_ok in H as (replies & s4 & H4 & H). apply lift_inv_ok in H4 as [H4 ->].
  apply bind_inv_ok in H as (n & s5 & H5 & H). apply lift_inv_ok in H5 as [H5 ->].
  apply bind_inv_ok in H as (ps & s6 & _ & H). injection H as <- _. simpl.
  split; [eauto |]. split; [| exact Hid].
  intros Hl. rewrite (lacks_get _ _ _ Hl) in H4. injection H4 as <-.
  injection H5 as <-. reflexivity.
Qed.

Lemma metadata_counts_attached_replies_witness :
  exists md st1,
    _extract_thread_metadata sample_parent (init nobody) = (Ok md, st1) /\
    get sample_parent "reply_count" (JInt 0) = Ok (JInt 2) /\
    reply_count md = O.
Proof.
  destruct (_extract_thread_metadata sample_parent (init nobody)) as [[md | e] st1] eqn:E;
    [| vm_compute in E; discriminate].
  exists md, st1. split; [reflexivity |]. split; [reflexivity |].
  exact (proj1 (proj2 (metadata_counts_attached_replies _ _ _ _ E)) eq_refl).
Defined.

(** X16: messages outside any thread are never exported, whatever
    [include_standalone] says: a message with a ["ts"] and no
    ["thread_ts"] is no thread parent, so a list of such messages
    yields no file and leaves both counters at zero. *)
Theorem export_ignores_unthreaded
    (write_thread : path -> string -> json -> json -> thread_metadata -> json -> M unit)
    (messages : list json) (output_dir channel_name : string) (channel_id : json)
    (include_standalone : bool) (st : state) :
  forallb unthreaded_message messages = true ->
  thread_parents messages = Ok [] /\
  export_threads_individually write_thread messages output_dir channel_name channel_id
    include_standalone st
  = (Ok {| exported_count := 0; skipped_count := 0 |}, st).
Proof.
  intros H.
  assert (Hps : thread_parents messages = Ok []).
  { induction messages as [ | m ms IH]; [reflexivity |].
    simpl in H. apply andb_prop in H as [Hm Hms]. simpl. rewrite (IH Hms).
    destruct m as [ | | | | | d]; try discriminate. simpl in *.
    destruct (assoc "thread_ts" d); [discriminate |].
    destruct (assoc "ts" d) as [[] | ]; try discriminate; reflexivity. }
  split; [exact Hps |].
  unfold export_threads_individually. rewrite (bind_lift_ok _ _ _ _ Hps). reflexivity.
Qed.

Lemma export_ignores_unthreaded_witness :
  export_threads_individually no_body [msg_at "1700000000.000400" "a"; reply_1]
    "./exports" "test-channel" (JStr "C12345") true (init nobody)
  = (Ok {| exported_count := 0; skipped_count := 0 |}, init nobody).
Proof.
  apply (export_ignores_unthreaded no_body [msg_at "1700000000.000400" "a"; reply_1]
           "./exports" "test-channel" (JStr "C12345") true (init nobody)).
  reflexivity.
Defined.

(** ** Participants *)

Lemma set_add_nodup x s s' :
  set_add x s = Ok s' ->
  List.NoDup (map hash_key s) -> List.NoDup (map hash_key s').
Proof.
  unfold set_add. destruct (hash_key x) as [k | ] eqn:Hk; [| discriminate].
  destruct (existsb _ s) eqn:E; intros [= <-] Hs; [exact Hs |].
  rewrite map_app. simpl. rewrite Hk.
  eapply Permutation_NoDup; [apply Permutation_cons_append |].
  constructor; [| exact Hs].
  intros Hin. apply in_map_iff in Hin as (y & Hy & Hin).
  assert (existsb (fun y => bool_decide (hash_key y = Some k)) s = true).
  { apply existsb_exists. exists y. split; [exact Hin |]. apply bool_decide_eq_true. exact Hy. }
  congruence.
Qed.

Lemma add_reply_authors_nodup replies :
  forall s st s' st',
    foldM add_reply_author s replies st = (Ok s', st') ->
    List.NoDup (map hash_key s) -> List.NoDup (map hash_key s').
Proof.
  induction replies as [ | reply rest IH]; simpl; intros s st s' st' H Hs.
  - injection H as <- _. exact Hs.
  - apply bind_inv_ok in H as (s1 & st1 & H1 & H).
    eapply IH; [exact H |]. unfold add_reply_author in H1.
    apply bind_inv_ok in H1 as (user & st2 & _ & H1).
    destruct (truthy user).
    + apply bind_inv_ok in H1 as (label & st3 & _ & H1).
      apply lift_inv_ok in H1 as [H1 _]. eapply set_add_nodup; eassumption.
    + injection H1 as <- _. exact Hs.
Qed.

Lemma sorted_perm s s' : sorted s = Ok s' -> Permutation s s'.
Proof.
  unfold sorted. destruct s as [ | a [ | b s]]; try (intros [= <-]; reflexivity).
  destruct (forallb is_str _);
    [intros [= <-]; exact (sort_perm str_lt (a :: b :: s)) |].
  destruct (forallb is_int _);
    [intros [= <-]; exact (sort_perm int_lt (a :: b :: s)) | discriminate].
Qed.

Lemma str_lt_asym a b : str_lt a b = true -> str_lt b a = false.
Proof.
  destruct a as [ | | | x | | ], b as [ | | | y | | ]; try discriminate; simpl.
  unfold String.ltb. rewrite (String.compare_antisym y x).
  destruct (String.compare x y); try discriminate. reflexivity.
Qed.

Lemma str_le_trans a b c :
  is_str a = true -> is_str b = true -> is_str c = true ->
  str_lt b a = false -> str_lt c b = false -> str_lt c a = false.
Proof.
  destruct a as [ | | | x | | ], b as [ | | | y | | ], c as [ | | | z | | ];
    try discriminate; intros _ _ _; simpl. unfold String.ltb.
  destruct (String.compare z x) eqn:Hzx; try reflexivity.
  apply String_as_OT.cmp_lt in Hzx.
  destruct (String.compare y x) eqn:Hyx; [| discriminate |].
  - apply String_as_OT.cmp_eq in Hyx. subst y.
    apply String_as_OT.cmp_lt in Hzx. unfold String_as_OT.cmp in Hzx.
    rewrite Hzx. discriminate.
  - intros _. pose proof (String_as_OT.cmp_antisym x y) as Hxy.
    unfold String_as_OT.cmp in Hxy. rewrite Hyx in Hxy. simpl in Hxy.
    apply String_as_OT.cmp_lt in Hxy.
    pose proof (String_as_OT.lt_trans _ _ _ Hzx Hxy) as Hzy.
    apply String_as_OT.cmp_lt in Hzy. unfold String_as_OT.cmp in Hzy.
    rewrite Hzy. discriminate.
Qed.

Lemma str_lt_total a b :
  is_str a = true -> is_str b = true -> hash_key a <> hash_key b ->
  str_lt b a = false -> str_lt a b = true.
Proof.
  destruct a as [ | | | x | | ], b as [ | | | y | | ]; try discriminate.
  intros _ _ Hne. simpl. unfold String.ltb.
  rewrite (String.compare_antisym y x).
  destruct (String.compare x y) eqn:E; try reflexivity; [| discriminate].
  apply String_as_OT.cmp_eq in E. subst y. congruence.
Qed.

Lemma strictly_sorted l :
  StronglySorted (fun a b => str_lt b a = false) l ->
  List.NoDup (map hash_key l) -> forallb is_str l = true ->
  StronglySorted (fun a b => str_lt a b = true) l.
Proof.
  induction 1 as [ | a l Hs IH Ha]; intros Hnd Hstr; [constructor |].
  simpl in Hnd, Hstr. inversion Hnd as [ | ? ? Hnotin Hnd']; subst.
  apply andb_prop in Hstr as [Hsa Hsl].
  constructor; [auto |].
  rewrite List.Forall_forall in Ha |- *. intros b Hb.
  apply str_lt_total; auto.
  - rewrite forallb_forall in Hsl. auto.
  - intros Heq. apply Hnotin. rewrite Heq. apply in_map. exact Hb.
Qed.

(** X17: the participants of a thread are unique and, when they are
    strings, sorted: no two of them are the same label, and each
    label is strictly below the ones after it in the order of
    [str]. *)
Theorem participants_unique_sorted (parent_msg : json) (ps : list json)
    (st st' : state) :
  _get_thread_participants parent_msg st = (Ok ps, st') ->
  List.NoDup (map hash_key ps) /\
  (forallb is_str ps = true -> StronglySorted (fun a b => str_lt a b = true) ps).
Proof.
  unfold _get_thread_participants. intros H.
  apply bind_inv_ok in H as (user & s1 & _ & H).
  apply bind_inv_ok in H as (s0 & s2 & H0 & H).
  apply bind_inv_ok in H as (replies & s3 & _ & H).
  apply bind_inv_ok in H as (rs & s4 & _ & H).
  apply bind_inv_ok in H as (s & s5 & Hfold & H).
  apply lift_inv_ok in H as [Hsorted _].
  assert (Hs0 : List.NoDup (map hash_key s0)).
  { destruct (truthy user).
    - apply bind_inv_ok in H0 as (label & s6 & _ & H0).
      apply lift_inv_ok in H0 as [H0 _].
      eapply set_add_nodup; [exact H0 | constructor].
    - injection H0 as <- _. constructor. }
  pose proof (add_reply_authors_nodup _ _ _ _ _ Hfold Hs0) as Hs.
  pose proof (sorted_perm _ _ Hsorted) as Hperm.
  assert (Hnd : List.NoDup (map hash_key ps))
    by (eapply Permutation_NoDup; [apply Permutation_map, Hperm | exact Hs]).
  split; [exact Hnd |]. intros Hstr.
  assert (Hstr' : forallb is_str s = true).
  { rewrite forallb_forall in Hstr |- *. intros x Hx. apply Hstr.
    eapply Permutation_in; eassumption. }
  apply strictly_sorted; [| exact Hnd | exact Hstr].
  unfold sorted in Hsorted.
  destruct s as [ | a [ | b s]]; try (injection Hsorted as <-; repeat constructor).
  rewrite Hstr' in Hsorted. injection Hsorted as <-.
  refine (sort_sorted str_lt (fun x => is_str x = true) _ _ (a :: b :: s) _).
  - intros x y _ _. apply str_lt_asym.
  - intros x y z. apply str_le_trans.
  - apply List.Forall_forall. rewrite forallb_forall in Hstr'. exact Hstr'.
Qed.

Lemma participants_unique_sorted_witness :
  let ps := [JStr "User U11111"; JStr "User U12345"; JStr "User U67890"] in
  List.NoDup (map hash_key ps) /\
  (forallb is_str ps = true -> StronglySorted (fun a b => str_lt a b = true) ps).
Proof.
  eapply (participants_unique_sorted parent_with_replies _ (init nobody)).
  vm_compute. reflexivity.
Defined.

(** ** Rendering one list of blocks after another *)

Lemma foldM_app {A B} (f : A -> B -> M A) l1 l2 :
  forall a st,
    foldM f a (l1 ++ l2)%list st = (let! a' := foldM f a l1 in foldM f a' l2) st.
Proof.
  induction l1 as [ | x l1 IH]; intros a st; [reflexivity |].
  simpl. cbv [bind]. destruct (f a x st) as [[a' | e] st1]; [| reflexivity].
  rewrite IH. reflexivity.
Qed.

Lemma appends_foldM {B} (f : list json -> B -> M (list json)) :
  appends f ->
  forall l acc st,
    foldM f acc l st = (let! parts := foldM f [] l in ret (acc ++ parts)%list) st.
Proof.
  intros Hf. induction l as [ | x l IH]; simpl; intros acc st.
  - cbv [bind ret]. rewrite app_nil_r. reflexivity.
  - cbv [bind]. rewrite (Hf acc x st). cbv [bind].
    destruct (f [] x st) as [[parts | e] st1]; [| reflexivity].
    cbv [ret]. rewrite (IH (acc ++ parts)%list), (IH ([] ++ parts)%list). cbv [bind ret].
    destruct (foldM f [] l st1) as [[rest | e] st2]; [| reflexivity].
    rewrite app_assoc. reflexivity.
Qed.

Lemma append_item_appends : appends append_item.
Proof.
  intros acc item st. unfold append_item. cbv [bind lift].
  destruct (get item "type" JNull) as [type | ]; [| reflexivity].
  destruct (eq type (JStr "text")).
  { destruct (get item "text" (JStr "")); reflexivity. }
  destruct (eq type (JStr "link")).
  { destruct (get item "url" (JStr "")) as [u | ]; [| reflexivity].
    destruct (get item "text" u); reflexivity. }
  destruct (eq type (JStr "user")).
  { destruct (get item "user_id" (JStr "unknown")) as [u | ]; [| reflexivity].
    destruct (get_user_info u st) as [[info | e] st1]; [| reflexivity].
    destruct (truthy info); [| reflexivity].
    destruct (get info "profile" (JObj [])) as [pr | ]; [| reflexivity].
    destruct (get pr "display_name" (JStr "")); [| reflexivity].
    destruct (get info "name" (JStr "")); reflexivity. }
  destruct (eq type (JStr "emoji")).
  { destruct (get item "name" (JStr "")); reflexivity. }
  cbv [ret]. rewrite app_nil_r. reflexivity.
Qed.

Lemma append_element_appends : appends append_element.
Proof.
  intros acc element st. unfold append_element. cbv [bind lift].
  destruct (get element "type" JNull) as [type | ]; [| reflexivity].
  destruct (eq type (JStr "rich_text_section")).
  - destruct (get element "elements" (JList [])) as [v | ]; [| reflexivity].
    destruct (iter v) as [items | ]; [| reflexivity].
    rewrite (appends_foldM _ append_item_appends items acc). cbv [bind ret].
    destruct (foldM append_item [] items st) as [[parts | e] st1]; reflexivity.
  - cbv [ret]. rewrite app_nil_r. reflexivity.
Qed.

Lemma append_block_appends : appends append_block.
Proof.
  intros acc block st. unfold append_block. cbv [bind lift].
  destruct (get block "type" JNull) as [type | ]; [| reflexivity].
  destruct (eq type (JStr "rich_text")).
  - destruct (get block "elements" (JList [])) as [v | ]; [| reflexivity].
    destruct (iter v) as [elements | ]; [| reflexivity].
    rewrite (appends_foldM _ append_element_appends elements acc). cbv [bind ret].
    destruct (foldM append_element [] elements st) as [[parts | e] st1]; reflexivity.
  - cbv [ret]. rewrite app_nil_r. reflexivity.
Qed.

Lemma join_empty_app p1 p2 s1 s2 :
  join_empty p1 = Ok s1 -> join_empty p2 = Ok s2 ->
  join_empty (p1 ++ p2)%list = Ok (s1 ++ s2).
Proof.
  revert s1. induction p1 as [ | x p1 IH]; simpl; intros s1 H1 H2.
  - injection H1 as <-. rewrite H2. reflexivity.
  - destruct x; try discriminate.
    destruct (join_empty p1) as [r | ] eqn:E; [| discriminate].
    simpl in H1. injection H1 as <-. rewrite (IH r eq_refl H2). simpl.
    f_equal. clear. induction s as [ | c s IH]; [reflexivity |].
    rewrite !append_cons, IH. reflexivity.
Qed.

(** What [_extract_text_from_blocks] returns, from the parts. *)
Lemma extract_text_parts blocks st r st1 :
  _extract_text_from_blocks (JList blocks) st = (Ok r, st1) ->
  exists parts,
    foldM append_block [] blocks st = (Ok parts, st1) /\
    ((parts = [] /\ r = JNull) \/
     (parts <> [] /\ exists text, join_empty parts = Ok text /\ r = JStr text)).
Proof.
  unfold _extract_text_from_blocks. intros H.
  apply bind_inv_ok in H as (bs & s1 & H1 & H). injection H1 as <- <-.
  apply bind_inv_ok in H as (parts & s2 & Hparts & H).
  exists parts. destruct parts as [ | p parts].
  - injection H as <- <-. auto.
  - apply bind_inv_ok in H as (text & s3 & Ht & H). apply lift_inv_ok in Ht as [Ht ->].
    injection H as <- <-. split; [exact Hparts |]. right. split; [discriminate | eauto].
Qed.

(** X18: rendering is compositional.  If a list of blocks renders to
    [r1] and, from the state this leaves, a second list renders to
    [r2], then the two lists in a row render to [r1] followed directly
    by [r2], a rendering of [None] adding nothing, and leave the same
    final state. *)
Theorem extract_text_concat (blocks1 blocks2 : list json) (r1 r2 : json)
    (st st1 st2 : state) :
  _extract_text_from_blocks (JList blocks1) st = (Ok r1, st1) ->
  _extract_text_from_blocks (JList blocks2) st1 = (Ok r2, st2) ->
  _extract_text_from_blocks (JList (blocks1 ++ blocks2)) st
  = (Ok (join_text r1 r2), st2).
Proof.
  intros (p1 & Hp1 & Hr1)%extract_text_parts (p2 & Hp2 & Hr2)%extract_text_parts.
  assert (Hparts : foldM append_block [] (blocks1 ++ blocks2)%list st
                   = (Ok (p1 ++ p2)%list, st2)).
  { rewrite foldM_app. rewrite (bind_ok _ _ _ _ _ Hp1).
    rewrite (appends_foldM _ append_block_appends blocks2 p1).
    rewrite (bind_ok _ _ _ _ _ Hp2). reflexivity. }
  unfold _extract_text_from_blocks.
  rewrite bind_lift_ok with (a := (blocks1 ++ blocks2)%list) by reflexivity.
  rewrite (bind_ok _ _ _ _ _ Hparts).
  destruct Hr1 as [[-> ->] | (Hn1 & t1 & Ht1 & ->)],
           Hr2 as [[-> ->] | (Hn2 & t2 & Ht2 & ->)].
  - reflexivity.
  - rewrite !app_nil_l. destruct p2 as [ | x p2]; [congruence |]. cbv beta iota.
    rewrite (bind_lift_ok _ _ _ _ Ht2). reflexivity.
  - rewrite app_nil_r. destruct p1 as [ | x p1]; [congruence |]. cbv beta iota.
    rewrite (bind_lift_ok _ _ _ _ Ht1). reflexivity.
  - pose proof (join_empty_app _ _ _ _ Ht1 Ht2) as Ht.
    destruct p1 as [ | x p1]; [congruence |].
    change ((x :: p1) ++ p2)%list with (x :: (p1 ++ p2))%list in Ht |- *. cbv beta iota.
    rewrite (bind_lift_ok _ _ _ _ Ht). reflexivity.
Qed.

Lemma extract_text_concat_witness :
  _extract_text_from_blocks (JList ([text_block "Hello, "] ++ [text_block "world"]))
    (init nobody)
  = (Ok (join_text (JStr "Hello, ") (JStr "world")), init nobody).
Proof.
  apply (extract_text_concat [text_block "Hello, "] [text_block "world"]
           (JStr "Hello, ") (JStr "world") (init nobody) (init nobody) (init nobody));
    reflexivity.
Defined.

(** ** Writing the Markdown *)

Import Markdown.

Lemma quiet_ret {A} (a : A) : quiet (ret a).
Proof.
  intros st. cbn. repeat split; auto. exists []. rewrite app_nil_r. auto.
Qed.

Lemma quiet_lift {A} (o : outcome A) : quiet (lift o).
Proof.
  intros st. cbn. repeat split; auto. exists []. rewrite app_nil_r. auto.
Qed.

Lemma quiet_bind {A B} (c : M A) (k : A -> M B) :
  quiet c -> (forall a, quiet (k a)) -> quiet (bind c k).
Proof.
  intros Hc Hk st. unfold bind.
  destruct (Hc st) as (Ho & Hu & reqs & Hs & Hr).
  destruct (c st) as [[a | e] st1]; cbn [snd] in *.
  - destruct (Hk a st1) as (Ho' & Hu' & reqs' & Hs' & Hr').
    repeat split.
    + congruence.
    + auto.
    + exists (reqs ++ reqs')%list. split.
      * rewrite Hs', Hs, app_assoc. reflexivity.
      * apply Forall_app; auto.
  - repeat split; eauto.
Qed.

Lemma quiet_foldM {A B} (f : A -> B -> M A) l :
  (forall a x, quiet (f a x)) -> forall a, quiet (foldM f a l).
Proof.
  intros Hf. induction l as [ | x l IH]; intros a; simpl.
  - apply quiet_ret.
  - apply quiet_bind; auto.
Qed.

Lemma get_user_info_quiet user_id : quiet (get_user_info user_id).
Proof.
  intros st. destruct (hash_key user_id) as [k | ] eqn:Hk.
  - destruct (user_cache st !! k) as [cached | ] eqn:Hc.
    + rewrite (get_user_info_hit _ _ _ Hk _ Hc). cbn.
      repeat split; auto. exists []. rewrite app_nil_r. auto.
    + assert (Hreq : Forall users_request
                       [{| endpoint := "users.info"; params := [("user", user_id)] |}]).
      { constructor; [exists user_id; reflexivity | constructor]. }
      destruct (fst (_make_request "users.info" [("user", user_id)] st)) as [data | e] eqn:E.
      * destruct (make_request_ok _ _ _ _ E) as (d & ok & -> & _).
        erewrite get_user_info_miss_ok by eauto. cbn.
        repeat split; eauto.
        intros k' v Hv. rewrite lookup_insert_ne; [exact Hv | congruence].
      * erewrite get_user_info_miss_raise by eauto. cbn. repeat split; eauto.
  - unfold get_user_info. rewrite Hk. apply (quiet_ret (A := json) JNull st).
Qed.

Ltac quiet_gets := repeat (apply quiet_bind; [apply quiet_lift | intros ?]).

Lemma user_display_quiet user_id message : quiet (_get_user_display user_id message).
Proof.
  unfold _get_user_display. quiet_gets.
  destruct (eq _ _); [apply quiet_lift |].
  destruct (negb (truthy user_id)); [apply quiet_ret |].
  apply quiet_bind; [apply get_user_info_quiet |]. intros user_info.
  destruct (truthy user_info); [| apply quiet_ret].
  quiet_gets. apply quiet_ret.
Qed.

Lemma append_item_quiet text_parts item : quiet (append_item text_parts item).
Proof.
  unfold append_item. quiet_gets.
  destruct (eq _ _); [quiet_gets; apply quiet_ret |].
  destruct (eq _ _); [quiet_gets; apply quiet_ret |].
  destruct (eq _ _).
  { quiet_gets. apply quiet_bind; [apply get_user_info_quiet |]. intros user_info.
    apply quiet_bind; [| intros ?; apply quiet_ret].
    destruct (truthy user_info); [| apply quiet_ret].
    quiet_gets. apply quiet_ret. }
  destruct (eq _ _); [quiet_gets; apply quiet_ret |].
  apply quiet_ret.
Qed.

Lemma extract_text_quiet blocks : quiet (_extract_text_from_blocks blocks).
Proof.
  unfold _extract_text_from_blocks. quiet_gets.
  apply quiet_bind.
  - apply quiet_foldM. intros parts block. unfold append_block. quiet_gets.
    destruct (eq _ _); [| apply quiet_ret]. quiet_gets.
    apply quiet_foldM. intros parts' element. unfold append_element. quiet_gets.
    destruct (eq _ _); [| apply quiet_ret]. quiet_gets.
    apply quiet_foldM. intros. apply append_item_quiet.
  - intros [ | x parts]; [apply quiet_ret |]. quiet_gets. apply quiet_ret.
Qed.

Lemma thread_title_quiet parent_msg : quiet (thread_title parent_msg).
Proof.
  unfold thread_title. quiet_gets.
  apply quiet_bind.
  { destruct (negb _); [| apply quiet_ret]. quiet_gets.
    destruct (truthy _); [| apply quiet_ret].
    apply quiet_bind; [apply extract_text_quiet | intros ?; apply quiet_ret]. }
  intros text. quiet_gets.
  apply quiet_bind; [destruct (_ <? _)%nat; [apply quiet_lift | apply quiet_ret] |].
  intros title. quiet_gets. apply quiet_ret.
Qed.

Lemma write_message_quiet local_time file message level :
  quiet (_write_message_md local_time file message level).
Proof.
  unfold _write_message_md. cbv zeta. quiet_gets.
  apply quiet_bind; [apply user_display_quiet |]. intros username. quiet_gets.
  apply quiet_bind.
  { destruct (truthy _); [| apply quiet_ret].
    apply quiet_bind; [apply extract_text_quiet | intros ?; apply quiet_ret]. }
  intros text. apply quiet_bind.
  { destruct (truthy text); [| apply quiet_ret].
    destruct (level =? 0); [apply quiet_ret |]. quiet_gets. apply quiet_ret. }
  intros file'. quiet_gets.
  destruct (truthy _); [| apply quiet_ret]. quiet_gets.
  apply quiet_foldM. intros file'' file_obj. unfold write_file. quiet_gets.
  destruct (level =? 0); apply quiet_ret.
Qed.

(** X19: writing a thread is quiet, whether it returns or raises: it
    opens no further file, it leaves every cached profile as it is,
    and all it asks of the API are user profiles ([users.info]). *)
Theorem thread_body_quiet (local_time : spec_float -> option string)
    (channel_name : string) (channel_id parent_msg : json) (metadata : thread_metadata)
    (started : string) (replies : json) (file : list string) (st : state) :
  let st' := snd (thread_body local_time channel_name channel_id parent_msg metadata
                    started replies file st) in
  opened st' = opened st /\
  (forall k v, user_cache st !! k = Some v -> user_cache st' !! k = Some v) /\
  exists reqs, sent st' = (sent st ++ reqs)%list /\ Forall users_request reqs.
Proof.
  revert st. change (quiet (thread_body local_time channel_name channel_id parent_msg
                              metadata started replies file)).
  unfold thread_body. cbv zeta.
  apply quiet_bind; [apply thread_title_quiet |]. intros title.
  apply quiet_bind.
  { destruct (participants metadata); [apply quiet_ret |]. quiet_gets. apply quiet_ret. }
  intros file1. apply quiet_bind; [apply write_message_quiet |]. intros file2. quiet_gets.
  destruct (_ <? _)%nat; [| apply quiet_ret]. quiet_gets.
  apply quiet_foldM. intros file3 reply.
  apply quiet_bind; [apply write_message_quiet | intros ?; apply quiet_ret].
Qed.

(** *** The title *)

Lemma replace_newline_length s :
  String.length (replace_char "010" " " s) = String.length s.
Proof.
  induction s as [ | c s IH]; [reflexivity |].
  cbn [replace_char]. destruct (Ascii.eqb c "010").
  - rewrite append_cons, append_nil. simpl. rewrite IH. reflexivity.
  - simpl. rewrite IH. reflexivity.
Qed.

Lemma replace_newline_none s : mem_char "010" (replace_char "010" " " s) = false.
Proof.
  induction s as [ | c s IH]; [reflexivity |].
  cbn [replace_char]. destruct (Ascii.eqb c "010") eqn:E.
  - rewrite append_cons, append_nil. cbn [mem_char]. rewrite IH. reflexivity.
  - cbn [mem_char]. rewrite Ascii.eqb_sym, E, IH. reflexivity.
Qed.

Lemma strip_left_mem c s : mem_char c s = false -> mem_char c (strip_left s) = false.
Proof.
  induction s as [ | d s IH]; [auto |].
  cbn [strip_left]. destruct (is_whitespace d); [| auto].
  cbn [mem_char]. intros H. apply orb_false_elim in H as [_ H]. auto.
Qed.

Lemma strip_right_mem c s : mem_char c s = false -> mem_char c (strip_right s) = false.
Proof.
  induction s as [ | d s IH]; [auto |].
  cbn [strip_right mem_char]. intros H. apply orb_false_elim in H as [Hd H].
  specialize (IH H). destruct (strip_right s) as [ | e r].
  - destruct (is_whitespace d); [reflexivity |]. cbn [mem_char]. rewrite Hd. reflexivity.
  - cbn [mem_char] in *. rewrite Hd. exact IH.
Qed.

Lemma strip_left_length s : (String.length (strip_left s) <= String.length s)%nat.
Proof.
  induction s as [ | d s IH]; [simpl; lia |].
  cbn [strip_left]. destruct (is_whitespace d); simpl; lia.
Qed.

Lemma strip_right_length s : (String.length (strip_right s) <= String.length s)%nat.
Proof.
  induction s as [ | d s IH]; [simpl; lia |].
  cbn [strip_right]. destruct (strip_right s) as [ | e r].
  - destruct (is_whitespace d); simpl; lia.
  - simpl in *. lia.
Qed.

(** No white space in front. *)
Lemma strip_left_fixed s :
  match s with String c _ => is_whitespace c = false | EmptyString => True end ->
  strip_left s = s.
Proof. destruct s as [ | c s]; [reflexivity |]. cbn [strip_left]. intros ->. reflexivity. Qed.

Lemma strip_left_head s :
  match strip_left s with String c _ => is_whitespace c = false | EmptyString => True end.
Proof.
  induction s as [ | d s IH]; [exact I |].
  cbn [strip_left]. destruct (is_whitespace d) eqn:E; [exact IH | exact E].
Qed.

Lemma strip_right_head s :
  match s with String c _ => is_whitespace c = false | EmptyString => True end ->
  match strip_right s with String c _ => is_whitespace c = false | EmptyString => True end.
Proof.
  destruct s as [ | d s]; [auto |].
  cbn [strip_right]. intros E. destruct (strip_right s); [rewrite E |]; exact E.
Qed.

Lemma strip_right_idem s : strip_right (strip_right s) = strip_right s.
Proof.
  induction s as [ | d s IH]; [reflexivity |].
  cbn [strip_right]. destruct (strip_right s) as [ | e r] eqn:E.
  - destruct (is_whitespace d) eqn:W; [reflexivity |].
    cbn [strip_right]. rewrite W. reflexivity.
  - change (strip_right (String d (String e r)))
      with (match strip_right (String e r) with
            | EmptyString => if is_whitespace d then EmptyString else String d EmptyString
            | r' => String d r'
            end).
    rewrite IH. reflexivity.
Qed.

Lemma strip_idem s : strip (strip s) = strip s.
Proof.
  unfold strip.
  rewrite (strip_left_fixed (strip_right (strip_left s))).
  - apply strip_right_idem.
  - apply strip_right_head, strip_left_head.
Qed.

Lemma substring_length n s : (String.length (String.substring 0 n s) <= n)%nat.
Proof.
  revert s. induction n as [ | n IH]; intros [ | c s]; simpl; try lia.
  specialize (IH s). lia.
Qed.

(** X20: the title of a thread file is one line of at most 53
    characters, with no white space at either end: whatever the
    parent's text or blocks hold, a title that is computed contains no
    newline, is not longer than 50 characters and the three periods,
    and is left as it is by a further [strip]. *)
Theorem thread_title_one_line (parent_msg : json) (title : string) (st st' : state) :
  thread_title parent_msg st = (Ok title, st') ->
  mem_char "010" title = false /\
  (String.length title <= 53)%nat /\
  strip title = title.
Proof.
  unfold thread_title. intros H.
  apply bind_inv_ok in H as (text0 & s0 & _ & H).
  apply bind_inv_ok in H as (text & s1 & _ & H).
  apply bind_inv_ok in H as (n & s2 & Hn & H). apply lift_inv_ok in Hn as [Hn ->].
  apply bind_inv_ok in H as (title0 & s3 & H0 & H).
  apply bind_inv_ok in H as (title1 & s4 & H1 & H). apply lift_inv_ok in H1 as [H1 ->].
  injection H as <- _.
  destruct title0 as [ | | | t | | ]; try discriminate. injection H1 as <-.
  assert (Hlen : (String.length t <= 53)%nat).
  { destruct (50 <? n)%nat eqn:E.
    - apply lift_inv_ok in H0 as [H0 _].
      destruct text as [ | | | s | | ]; try discriminate. injection H0 as <-.
      rewrite length_append. pose proof (substring_length 50 s). simpl. lia.
    - injection H0 as H0 _. subst text. injection Hn as Hn.
      apply Nat.ltb_ge in E. lia. }
  repeat split.
  - apply strip_right_mem, strip_left_mem, replace_newline_none.
  - unfold strip.
    pose proof (strip_right_length (strip_left (replace_char "010" " " t))).
    pose proof (strip_left_length (replace_char "010" " " t)).
    rewrite replace_newline_length in *. lia.
  - apply strip_idem.
Qed.

Lemma thread_title_one_line_witness :
  thread_title long_parent (init nobody)
  = (Ok "Deploy failed on staging see the build log for the...", init nobody) /\
  mem_char "010" "Deploy failed on staging see the build log for the..." = false /\
  (String.length "Deploy failed on staging see the build log for the..." <= 53)%nat /\
  strip "Deploy failed on staging see the build log for the..."
  = "Deploy failed on staging see the build log for the...".
Proof.
  split; [reflexivity |].
  apply (thread_title_one_line long_parent _ (init nobody) (init nobody)). reflexivity.
Defined.

(** *** Messages *)

Lemma append_assoc_str s t u : (s ++ t) ++ u = s ++ (t ++ u).
Proof.
  induction s as [ | c s IH]; [rewrite !append_nil; reflexivity |].
  rewrite !append_cons, IH. reflexivity.
Qed.

Lemma quoted_intro indent body : quoted indent (indent ++ ">" ++ body ++ nl).
Proof. exists body. reflexivity. Qed.

Lemma fold_left_write (g : string -> string) lines file :
  fold_left (fun file line => write file (g line)) lines file
  = (file ++ map g lines)%list.
Proof.
  revert file. induction lines as [ | line lines IH]; intros file; simpl.
  - rewrite app_nil_r. reflexivity.
  - rewrite IH. unfold write. rewrite <- app_assoc. reflexivity.
Qed.

Lemma write_files_appends indent level files : forall file file' st st',
  foldM (write_file indent level) file files st = (Ok file', st') ->
  exists chunks,
    file' = (file ++ chunks)%list /\
    (level <> 0 -> Forall (quoted indent) chunks).
Proof.
  induction files as [ | file_obj files IH]; intros file file' st st' H.
  - injection H as <- _. exists []. rewrite app_nil_r. auto.
  - cbn [foldM] in H. apply bind_inv_ok in H as (file1 & st1 & H1 & H).
    apply IH in H as (chunks & -> & Hq).
    unfold write_file in H1.
    apply bind_inv_ok in H1 as (file_name & ? & _ & H1).
    apply bind_inv_ok in H1 as (file_title & ? & _ & H1).
    apply bind_inv_ok in H1 as (permalink & ? & _ & H1).
    destruct (level =? 0) eqn:E; injection H1 as <- _; unfold write;
      rewrite <- app_assoc; eexists; (split; [reflexivity |]); intros Hl.
    + apply Z.eqb_eq in E. contradiction.
    + constructor; [| auto].
      exists (" **[File: " ++ str file_title ++ "](" ++ str permalink ++ ")**").
      rewrite !append_assoc_str. reflexivity.
Qed.

(** X21: a message only adds to the file, at least its two header
    lines, and a reply stays inside its block quote: at a level other
    than 0 every string written begins with the indent and [>] and
    ends with a newline. *)
Theorem write_message_quoted (local_time : spec_float -> option string)
    (file file' : list string) (message : json) (level : Z) (st st' : state) :
  _write_message_md local_time file message level st = (Ok file', st') ->
  exists chunks,
    file' = (file ++ chunks)%list /\
    (2 <= length chunks)%nat /\
    (level <> 0 -> Forall (quoted (repeat_str "  " (Z.to_nat level))) chunks).
Proof.
  unfold _write_message_md. cbv zeta. intros H.
  set (indent := repeat_str "  " (Z.to_nat level)) in *.
  apply bind_inv_ok in H as (user_id & ? & _ & H).
  apply bind_inv_ok in H as (username & ? & _ & H).
  apply bind_inv_ok in H as (ts & ? & _ & H).
  apply bind_inv_ok in H as (text0 & ? & _ & H).
  apply bind_inv_ok in H as (blocks & ? & _ & H).
  apply bind_inv_ok in H as (text & ? & _ & H).
  apply bind_inv_ok in H as (file1 & st1 & H1 & H).
  apply bind_inv_ok in H as (files & ? & Hf & H). apply lift_inv_ok in Hf as [_ ->].
  assert (Hfiles : exists chunks,
             file' = (file1 ++ chunks)%list /\ (level <> 0 -> Forall (quoted indent) chunks)).
  { destruct (truthy files).
    - apply bind_inv_ok in H as (files' & ? & _ & H).
      exact (write_files_appends _ _ _ _ _ _ _ H).
    - injection H as <- _. exists []. rewrite app_nil_r. auto. }
  destruct Hfiles as (chunks2 & -> & Hq2). clear H.
  destruct (level =? 0) eqn:E.
  - apply Z.eqb_eq in E.
    destruct (truthy text); injection H1 as <- _; unfold write;
      rewrite <- ?app_assoc; eexists; (split; [reflexivity |]);
      (split; [simpl; lia | intros Hl; contradiction]).
  - assert (Hh1 : quoted indent (indent ++ "> **" ++ str username ++ "** - "
                                        ++ str (format_ts local_time ts) ++ nl)).
    { exists (" **" ++ str username ++ "** - " ++ str (format_ts local_time ts)).
      rewrite !append_assoc_str. reflexivity. }
    assert (Hh2 : quoted indent (indent ++ ">" ++ nl)) by (exists ""; reflexivity).
    destruct (truthy text).
    + apply bind_inv_ok in H1 as (lines & ? & _ & H1). injection H1 as <- _.
      rewrite fold_left_write. unfold write. rewrite <- !app_assoc.
      eexists; split; [reflexivity |]. split; [simpl; lia |]. intros Hl.
      constructor; [exact Hh1 |]. constructor; [exact Hh2 |].
      apply Forall_app. split; [| apply Forall_app; split; [| auto]].
      * apply List.Forall_forall. intros c Hc. apply in_map_iff in Hc as (line & <- & _).
        exists (" " ++ line). reflexivity.
      * constructor; [exact Hh2 | constructor].
    + injection H1 as <- _. unfold write. rewrite <- !app_assoc.
      eexists; split; [reflexivity |]. split; [simpl; lia |]. intros Hl.
      constructor; [exact Hh1 |]. constructor; [exact Hh2 |]. auto.
Qed.

Lemma write_message_quoted_witness :
  exists file' st' chunks,
    _write_message_md still_clock ["# Thread"] (JObj two_line_reply) 1 (init nobody)
    = (Ok file', st') /\
    file' = (["# Thread"] ++ chunks)%list /\
    (2 <= length chunks)%nat /\
    Forall (quoted "  ") chunks.
Proof.
  destruct (_write_message_md still_clock ["# Thread"] (JObj two_line_reply) 1
              (init nobody)) as [[file' | e] st'] eqn:E;
    [| vm_compute in E; discriminate].
  destruct (write_message_quoted _ _ _ _ _ _ _ E) as (chunks & Hf & Hl & Hq).
  exists file', st', chunks.
  split; [reflexivity |]. split; [exact Hf |]. split; [exact Hl |].
  apply Hq. discriminate.
Defined.

Lemma split_char_cons sep s : split_char sep s <> [].
Proof.
  destruct s as [ | c s]; [discriminate |].
  cbn [split_char]. destruct (Ascii.eqb c sep); [discriminate |].
  destruct (split_char sep s); discriminate.
Qed.

Lemma split_char_join s : join nl (split_char "010" s) = s.
Proof.
  induction s as [ | c s IH]; [reflexivity |].
  cbn [split_char]. pose proof (split_char_cons "010" s) as Hne.
  destruct (Ascii.eqb c "010") eqn:E.
  - apply Ascii.eqb_eq in E. subst c.
    destruct (split_char "010" s) as [ | line rest]; [contradiction |].
    change (join nl ("" :: line :: rest)) with ("" ++ nl ++ join nl (line :: rest)).
    rewrite IH. reflexivity.
  - destruct (split_char "010" s) as [ | line rest]; [contradiction |].
    destruct rest as [ | line' rest].
    + simpl in IH. subst line. reflexivity.
    + change (join nl (String c line :: line' :: rest))
        with (String c line ++ nl ++ join nl (line' :: rest)).
      change (join nl (line :: line' :: rest))
        with (line ++ nl ++ join nl (line' :: rest)) in IH.
      rewrite append_cons, IH. reflexivity.
Qed.

Lemma split_char_lines s :
  Forall (fun line => mem_char "010" line = false) (split_char "010" s).
Proof.
  induction s as [ | c s IH]; [repeat constructor |].
  cbn [split_char]. destruct (Ascii.eqb c "010") eqn:E.
  - constructor; [reflexivity | exact IH].
  - destruct (split_char "010" s) as [ | line rest]; [repeat constructor |].
    + cbn [mem_char]. rewrite Ascii.eqb_sym, E. reflexivity.
    + inversion IH as [ | ? ? Hline Hrest]; subst. constructor; [| exact Hrest].
      cbn [mem_char]. rewrite Ascii.eqb_sym, E. exact Hline.
Qed.

(** X22: the text of a reply comes out line by line.  For a reply
    with a non-empty string for text, and neither blocks nor files,
    what is written is the two header lines, then one quoted line for
    each line of the text, then the closing [>] line.  The lines are
    those of the text: none of them contains a newline, and joined by
    newlines they give the text back. *)
Theorem reply_text_by_line (local_time : spec_float -> option string)
    (file : list string) (m : list (string * json)) (t : string) (level : Z)
    (username : json) (st st' : state) :
  level <> 0 ->
  assoc "text" m = Some (JStr t) -> t <> "" ->
  assoc "blocks" m = None -> assoc "files" m = None ->
  _get_user_display (match assoc "user" m with Some u => u | None => JStr "" end)
    (JObj m) st = (Ok username, st') ->
  let indent := repeat_str "  " (Z.to_nat level) in
  let timestamp :=
    format_ts local_time (match assoc "ts" m with Some ts => ts | None => JStr "" end) in
  let lines := split_char "010" t in
  join nl lines = t /\
  Forall (fun line => mem_char "010" line = false) lines /\
  _write_message_md local_time file (JObj m) level st
  = (Ok (file
         ++ [(indent ++ "> **" ++ str username ++ "** - " ++ str timestamp ++ nl)%string;
             (indent ++ ">" ++ nl)%string]
         ++ map (fun line => (indent ++ "> " ++ line ++ nl)%string) lines
         ++ [(indent ++ ">" ++ nl)%string])%list, st').
Proof.
  intros Hl Ht Hne Hb Hf Hu indent timestamp lines.
  split; [apply split_char_join |]. split; [apply split_char_lines |].
  unfold _write_message_md. cbv zeta. fold indent. cbn [get].
  rewrite Ht, Hb, Hf.
  rewrite (bind_lift_ok _ _ _ _ eq_refl).
  rewrite (bind_ok _ _ _ _ _ Hu).
  rewrite (bind_lift_ok _ _ _ _ eq_refl).
  rewrite (bind_lift_ok _ _ _ _ eq_refl).
  rewrite (bind_lift_ok _ _ _ _ eq_refl).
  cbn [truthy].
  apply Z.eqb_neq in Hl. rewrite Hl.
  change (ret (JStr t)) with (lift (Ok (JStr t))).
  rewrite (bind_lift_ok _ _ _ _ eq_refl). cbn [truthy].
  replace (String.eqb t "") with false by (symmetry; apply String.eqb_neq; exact Hne).
  cbn [negb split].
  unfold bind, ret, lift. cbn [truthy].
  rewrite fold_left_write. unfold write. rewrite <- !app_assoc. reflexivity.
Qed.

Lemma reply_text_by_line_witness :
  let text := ("first line" ++ String "010" "" ++ "second line")%string in
  join nl ["first line"; "second line"] = text /\
  Forall (fun line => mem_char "010" line = false) ["first line"; "second line"] /\
  _write_message_md still_clock [] (JObj two_line_reply) 1 (init nobody)
  = (Ok ["  > **User U12345** - 2023-11-14 22:13:20" ++ nl;
         "  >" ++ nl;
         "  > first line" ++ nl;
         "  > second line" ++ nl;
         "  >" ++ nl],
     set_sent [{| endpoint := "users.info"; params := [("user", JStr "U12345")] |}]
       (init nobody)).
Proof.
  exact (reply_text_by_line still_clock [] two_line_reply
           ("first line" ++ nl ++ "second line") 1 (JStr "User U12345")
           (init nobody)
           (set_sent [{| endpoint := "users.info"; params := [("user", JStr "U12345")] |}]
              (init nobody))
           ltac:(discriminate) eq_refl ltac:(discriminate) eq_refl eq_refl eq_refl).
Defined.

